(** * Fragment-size-distribution models: parameter codec, weight sorting and
      the sort transform of [proto/chimera/sources/fsd.py]

    The Python module works on [torch] tensors of floating-point numbers.
    This development embeds one batch row of every tensor as a list of real
    numbers: every operation of the codec acts along the last axis only
    (slices [t[..., a:b]], [torch.cat(_, -1)], [cumsum(-1)], [argsort(dim=-1)]),
    so a batch is the row-wise image of what is defined here.  Floating-point
    numbers are idealised as reals: [exp], [log] and the arithmetic are exact,
    and all statements are about that idealisation.  The reals have no
    counterpart of the range of the floats ([exp] overflowing to [inf] or
    underflowing to 0, the clamps the stick-breaking transform applies,
    [log 0 = -inf]); statements that would depend on it are made of the
    decoded parameters rather than of the rows, or of rows whose entries
    are within the range of [exp] (see [exp_safe]).

    Three library calls behave in ways the real-number functions do not
    determine: the order in which [torch.argsort] returns tied entries,
    the values of the floating-point [exp] outside its range, and what the
    stick-breaking transform returns at a weight that is zero.  For these
    the methods are also given with the library call as a parameter
    ([get_sorted_fsd_xi_by], [decode_with_exp], [encode_with_stick] and
    [decode_with_stick]); the methods over the reals are their instances
    at [argsort_descending], [exp] and [stick_breaking]. *)

From Stdlib Require Import Reals Lra Lia ZArith Sorted.
From stdpp Require Import gmap strings list.

#[local] Open Scope R_scope.

(** ** Python values, exceptions and a small error monad *)

(** One row of a tensor: the entries along the last axis. *)
Definition tensor := list R.

(** The exceptions the module raises.  An [assert] that fails is recorded
    with the line of the source file it stands on, a [KeyError] with the key
    or message it carries. *)
Inductive exn : Type :=
  | AssertionError (lineno : nat)
  | KeyError (what : string).

Inductive result (A : Type) : Type :=
  | Ok (a : A)
  | Raise (e : exn).
Arguments Ok {A} a.
Arguments Raise {A} e.

#[global] Instance result_ret : MRet result := fun A a => Ok a.
#[global] Instance result_bind : MBind result := fun A B f m =>
  match m with
  | Ok a => f a
  | Raise e => Raise e
  end.

(** [assert cond] on source line [lineno]. *)
Definition py_assert (lineno : nat) (cond : bool) : result unit :=
  if cond then Ok tt else Raise (AssertionError lineno).

(** [d[key]] on a [dict] with string keys. *)
Definition getitem {V : Type} (d : gmap string V) (key : string) : result V :=
  match d !! key with
  | Some v => Ok v
  | None => Raise (KeyError key)
  end.

(** [key in d]. *)
Definition contains {V : Type} (d : gmap string V) (key : string) : bool :=
  bool_decide (is_Some (d !! key)).

(** Python's slice [l[start:stop]]: a negative bound counts from the end,
    and both bounds are clamped to the length. *)
Definition slice_index (len i : Z) : Z :=
  if (i <? 0)%Z then Z.max 0 (i + len) else Z.min i len.

Definition py_slice {A : Type} (l : list A) (start stop : Z) : list A :=
  let len := Z.of_nat (length l) in
  let a := slice_index len start in
  let b := slice_index len stop in
  take (Z.to_nat (b - a)) (drop (Z.to_nat a) l).

(** ** Tensor operations along the last axis *)

Definition shape_last (t : tensor) : Z := Z.of_nat (length t).

Definition tensor_log (t : tensor) : tensor := map ln t.
Definition tensor_exp (t : tensor) : tensor := map exp t.
Definition ones (n : nat) : tensor := repeat 1 n.
Definition ones_like (t : tensor) : tensor := map (fun _ => 1) t.
Definition zeros_like (t : tensor) : tensor := map (fun _ => 0) t.

(** Elementwise binary operation on two rows of the same length. *)
Definition tensor_add (a b : tensor) : tensor := zip_with Rplus a b.
Definition tensor_sub (a b : tensor) : tensor := zip_with Rminus a b.
Definition tensor_mul (a b : tensor) : tensor := zip_with Rmult a b.

(** [t.sum(-1)], [t.cumsum(-1)], [t.cumprod(-1)]. *)
Definition tensor_sum (t : tensor) : R := foldr Rplus 0 t.

Fixpoint cumsum_from (acc : R) (t : tensor) : tensor :=
  match t with
  | [] => []
  | x :: t' => (acc + x) :: cumsum_from (acc + x) t'
  end.
Definition cumsum (t : tensor) : tensor := cumsum_from 0 t.

Fixpoint cumprod_from (acc : R) (t : tensor) : tensor :=
  match t with
  | [] => []
  | x :: t' => (acc * x) :: cumprod_from (acc * x) t'
  end.
Definition cumprod (t : tensor) : tensor := cumprod_from 1 t.

(** [torch.logsumexp(t, dim=-1)]. *)
Definition logsumexp (t : tensor) : R := ln (tensor_sum (tensor_exp t)).

(** [torch.logsumexp(log_mu + w.log(), -1)] for weights [w] of which some
    may be zero: [w.log()] is [-inf] there and the entry drops out of the
    sum, so the value is the log of the sum of [w * exp(log_mu)].  For
    positive weights this is [logsumexp (tensor_add log_mu (tensor_log w))]. *)
Definition logsumexp_weighted (log_mu w : tensor) : R :=
  ln (tensor_sum (tensor_mul w (tensor_exp log_mu))).

(** [torch.sigmoid]. *)
Definition sigmoid (x : R) : R := 1 / (1 + exp (- x)).

(** [torch.cat(parts, -1)]. *)
Definition cat (parts : list tensor) : tensor := concat parts.

(** [torch.gather(t, dim=-1, index=idx)]: entry [i] of the result is
    [t[idx[i]]]. *)
Definition gather (t : tensor) (idx : list nat) : tensor :=
  map (fun i => nth i t 0) idx.

(** [torch.argsort(w, dim=-1, descending=True)], with ties keeping their
    relative order: an insertion sort of the positions [0 .. len-1] by
    decreasing entry, where a position moves in front of a later one only
    when its entry is strictly larger. *)
Fixpoint insert_desc (key : nat -> R) (i : nat) (l : list nat) : list nat :=
  match l with
  | [] => [i]
  | j :: l' =>
      if Rlt_dec (key i) (key j) then j :: insert_desc key i l' else i :: l
  end.

Definition sort_desc (key : nat -> R) (l : list nat) : list nat :=
  foldr (insert_desc key) [] l.

Definition argsort_descending (w : tensor) : list nat :=
  sort_desc (fun i => nth i w 0) (seq 0 (length w)).

(** [torch.argsort] is called without [stable=True], and then does not say
    in which order it returns the positions of equal entries.  The other
    extreme of [argsort_descending]: the same insertion sort, except that a
    position stays behind every later one whose entry is at least as
    large, so that ties come out in reverse order. *)
Fixpoint insert_desc_ties_reversed (key : nat -> R) (i : nat) (l : list nat)
  : list nat :=
  match l with
  | [] => [i]
  | j :: l' =>
      if Rle_dec (key i) (key j)
      then j :: insert_desc_ties_reversed key i l'
      else i :: l
  end.

Definition argsort_descending_ties_reversed (w : tensor) : list nat :=
  foldr (insert_desc_ties_reversed (fun i => nth i w 0)) []
        (seq 0 (length w)).

(** ** torch.distributions.transforms.StickBreakingTransform

    The transform between an unconstrained row of length [k] and the
    simplex of [k + 1] weights, as the library defines it (without the
    clamps it applies to floating-point values):
<<
    _call(x):     offset = x.shape[-1] + 1 - ones(x.shape[-1]).cumsum(-1)
                  z = sigmoid(x - offset.log())
                  z_cumprod = (1 - z).cumprod(-1)
                  y = pad(z, [0, 1], value=1) * pad(z_cumprod, [1, 0], value=1)
    _inverse(y):  y_crop = y[..., :-1]
                  offset = y.shape[-1] - ones(y_crop.shape[-1]).cumsum(-1)
                  sf = 1 - y_crop.cumsum(-1)
                  x = y_crop.log() - sf.log() + offset.log()
>> *)
Module StickBreakingTransform.

Definition _call (x : tensor) : tensor :=
  let k := length x in
  let offset := map (fun c => INR k + 1 - c) (cumsum (ones k)) in
  let z := map sigmoid (tensor_sub x (tensor_log offset)) in
  let z_cumprod := cumprod (map (fun zi => 1 - zi) z) in
  tensor_mul (z ++ [1]) (1 :: z_cumprod).

Definition _inverse (y : tensor) : tensor :=
  let y_crop := removelast y in
  let offset :=
    map (fun c => INR (length y) - c) (cumsum (ones (length y_crop))) in
  let sf := map (fun c => 1 - c) (cumsum y_crop) in
  tensor_add (tensor_sub (tensor_log y_crop) (tensor_log sf))
             (tensor_log offset).

End StickBreakingTransform.

(** A [torch.distributions] transform object, as far as the codec uses
    one: [stick(x)] and [stick.inv(y)]. *)
Record Transform : Type := {
  transform_call : tensor -> tensor;
  transform_inv : tensor -> tensor
}.

(** [transforms.StickBreakingTransform()], the value of the class attribute
    [stick], over the reals. *)
Definition stick_breaking : Transform :=
  {| transform_call := StickBreakingTransform._call;
     transform_inv := StickBreakingTransform._inverse |}.

(** ** The dictionaries of mixture parameters *)

(** The six entries of an [fsd_params_dict]. *)
Record MixtureParams : Type := {
  mu_lo : tensor;
  phi_lo : tensor;
  w_lo : tensor;
  mu_hi : tensor;
  phi_hi : tensor;
  w_hi : tensor
}.

(** The dict literal [{'mu_lo': .., 'phi_lo': .., 'w_lo': .., 'mu_hi': ..,
    'phi_hi': .., 'w_hi': ..}]. *)
Definition params_dict (p : MixtureParams) : gmap string tensor :=
  <["mu_lo" := mu_lo p]> (<["phi_lo" := phi_lo p]> (<["w_lo" := w_lo p]>
  (<["mu_hi" := mu_hi p]> (<["phi_hi" := phi_hi p]> (<["w_hi" := w_hi p]> ∅))))).

(** The dict [{'fsd_xi_nq': xi}] handed to [decode]. *)
Definition xi_dict (fsd_xi : tensor) : gmap string tensor :=
  <["fsd_xi_nq" := fsd_xi]> ∅.

(** ** Indexing, and the objects the models read and build *)

(** The functions that index arrays and stack rows raise, besides the
    exceptions above, [IndexError] (an index past the end, recorded with
    the index) and the error with which [torch.cat] refuses an empty list.
    The class of the latter is the library's own and nothing in this module
    depends on it, so it is recorded as [EmptyCatError] without a class. *)
Inductive py_exn : Type :=
  | Exn (e : exn)
  | IndexError (index : nat)
  | EmptyCatError.

Inductive outcome (A : Type) : Type :=
  | Return (a : A)
  | Throw (e : py_exn).
Arguments Return {A} a.
Arguments Throw {A} e.

#[global] Instance outcome_ret : MRet outcome := fun A a => Return a.
#[global] Instance outcome_bind : MBind outcome := fun A B f m =>
  match m with
  | Return a => f a
  | Throw e => Throw e
  end.

Definition lift_result {A : Type} (r : result A) : outcome A :=
  match r with
  | Ok a => Return a
  | Raise e => Throw (Exn e)
  end.

(** [t[..., j]] (and [a[j]] on an array) for [j >= 0]. *)
Definition getindex (t : tensor) (j : nat) : outcome R :=
  match t !! j with
  | Some v => Return v
  | None => Throw (IndexError j)
  end.

(** [range(n)]: empty when [n <= 0]. *)
Definition py_range (n : Z) : list nat := seq 0 (Z.to_nat n).

(** [tuple(body(j) for j in js)], and the loop that appends [body(j)] to a
    list: the bodies run in order and the first exception ends the run. *)
Fixpoint for_each {A B : Type} (js : list A) (body : A -> outcome B)
  : outcome (list B) :=
  match js with
  | [] => Return []
  | j :: js' =>
      b ← body j;
      bs ← for_each js' body;
      Return (b :: bs)
  end.

(** [torch.cat(rows, 0)] of rows that were each given a leading axis: the
    matrix of the rows; an empty list is refused. *)
Definition cat_rows (rows : list tensor) : outcome (list tensor) :=
  match rows with
  | [] => Throw EmptyCatError
  | _ :: _ => Return rows
  end.

(** Modelled from the spec: [pyro_extras.NegativeBinomial(mu, phi)] and
    [pyro_extras.MixtureDistribution(log_weights, components)] are defined
    outside this file; a distribution object is the record of the
    arguments it was built from ("a weighted mixture of negative-binomial
    distributions, one component per index", with its log-weights and its
    (mean, dispersion) pairs). *)
Record NegativeBinomial : Type := {
  nb_mu : tensor;
  nb_phi : tensor
}.

Record MixtureDistribution : Type := {
  log_weights : list tensor;
  components : list NegativeBinomial
}.

(** What the models read of [fingerprint.SingleCellFingerprintDTM]: the
    number of genes and the per-gene empirical estimates. *)
Record SingleCellFingerprintDTM : Type := {
  n_genes : Z;
  empirical_fsd_mu_hi : tensor;
  empirical_fsd_phi_hi : tensor
}.

(** [np.mean] of a one-dimensional array. *)
Definition np_mean (a : tensor) : R := tensor_sum a / INR (length a).

(** ** FSDModelGPLVM: both branches are free parameters *)
Module FSDModelGPLVM.

(** The attributes of the model object that the codec and the
    initialisation read. *)
Record t : Type := {
  n_fsd_lo_comps : Z;
  n_fsd_hi_comps : Z;
  fsd_init_min_mu_lo : R;
  fsd_init_min_mu_hi : R;
  fsd_init_max_phi_lo : R;
  fsd_init_max_phi_hi : R;
  fsd_init_mu_decay : R;
  fsd_init_w_decay : R;
  fsd_init_mu_lo_to_mu_hi_ratio : R
}.

Definition fsd_xi_dim (self : t) : Z :=
  let n_lo := (3 * n_fsd_lo_comps self - 1)%Z in
  let n_hi := (3 * n_fsd_hi_comps self - 1)%Z in
  (n_lo + n_hi)%Z.

Definition encode (self : t) (fsd_params_dict : gmap string tensor)
  : result tensor :=
  let xi_tuple : list tensor := [] in
  mu_hi ← getitem fsd_params_dict "mu_hi";
  let xi_tuple := xi_tuple ++ [tensor_log mu_hi] in
  phi_hi ← getitem fsd_params_dict "phi_hi";
  let xi_tuple := xi_tuple ++ [tensor_log phi_hi] in
  xi_tuple ←
    (if (1 <? n_fsd_hi_comps self)%Z
     then w_hi ← getitem fsd_params_dict "w_hi";
          mret (xi_tuple ++ [StickBreakingTransform._inverse w_hi])
     else mret xi_tuple);
  mu_lo ← getitem fsd_params_dict "mu_lo";
  let xi_tuple := xi_tuple ++ [tensor_log mu_lo] in
  phi_lo ← getitem fsd_params_dict "phi_lo";
  let xi_tuple := xi_tuple ++ [tensor_log phi_lo] in
  xi_tuple ←
    (if (1 <? n_fsd_lo_comps self)%Z
     then w_lo ← getitem fsd_params_dict "w_lo";
          mret (xi_tuple ++ [StickBreakingTransform._inverse w_lo])
     else mret xi_tuple);
  mret (cat xi_tuple).

Definition decode (self : t) (output_dict : gmap string tensor)
    (parents_dict : option (gmap string R))
  : result (gmap string tensor) :=
  _ ← py_assert 232 (contains output_dict "fsd_xi_nq");
  fsd_xi_nq ← getitem output_dict "fsd_xi_nq";
  _ ← py_assert 235 (shape_last fsd_xi_nq =? fsd_xi_dim self)%Z;
  let offset := 0%Z in
  let log_mu_hi :=
    py_slice fsd_xi_nq offset (offset + n_fsd_hi_comps self) in
  let mu_hi := tensor_exp log_mu_hi in
  let offset := (offset + n_fsd_hi_comps self)%Z in
  let log_phi_hi :=
    py_slice fsd_xi_nq offset (offset + n_fsd_hi_comps self) in
  let phi_hi := tensor_exp log_phi_hi in
  let offset := (offset + n_fsd_hi_comps self)%Z in
  let '(w_hi, offset) :=
    if (1 <? n_fsd_hi_comps self)%Z
    then (StickBreakingTransform._call
            (py_slice fsd_xi_nq offset (offset + n_fsd_hi_comps self - 1)),
          (offset + (n_fsd_hi_comps self - 1))%Z)
    else (ones_like mu_hi, offset) in
  let log_mu_lo :=
    py_slice fsd_xi_nq offset (offset + n_fsd_lo_comps self) in
  let mu_lo := tensor_exp log_mu_lo in
  let offset := (offset + n_fsd_lo_comps self)%Z in
  let log_phi_lo :=
    py_slice fsd_xi_nq offset (offset + n_fsd_lo_comps self) in
  let phi_lo := tensor_exp log_phi_lo in
  let offset := (offset + n_fsd_lo_comps self)%Z in
  let '(w_lo, offset) :=
    if (1 <? n_fsd_lo_comps self)%Z
    then (StickBreakingTransform._call
            (py_slice fsd_xi_nq offset (offset + n_fsd_lo_comps self - 1)),
          (offset + (n_fsd_lo_comps self - 1))%Z)
    else (ones_like mu_lo, offset) in
  mret (params_dict {| mu_lo := mu_lo; phi_lo := phi_lo; w_lo := w_lo;
                       mu_hi := mu_hi; phi_hi := phi_hi; w_hi := w_hi |}).

(** [encode] and [decode] with the class attribute [stick] left open: the
    two methods above are the case [stick := stick_breaking]. *)
Definition encode_with_stick (stick : Transform) (self : t)
    (fsd_params_dict : gmap string tensor)
  : result tensor :=
  let xi_tuple : list tensor := [] in
  mu_hi ← getitem fsd_params_dict "mu_hi";
  let xi_tuple := xi_tuple ++ [tensor_log mu_hi] in
  phi_hi ← getitem fsd_params_dict "phi_hi";
  let xi_tuple := xi_tuple ++ [tensor_log phi_hi] in
  xi_tuple ←
    (if (1 <? n_fsd_hi_comps self)%Z
     then w_hi ← getitem fsd_params_dict "w_hi";
          mret (xi_tuple ++ [transform_inv stick w_hi])
     else mret xi_tuple);
  mu_lo ← getitem fsd_params_dict "mu_lo";
  let xi_tuple := xi_tuple ++ [tensor_log mu_lo] in
  phi_lo ← getitem fsd_params_dict "phi_lo";
  let xi_tuple := xi_tuple ++ [tensor_log phi_lo] in
  xi_tuple ←
    (if (1 <? n_fsd_lo_comps self)%Z
     then w_lo ← getitem fsd_params_dict "w_lo";
          mret (xi_tuple ++ [transform_inv stick w_lo])
     else mret xi_tuple);
  mret (cat xi_tuple).

Definition decode_with_stick (stick : Transform) (self : t)
    (output_dict : gmap string tensor)
    (parents_dict : option (gmap string R))
  : result (gmap string tensor) :=
  _ ← py_assert 232 (contains output_dict "fsd_xi_nq");
  fsd_xi_nq ← getitem output_dict "fsd_xi_nq";
  _ ← py_assert 235 (shape_last fsd_xi_nq =? fsd_xi_dim self)%Z;
  let offset := 0%Z in
  let log_mu_hi :=
    py_slice fsd_xi_nq offset (offset + n_fsd_hi_comps self) in
  let mu_hi := tensor_exp log_mu_hi in
  let offset := (offset + n_fsd_hi_comps self)%Z in
  let log_phi_hi :=
    py_slice fsd_xi_nq offset (offset + n_fsd_hi_comps self) in
  let phi_hi := tensor_exp log_phi_hi in
  let offset := (offset + n_fsd_hi_comps self)%Z in
  let '(w_hi, offset) :=
    if (1 <? n_fsd_hi_comps self)%Z
    then (transform_call stick
            (py_slice fsd_xi_nq offset (offset + n_fsd_hi_comps self - 1)),
          (offset + (n_fsd_hi_comps self - 1))%Z)
    else (ones_like mu_hi, offset) in
  let log_mu_lo :=
    py_slice fsd_xi_nq offset (offset + n_fsd_lo_comps self) in
  let mu_lo := tensor_exp log_mu_lo in
  let offset := (offset + n_fsd_lo_comps self)%Z in
  let log_phi_lo :=
    py_slice fsd_xi_nq offset (offset + n_fsd_lo_comps self) in
  let phi_lo := tensor_exp log_phi_lo in
  let offset := (offset + n_fsd_lo_comps self)%Z in
  let '(w_lo, offset) :=
    if (1 <? n_fsd_lo_comps self)%Z
    then (transform_call stick
            (py_slice fsd_xi_nq offset (offset + n_fsd_lo_comps self - 1)),
          (offset + (n_fsd_lo_comps self - 1))%Z)
    else (ones_like mu_lo, offset) in
  mret (params_dict {| mu_lo := mu_lo; phi_lo := phi_lo; w_lo := w_lo;
                       mu_hi := mu_hi; phi_hi := phi_hi; w_hi := w_hi |}).

(** [decode] with the exponential of the tensors left open: [float_exp]
    stands for [torch.exp] on the floating-point type of the model, which
    the four [.exp()] calls of [decode] apply entrywise; [decode] above is
    the case [float_exp := exp]. *)
Definition decode_with_exp (float_exp : R -> R) (self : t)
    (output_dict : gmap string tensor)
    (parents_dict : option (gmap string R))
  : result (gmap string tensor) :=
  _ ← py_assert 232 (contains output_dict "fsd_xi_nq");
  fsd_xi_nq ← getitem output_dict "fsd_xi_nq";
  _ ← py_assert 235 (shape_last fsd_xi_nq =? fsd_xi_dim self)%Z;
  let offset := 0%Z in
  let log_mu_hi :=
    py_slice fsd_xi_nq offset (offset + n_fsd_hi_comps self) in
  let mu_hi := map float_exp log_mu_hi in
  let offset := (offset + n_fsd_hi_comps self)%Z in
  let log_phi_hi :=
    py_slice fsd_xi_nq offset (offset + n_fsd_hi_comps self) in
  let phi_hi := map float_exp log_phi_hi in
  let offset := (offset + n_fsd_hi_comps self)%Z in
  let '(w_hi, offset) :=
    if (1 <? n_fsd_hi_comps self)%Z
    then (StickBreakingTransform._call
            (py_slice fsd_xi_nq offset (offset + n_fsd_hi_comps self - 1)),
          (offset + (n_fsd_hi_comps self - 1))%Z)
    else (ones_like mu_hi, offset) in
  let log_mu_lo :=
    py_slice fsd_xi_nq offset (offset + n_fsd_lo_comps self) in
  let mu_lo := map float_exp log_mu_lo in
  let offset := (offset + n_fsd_lo_comps self)%Z in
  let log_phi_lo :=
    py_slice fsd_xi_nq offset (offset + n_fsd_lo_comps self) in
  let phi_lo := map float_exp log_phi_lo in
  let offset := (offset + n_fsd_lo_comps self)%Z in
  let '(w_lo, offset) :=
    if (1 <? n_fsd_lo_comps self)%Z
    then (StickBreakingTransform._call
            (py_slice fsd_xi_nq offset (offset + n_fsd_lo_comps self - 1)),
          (offset + (n_fsd_lo_comps self - 1))%Z)
    else (ones_like mu_lo, offset) in
  mret (params_dict {| mu_lo := mu_lo; phi_lo := phi_lo; w_lo := w_lo;
                       mu_hi := mu_hi; phi_hi := phi_hi; w_hi := w_hi |}).

Definition get_sorted_params_dict (fsd_params_dict : gmap string tensor)
  : result (gmap string tensor) :=
  w_lo ← getitem fsd_params_dict "w_lo";
  let fsd_lo_sort_order := argsort_descending w_lo in
  w_hi ← getitem fsd_params_dict "w_hi";
  let fsd_hi_sort_order := argsort_descending w_hi in
  mu_lo ← getitem fsd_params_dict "mu_lo";
  phi_lo ← getitem fsd_params_dict "phi_lo";
  w_lo ← getitem fsd_params_dict "w_lo";
  mu_hi ← getitem fsd_params_dict "mu_hi";
  phi_hi ← getitem fsd_params_dict "phi_hi";
  w_hi ← getitem fsd_params_dict "w_hi";
  mret (params_dict
          {| mu_lo := gather mu_lo fsd_lo_sort_order;
             phi_lo := gather phi_lo fsd_lo_sort_order;
             w_lo := gather w_lo fsd_lo_sort_order;
             mu_hi := gather mu_hi fsd_hi_sort_order;
             phi_hi := gather phi_hi fsd_hi_sort_order;
             w_hi := gather w_hi fsd_hi_sort_order |}).

Definition get_sorted_fsd_xi (self : t) (fsd_xi : tensor) : result tensor :=
  fsd_params_dict ← decode self (xi_dict fsd_xi) None;
  sorted_fsd_params_dict ← get_sorted_params_dict fsd_params_dict;
  encode self sorted_fsd_params_dict.

(** The same two methods with the order that [torch.argsort] returns left
    open: [argsort] stands for the library call, and
    [get_sorted_params_dict] and [get_sorted_fsd_xi] above are the case
    [argsort := argsort_descending]. *)
Definition get_sorted_params_dict_by (argsort : tensor -> list nat)
    (fsd_params_dict : gmap string tensor)
  : result (gmap string tensor) :=
  w_lo ← getitem fsd_params_dict "w_lo";
  let fsd_lo_sort_order := argsort w_lo in
  w_hi ← getitem fsd_params_dict "w_hi";
  let fsd_hi_sort_order := argsort w_hi in
  mu_lo ← getitem fsd_params_dict "mu_lo";
  phi_lo ← getitem fsd_params_dict "phi_lo";
  w_lo ← getitem fsd_params_dict "w_lo";
  mu_hi ← getitem fsd_params_dict "mu_hi";
  phi_hi ← getitem fsd_params_dict "phi_hi";
  w_hi ← getitem fsd_params_dict "w_hi";
  mret (params_dict
          {| mu_lo := gather mu_lo fsd_lo_sort_order;
             phi_lo := gather phi_lo fsd_lo_sort_order;
             w_lo := gather w_lo fsd_lo_sort_order;
             mu_hi := gather mu_hi fsd_hi_sort_order;
             phi_hi := gather phi_hi fsd_hi_sort_order;
             w_hi := gather w_hi fsd_hi_sort_order |}).

Definition get_sorted_fsd_xi_by (argsort : tensor -> list nat)
    (self : t) (fsd_xi : tensor) : result tensor :=
  fsd_params_dict ← decode self (xi_dict fsd_xi) None;
  sorted_fsd_params_dict ← get_sorted_params_dict_by argsort fsd_params_dict;
  encode self sorted_fsd_params_dict.

(** [np.power(np.asarray([base]), np.arange(n))]. *)
Definition power_arange (base : R) (n : Z) : tensor :=
  map (fun i => base ^ i) (seq 0 (Z.to_nat n)).

Definition generate_fsd_init_params (self : t) (mu_hi_guess phi_hi_guess : R)
  : tensor * tensor * tensor * tensor * tensor * tensor :=
  let mu_lo :=
    map (fun p => fsd_init_mu_lo_to_mu_hi_ratio self * mu_hi_guess * p)
        (power_arange (fsd_init_mu_decay self) (n_fsd_lo_comps self)) in
  let mu_lo := map (fun m => Rmax m (1.1 * fsd_init_min_mu_lo self)) mu_lo in
  let phi_lo := ones (Z.to_nat (n_fsd_lo_comps self)) in
  let w_lo := power_arange (fsd_init_w_decay self) (n_fsd_lo_comps self) in
  let w_lo := map (fun w => w / tensor_sum w_lo) w_lo in
  let mu_hi :=
    map (fun p => mu_hi_guess * p)
        (power_arange (fsd_init_mu_decay self) (n_fsd_hi_comps self)) in
  let mu_hi := map (fun m => Rmax m (1.1 * fsd_init_min_mu_hi self)) mu_hi in
  let phi_hi :=
    map (fun o => Rmin phi_hi_guess (0.9 * fsd_init_max_phi_hi self) * o)
        (ones (Z.to_nat (n_fsd_hi_comps self))) in
  let w_hi := power_arange (fsd_init_w_decay self) (n_fsd_hi_comps self) in
  let w_hi := map (fun w => w / tensor_sum w_hi) w_hi in
  (mu_lo, phi_lo, w_lo, mu_hi, phi_hi, w_hi).

Definition get_fsd_components (self : t)
    (fsd_params_dict : gmap string tensor)
  : outcome (MixtureDistribution * MixtureDistribution) :=
  log_w_nb_lo_tuple ←
    for_each (py_range (n_fsd_lo_comps self)) (fun j =>
      w_lo ← lift_result (getitem fsd_params_dict "w_lo");
      w ← getindex w_lo j;
      Return [ln w]);
  nb_lo_components_tuple ←
    for_each (py_range (n_fsd_lo_comps self)) (fun j =>
      mu_lo ← lift_result (getitem fsd_params_dict "mu_lo");
      mu ← getindex mu_lo j;
      phi_lo ← lift_result (getitem fsd_params_dict "phi_lo");
      phi ← getindex phi_lo j;
      Return {| nb_mu := [mu]; nb_phi := [phi] |});
  log_w_nb_hi_tuple ←
    for_each (py_range (n_fsd_hi_comps self)) (fun j =>
      w_hi ← lift_result (getitem fsd_params_dict "w_hi");
      w ← getindex w_hi j;
      Return [ln w]);
  nb_hi_components_tuple ←
    for_each (py_range (n_fsd_hi_comps self)) (fun j =>
      mu_hi ← lift_result (getitem fsd_params_dict "mu_hi");
      mu ← getindex mu_hi j;
      phi_hi ← lift_result (getitem fsd_params_dict "phi_hi");
      phi ← getindex phi_hi j;
      Return {| nb_mu := [mu]; nb_phi := [phi] |});
  let dist_lo := {| log_weights := log_w_nb_lo_tuple;
                    components := nb_lo_components_tuple |} in
  let dist_hi := {| log_weights := log_w_nb_hi_tuple;
                    components := nb_hi_components_tuple |} in
  Return (dist_lo, dist_hi).

(** The two cached properties below read [self.sc_fingerprint_dtm], which
    is passed here beside [self]. *)
Definition init_fsd_xi_loc_prior (self : t)
    (sc_fingerprint_dtm : SingleCellFingerprintDTM) : result tensor :=
  let '(init_fsd_mu_lo, init_fsd_phi_lo, init_fsd_w_lo,
        init_fsd_mu_hi, init_fsd_phi_hi, init_fsd_w_hi) :=
    generate_fsd_init_params self
      (np_mean (empirical_fsd_mu_hi sc_fingerprint_dtm))
      (np_mean (empirical_fsd_phi_hi sc_fingerprint_dtm)) in
  encode self
    (params_dict {| mu_lo := init_fsd_mu_lo; phi_lo := init_fsd_phi_lo;
                    w_lo := init_fsd_w_lo; mu_hi := init_fsd_mu_hi;
                    phi_hi := init_fsd_phi_hi; w_hi := init_fsd_w_hi |}).

Definition init_fsd_xi_loc_posterior (self : t)
    (sc_fingerprint_dtm : SingleCellFingerprintDTM)
  : outcome (list tensor) :=
  xi_list ←
    for_each (py_range (n_genes sc_fingerprint_dtm)) (fun i_gene =>
      mu_hi_guess ←
        getindex (empirical_fsd_mu_hi sc_fingerprint_dtm) i_gene;
      phi_hi_guess ←
        getindex (empirical_fsd_phi_hi sc_fingerprint_dtm) i_gene;
      let '(mu_lo, phi_lo, w_lo, mu_hi, phi_hi, w_hi) :=
        generate_fsd_init_params self mu_hi_guess phi_hi_guess in
      lift_result
        (encode self
           (params_dict {| mu_lo := mu_lo; phi_lo := phi_lo; w_lo := w_lo;
                           mu_hi := mu_hi; phi_hi := phi_hi;
                           w_hi := w_hi |})));
  cat_rows xi_list.

End FSDModelGPLVM.

(** ** FSDModelGPLVMRestricted: the lo branch is derived from the hi branch *)
Module FSDModelGPLVMRestricted.

Record t : Type := {
  n_fsd_hi_comps : Z;
  log_mu_lo_intercept : R;
  log_mu_lo_slope : R;
  detach_non_inducing_genes : bool
}.

(** [self.n_fsd_lo_comps = 1] in the constructor. *)
Definition n_fsd_lo_comps (self : t) : Z := 1%Z.

Definition fsd_xi_dim (self : t) : Z :=
  let n_hi := (3 * n_fsd_hi_comps self - 1)%Z in
  n_hi.

Definition encode (self : t) (fsd_params_dict : gmap string tensor)
  : result tensor :=
  let xi_tuple : list tensor := [] in
  mu_hi ← getitem fsd_params_dict "mu_hi";
  let xi_tuple := xi_tuple ++ [tensor_log mu_hi] in
  phi_hi ← getitem fsd_params_dict "phi_hi";
  let xi_tuple := xi_tuple ++ [tensor_log phi_hi] in
  xi_tuple ←
    (if (1 <? n_fsd_hi_comps self)%Z
     then w_hi ← getitem fsd_params_dict "w_hi";
          mret (xi_tuple ++ [StickBreakingTransform._inverse w_hi])
     else mret xi_tuple);
  mret (cat xi_tuple).

(** [encode] with the attribute [FSDModelGPLVM.stick] left open; [encode]
    above is the case [stick := stick_breaking]. *)
Definition encode_with_stick (stick : Transform) (self : t)
    (fsd_params_dict : gmap string tensor)
  : result tensor :=
  let xi_tuple : list tensor := [] in
  mu_hi ← getitem fsd_params_dict "mu_hi";
  let xi_tuple := xi_tuple ++ [tensor_log mu_hi] in
  phi_hi ← getitem fsd_params_dict "phi_hi";
  let xi_tuple := xi_tuple ++ [tensor_log phi_hi] in
  xi_tuple ←
    (if (1 <? n_fsd_hi_comps self)%Z
     then w_hi ← getitem fsd_params_dict "w_hi";
          mret (xi_tuple ++ [transform_inv stick w_hi])
     else mret xi_tuple);
  mret (cat xi_tuple).

Section Decode.

(** [utils.get_detached_on_non_inducing_genes(input_scalar,
    inducing_binary_mask_tensor_n, non_inducing_binary_mask_tensor_n)]
    is imported from a module outside this file: the value it returns
    for one row, given the scalar and the row's two mask entries. *)
Variable get_detached_on_non_inducing_genes : R -> R -> R -> R.

Definition decode (self : t) (output_dict : gmap string tensor)
    (parents_dict : option (gmap string R))
  : result (gmap string tensor) :=
  _ ← py_assert 579 (contains output_dict "fsd_xi_nq");
  fsd_xi_nq ← getitem output_dict "fsd_xi_nq";
  _ ← py_assert 582 (shape_last fsd_xi_nq =? fsd_xi_dim self)%Z;
  let offset := 0%Z in
  let log_mu_hi :=
    py_slice fsd_xi_nq offset (offset + n_fsd_hi_comps self) in
  let mu_hi := tensor_exp log_mu_hi in
  let offset := (offset + n_fsd_hi_comps self)%Z in
  let log_phi_hi :=
    py_slice fsd_xi_nq offset (offset + n_fsd_hi_comps self) in
  let phi_hi := tensor_exp log_phi_hi in
  let offset := (offset + n_fsd_hi_comps self)%Z in
  let '(w_hi, offset) :=
    if (1 <? n_fsd_hi_comps self)%Z
    then (StickBreakingTransform._call
            (py_slice fsd_xi_nq offset (offset + n_fsd_hi_comps self - 1)),
          (offset + (n_fsd_hi_comps self - 1))%Z)
    else (ones_like mu_hi, offset) in
  '(log_mu_lo_intercept_n, log_mu_lo_slope_n) ←
    match detach_non_inducing_genes self, parents_dict with
    | true, Some parents_dict =>
        _ ← py_assert 603
              (contains parents_dict "inducing_binary_mask_tensor_n");
        _ ← py_assert 604
              (contains parents_dict "non_inducing_binary_mask_tensor_n");
        inducing_binary_mask_tensor_n ←
          getitem parents_dict "inducing_binary_mask_tensor_n";
        non_inducing_binary_mask_tensor_n ←
          getitem parents_dict "non_inducing_binary_mask_tensor_n";
        mret (get_detached_on_non_inducing_genes
                (log_mu_lo_intercept self)
                inducing_binary_mask_tensor_n
                non_inducing_binary_mask_tensor_n,
              get_detached_on_non_inducing_genes
                (log_mu_lo_slope self)
                inducing_binary_mask_tensor_n
                non_inducing_binary_mask_tensor_n)
    | _, _ => mret (log_mu_lo_intercept self, log_mu_lo_slope self)
    end;
  let log_mean_mu_hi :=
    logsumexp (tensor_add log_mu_hi (tensor_log w_hi)) in
  let log_mu_lo :=
    [log_mu_lo_intercept_n + log_mu_lo_slope_n * log_mean_mu_hi] in
  let mu_lo := tensor_exp log_mu_lo in
  let phi_lo := ones_like mu_lo in
  let w_lo := ones_like mu_lo in
  mret (params_dict {| mu_lo := mu_lo; phi_lo := phi_lo; w_lo := w_lo;
                       mu_hi := mu_hi; phi_hi := phi_hi; w_hi := w_hi |}).

Definition get_sorted_fsd_xi (self : t) (fsd_xi : tensor)
  : result tensor :=
  fsd_params_dict ← decode self (xi_dict fsd_xi) None;
  w_hi ← getitem fsd_params_dict "w_hi";
  let fsd_hi_sort_order := argsort_descending w_hi in
  mu_hi ← getitem fsd_params_dict "mu_hi";
  phi_hi ← getitem fsd_params_dict "phi_hi";
  w_hi ← getitem fsd_params_dict "w_hi";
  let sorted_fsd_params_dict : gmap string tensor :=
    <["mu_hi" := gather mu_hi fsd_hi_sort_order]>
    (<["phi_hi" := gather phi_hi fsd_hi_sort_order]>
    (<["w_hi" := gather w_hi fsd_hi_sort_order]> ∅)) in
  encode self sorted_fsd_params_dict.

(** [decode] with the attribute [FSDModelGPLVM.stick] left open.  A
    transform may return a weight that is zero, so [w_hi.log()] is taken
    with [logsumexp_weighted]; [decode] above is the case
    [stick := stick_breaking], whose weights are all positive. *)
Definition decode_with_stick (stick : Transform) (self : t)
    (output_dict : gmap string tensor)
    (parents_dict : option (gmap string R))
  : result (gmap string tensor) :=
  _ ← py_assert 579 (contains output_dict "fsd_xi_nq");
  fsd_xi_nq ← getitem output_dict "fsd_xi_nq";
  _ ← py_assert 582 (shape_last fsd_xi_nq =? fsd_xi_dim self)%Z;
  let offset := 0%Z in
  let log_mu_hi :=
    py_slice fsd_xi_nq offset (offset + n_fsd_hi_comps self) in
  let mu_hi := tensor_exp log_mu_hi in
  let offset := (offset + n_fsd_hi_comps self)%Z in
  let log_phi_hi :=
    py_slice fsd_xi_nq offset (offset + n_fsd_hi_comps self) in
  let phi_hi := tensor_exp log_phi_hi in
  let offset := (offset + n_fsd_hi_comps self)%Z in
  let '(w_hi, offset) :=
    if (1 <? n_fsd_hi_comps self)%Z
    then (transform_call stick
            (py_slice fsd_xi_nq offset (offset + n_fsd_hi_comps self - 1)),
          (offset + (n_fsd_hi_comps self - 1))%Z)
    else (ones_like mu_hi, offset) in
  '(log_mu_lo_intercept_n, log_mu_lo_slope_n) ←
    match detach_non_inducing_genes self, parents_dict with
    | true, Some parents_dict =>
        _ ← py_assert 603
              (contains parents_dict "inducing_binary_mask_tensor_n");
        _ ← py_assert 604
              (contains parents_dict "non_inducing_binary_mask_tensor_n");
        inducing_binary_mask_tensor_n ←
          getitem parents_dict "inducing_binary_mask_tensor_n";
        non_inducing_binary_mask_tensor_n ←
          getitem parents_dict "non_inducing_binary_mask_tensor_n";
        mret (get_detached_on_non_inducing_genes
                (log_mu_lo_intercept self)
                inducing_binary_mask_tensor_n
                non_inducing_binary_mask_tensor_n,
              get_detached_on_non_inducing_genes
                (log_mu_lo_slope self)
                inducing_binary_mask_tensor_n
                non_inducing_binary_mask_tensor_n)
    | _, _ => mret (log_mu_lo_intercept self, log_mu_lo_slope self)
    end;
  let log_mean_mu_hi := logsumexp_weighted log_mu_hi w_hi in
  let log_mu_lo :=
    [log_mu_lo_intercept_n + log_mu_lo_slope_n * log_mean_mu_hi] in
  let mu_lo := tensor_exp log_mu_lo in
  let phi_lo := ones_like mu_lo in
  let w_lo := ones_like mu_lo in
  mret (params_dict {| mu_lo := mu_lo; phi_lo := phi_lo; w_lo := w_lo;
                       mu_hi := mu_hi; phi_hi := phi_hi; w_hi := w_hi |}).

(** The same method with the order that [torch.argsort] returns left open;
    [get_sorted_fsd_xi] is the case [argsort := argsort_descending]. *)
Definition get_sorted_fsd_xi_by (argsort : tensor -> list nat)
    (self : t) (fsd_xi : tensor)
  : result tensor :=
  fsd_params_dict ← decode self (xi_dict fsd_xi) None;
  w_hi ← getitem fsd_params_dict "w_hi";
  let fsd_hi_sort_order := argsort w_hi in
  mu_hi ← getitem fsd_params_dict "mu_hi";
  phi_hi ← getitem fsd_params_dict "phi_hi";
  w_hi ← getitem fsd_params_dict "w_hi";
  let sorted_fsd_params_dict : gmap string tensor :=
    <["mu_hi" := gather mu_hi fsd_hi_sort_order]>
    (<["phi_hi" := gather phi_hi fsd_hi_sort_order]>
    (<["w_hi" := gather w_hi fsd_hi_sort_order]> ∅)) in
  encode self sorted_fsd_params_dict.

End Decode.

(** The same method as in [FSDModelGPLVM], with the single lo component of
    this class. *)
Definition get_fsd_components (self : t)
    (fsd_params_dict : gmap string tensor)
  : outcome (MixtureDistribution * MixtureDistribution) :=
  log_w_nb_lo_tuple ←
    for_each (py_range (n_fsd_lo_comps self)) (fun j =>
      w_lo ← lift_result (getitem fsd_params_dict "w_lo");
      w ← getindex w_lo j;
      Return [ln w]);
  nb_lo_components_tuple ←
    for_each (py_range (n_fsd_lo_comps self)) (fun j =>
      mu_lo ← lift_result (getitem fsd_params_dict "mu_lo");
      mu ← getindex mu_lo j;
      phi_lo ← lift_result (getitem fsd_params_dict "phi_lo");
      phi ← getindex phi_lo j;
      Return {| nb_mu := [mu]; nb_phi := [phi] |});
  log_w_nb_hi_tuple ←
    for_each (py_range (n_fsd_hi_comps self)) (fun j =>
      w_hi ← lift_result (getitem fsd_params_dict "w_hi");
      w ← getindex w_hi j;
      Return [ln w]);
  nb_hi_components_tuple ←
    for_each (py_range (n_fsd_hi_comps self)) (fun j =>
      mu_hi ← lift_result (getitem fsd_params_dict "mu_hi");
      mu ← getindex mu_hi j;
      phi_hi ← lift_result (getitem fsd_params_dict "phi_hi");
      phi ← getindex phi_hi j;
      Return {| nb_mu := [mu]; nb_phi := [phi] |});
  let dist_lo := {| log_weights := log_w_nb_lo_tuple;
                    components := nb_lo_components_tuple |} in
  let dist_hi := {| log_weights := log_w_nb_hi_tuple;
                    components := nb_hi_components_tuple |} in
  Return (dist_lo, dist_hi).

End FSDModelGPLVMRestricted.

(** ** The FSDModel interface and the sort transform *)

(** What [SortByComponentWeights] uses of the abstract class [FSDModel]. *)
Class FSDModel (M : Type) : Type := {
  get_sorted_fsd_xi : M -> tensor -> result tensor
}.

#[global] Instance FSDModelGPLVM_FSDModel : FSDModel FSDModelGPLVM.t :=
  {| get_sorted_fsd_xi := FSDModelGPLVM.get_sorted_fsd_xi |}.

#[global] Instance FSDModelGPLVMRestricted_FSDModel
    (get_detached : R -> R -> R -> R) : FSDModel FSDModelGPLVMRestricted.t :=
  {| get_sorted_fsd_xi :=
       FSDModelGPLVMRestricted.get_sorted_fsd_xi get_detached |}.

(** A tensor object: Python hashes and compares tensors used as dict keys
    by object identity, so an object carries the identity the runtime gave
    it besides its entries. *)
Record tensor_obj : Type := {
  obj_id : nat;
  obj_val : tensor
}.

Module SortByComponentWeights.

(** The state a transform instance works on: its own
    [_intermediates_cache], keyed by the identity of the output tensor,
    and the runtime's next unused object identity. *)
Record state : Type := {
  next_id : nat;
  _intermediates_cache : gmap nat tensor_obj
}.

(** [__init__]: an empty cache. *)
Definition init (next : nat) : state :=
  {| next_id := next; _intermediates_cache := ∅ |}.

Definition _add_intermediate_to_cache (x y : tensor_obj) (st : state)
  : result (unit * state) :=
  _ ← py_assert 77
        (negb (bool_decide (is_Some (_intermediates_cache st !! obj_id y))));
  mret (tt, {| next_id := next_id st;
               _intermediates_cache :=
                 <[obj_id y := x]> (_intermediates_cache st) |}).

Section Transform.
Context {M : Type} `{FSDModel M} (fsd_model : M).

Definition _call (x : tensor_obj) (st : state)
  : result (tensor_obj * state) :=
  y_val ← get_sorted_fsd_xi fsd_model (obj_val x);
  let y := {| obj_id := next_id st; obj_val := y_val |} in
  let st := {| next_id := S (next_id st);
               _intermediates_cache := _intermediates_cache st |} in
  '(_, st) ← _add_intermediate_to_cache x y st;
  mret (y, st).

End Transform.

Definition _inverse (y : tensor_obj) (st : state)
  : result (tensor_obj * state) :=
  match _intermediates_cache st !! obj_id y with
  | Some x =>
      mret (x, {| next_id := next_id st;
                  _intermediates_cache :=
                    delete (obj_id y) (_intermediates_cache st) |})
  | None =>
      Raise (KeyError
        "SortByComponentWeights expected to find key in intermediates cache but didn't")
  end.

(** The runtime creates an object somewhere else: one identity is used up,
    the cache is untouched. *)
Definition foreign_alloc (st : state) : state :=
  {| next_id := S (next_id st);
     _intermediates_cache := _intermediates_cache st |}.

(** The life of one transform instance: [run fsd_model st outs] when [st]
    is reached from a fresh instance by forward calls, inverse calls and
    allocations elsewhere, [outs] being the outputs of its forward calls so
    far, latest first. *)
Inductive run {M : Type} `{FSDModel M} (fsd_model : M)
  : state -> list tensor_obj -> Prop :=
  | run_init (next : nat) : run fsd_model (init next) []
  | run_call (st st' : state) (outs : list tensor_obj) (x y : tensor_obj) :
      run fsd_model st outs ->
      _call fsd_model x st = Ok (y, st') ->
      run fsd_model st' (y :: outs)
  | run_inverse (st st' : state) (outs : list tensor_obj)
      (x y : tensor_obj) :
      run fsd_model st outs ->
      _inverse y st = Ok (x, st') ->
      run fsd_model st' outs
  | run_alloc (st : state) (outs : list tensor_obj) :
      run fsd_model st outs ->
      run fsd_model (foreign_alloc st) outs.

Definition log_abs_det_jacobian (x y : tensor_obj) : tensor :=
  zeros_like (obj_val x).

End SortByComponentWeights.

(** ** Specification predicates *)

(** Entries that never increase, or that strictly decrease, along the
    component index. *)
Definition non_increasing (w : tensor) : Prop :=
  Sorted (fun a b => b <= a) w.

Definition strictly_decreasing (w : tensor) : Prop :=
  Sorted (fun a b => b < a) w.

Definition all_positive (t : tensor) : Prop := Forall (fun v => 0 < v) t.

(** The probability simplex, and its interior where every weight has a
    finite logarithm. *)
Definition on_simplex (w : tensor) : Prop :=
  Forall (fun v => 0 <= v) w /\ tensor_sum w = 1.

Definition in_open_simplex (w : tensor) : Prop :=
  all_positive w /\ tensor_sum w = 1.

(** What [torch.argsort(w, dim=-1, descending=True)] promises of every
    row, whatever it does with ties: the positions [0 .. len-1], each
    once, in an order along which the entries never increase. *)
Definition descending_argsort (argsort : tensor -> list nat) : Prop :=
  forall w : tensor,
    Permutation (argsort w) (seq 0 (length w))
    /\ non_increasing (gather w (argsort w)).

(** The tensors are float32 ([dtype=torch.float]), where [exp] overflows
    to [inf] above about 88.7 and underflows to 0 below about -103.9.
    [exp_safe x] keeps [x] well inside these bounds: on such entries [exp]
    is finite and not zero and [log (exp x)] is [x] up to rounding, which
    is what the real-number [exp] and [ln] of this development stand
    for. *)
Definition exp_safe (x : R) : Prop := -80 <= x <= 80.

(** What is used of [torch.exp] on float32 tensors: its values are never
    negative, and they are positive from -103 upwards (the smallest
    positive float32 is about [exp (-103.3)]; above about 88.7 the value
    is [inf], for which a positive real stands here).  Further down the
    value is 0.0. *)
Definition float32_exp_like (float_exp : R -> R) : Prop :=
  (forall x, 0 <= float_exp x) /\ (forall x, -103 <= x -> 0 < float_exp x).

(** A function with these two properties that underflows: it is exact,
    except that it is 0 below -105, where [torch.exp] on float32 returns
    0.0. *)
Definition exp_underflowing (x : R) : R :=
  if Rlt_dec x (-105) then 0 else exp x.

(** The entries of a row that the full [decode] exponentiates: the
    log-means and log-dispersions of the hi branch, then those of the lo
    branch. *)
Definition exponentiated_entries (self : FSDModelGPLVM.t) (xi : tensor)
  : tensor :=
  let n_hi := Z.to_nat (FSDModelGPLVM.n_fsd_hi_comps self) in
  let n_lo := Z.to_nat (FSDModelGPLVM.n_fsd_lo_comps self) in
  take (2 * n_hi) xi ++ take (2 * n_lo) (drop (3 * n_hi - 1) xi).

(** One branch of valid mixture parameters with [n] components and weights
    that are all positive. *)
Definition valid_branch (n : Z) (mu phi w : tensor) : Prop :=
  shape_last mu = n /\ shape_last phi = n /\ shape_last w = n
  /\ all_positive mu /\ all_positive phi /\ in_open_simplex w.

(** One branch of valid mixture parameters with [n] components: positive
    means and dispersions, weights on the simplex. *)
Definition valid_params_branch (n : Z) (mu phi w : tensor) : Prop :=
  shape_last mu = n /\ shape_last phi = n /\ shape_last w = n
  /\ all_positive mu /\ all_positive phi /\ on_simplex w.

(** What the codec relies on of the transform [stick] at a weight vector
    [w]: [stick.inv(w)] is a row one entry shorter than [w], and [stick]
    returns [w] from it, [stick(stick.inv(w)) == w]. *)
Definition returns_weights (stick : Transform) (w : tensor) : Prop :=
  length (transform_inv stick w) = pred (length w)
  /\ transform_call stick (transform_inv stick w) = w.

(** The caller's side of the detachment contract: when detachment is on
    and a [parents_dict] is given, it holds both masks, and the row is
    covered by exactly one of them. *)
Definition masks_cover (detach : bool) (parents_dict : option (gmap string R))
  : Prop :=
  detach = true ->
  forall m, parents_dict = Some m ->
  exists m1 m2,
    m !! "inducing_binary_mask_tensor_n" = Some m1
    /\ m !! "non_inducing_binary_mask_tensor_n" = Some m2
    /\ ((m1 = 1 /\ m2 = 0) \/ (m1 = 0 /\ m2 = 1)).

(** Modelled from the spec: [utils.get_detached_on_non_inducing_genes] is
    defined outside this file.  It "stops gradient flow" into the scalar for
    the rows of the non-inducing mask, so on a row covered by exactly one
    of the two masks the value it returns is the scalar itself. *)
Definition keeps_value (get_detached : R -> R -> R -> R) : Prop :=
  forall s m1 m2,
    (m1 = 1 /\ m2 = 0) \/ (m1 = 0 /\ m2 = 1) -> get_detached s m1 m2 = s.

(** The parameters with the components of each branch relabelled: position
    [i] of the lo branch takes component [pi_lo[i]], and likewise for the
    hi branch. *)
Definition relabel (pi_lo pi_hi : list nat) (p : MixtureParams)
  : MixtureParams :=
  {| mu_lo := gather (mu_lo p) pi_lo;
     phi_lo := gather (phi_lo p) pi_lo;
     w_lo := gather (w_lo p) pi_lo;
     mu_hi := gather (mu_hi p) pi_hi;
     phi_hi := gather (phi_hi p) pi_hi;
     w_hi := gather (w_hi p) pi_hi |}.

(** The three rows of a branch have one length. *)
Definition aligned (mu phi w : tensor) : Prop :=
  length mu = length w /\ length phi = length w.

(** The row that [init_fsd_xi_loc_posterior] computes for a gene with the
    empirical estimates [mu_hi_guess] and [phi_hi_guess]: the encoding of
    its initial parameters. *)
Definition init_row (self : FSDModelGPLVM.t) (mu_hi_guess phi_hi_guess : R)
  : result tensor :=
  let '(ml, pl, wl, mh, ph, wh) :=
    FSDModelGPLVM.generate_fsd_init_params self mu_hi_guess phi_hi_guess in
  FSDModelGPLVM.encode self
    (params_dict {| mu_lo := ml; phi_lo := pl; w_lo := wl;
                    mu_hi := mh; phi_hi := ph; w_hi := wh |}).

(** The mixture of the first [n] components of a branch: component [j]
    has log-weight [log w[j]], mean [mu[j]] and dispersion [phi[j]]. *)
Definition mixture_of (n : Z) (mu phi w : tensor) : MixtureDistribution :=
  {| log_weights := map (fun j => [ln (nth j w 0)]) (py_range n);
     components :=
       map (fun j => {| nb_mu := [nth j mu 0]; nb_phi := [nth j phi 0] |})
           (py_range n) |}.

(** The weights of a mixture, read back from its log-weights. *)
Definition mixture_weights (m : MixtureDistribution) : tensor :=
  tensor_exp (concat (log_weights m)).

(** ** Concrete models and inputs *)

(** A detachment helper that selects the scalar by the two masks. *)
Definition detach_by_masks (input_scalar m1 m2 : R) : R :=
  m1 * input_scalar + m2 * input_scalar.

(** The configuration of the dimension example: three hi and two lo
    components. *)
Definition model_3_2 : FSDModelGPLVM.t :=
  {| FSDModelGPLVM.n_fsd_lo_comps := 2;
     FSDModelGPLVM.n_fsd_hi_comps := 3;
     FSDModelGPLVM.fsd_init_min_mu_lo := 1;
     FSDModelGPLVM.fsd_init_min_mu_hi := 1;
     FSDModelGPLVM.fsd_init_max_phi_lo := 1;
     FSDModelGPLVM.fsd_init_max_phi_hi := 1;
     FSDModelGPLVM.fsd_init_mu_decay := 1 / 2;
     FSDModelGPLVM.fsd_init_w_decay := 1 / 2;
     FSDModelGPLVM.fsd_init_mu_lo_to_mu_hi_ratio := 1 / 10 |}.

Definition params_3_2 : MixtureParams :=
  {| mu_lo := [1; 2]; phi_lo := [1; 1]; w_lo := [1 / 2; 1 / 2];
     mu_hi := [3; 2; 1]; phi_hi := [1; 1; 1];
     w_hi := [1 / 2; 1 / 4; 1 / 4] |}.

(** A restricted model with a single hi component and detachment on. *)
Definition restricted_1 : FSDModelGPLVMRestricted.t :=
  {| FSDModelGPLVMRestricted.n_fsd_hi_comps := 1;
     FSDModelGPLVMRestricted.log_mu_lo_intercept := 0;
     FSDModelGPLVMRestricted.log_mu_lo_slope := 1;
     FSDModelGPLVMRestricted.detach_non_inducing_genes := true |}.

(** Valid parameters for [restricted_1] whose lo dispersion is not 1. *)
Definition params_1_1 : MixtureParams :=
  {| mu_lo := [1]; phi_lo := [2]; w_lo := [1];
     mu_hi := [1]; phi_hi := [1]; w_hi := [1] |}.

(** Valid parameters for [model_3_2] with pairwise distinct weights in each
    branch. *)
Definition params_distinct : MixtureParams :=
  {| mu_lo := [1; 2]; phi_lo := [1; 1]; w_lo := [1 / 4; 3 / 4];
     mu_hi := [3; 2; 1]; phi_hi := [1; 1; 1];
     w_hi := [1 / 6; 1 / 2; 1 / 3] |}.

(** A fingerprint of two genes. *)
Definition fingerprint_2 : SingleCellFingerprintDTM :=
  {| n_genes := 2;
     empirical_fsd_mu_hi := [10; 20];
     empirical_fsd_phi_hi := [1 / 2; 3 / 2] |}.

(** A fingerprint that announces three genes but has estimates for two. *)
Definition fingerprint_short : SingleCellFingerprintDTM :=
  {| n_genes := 3;
     empirical_fsd_mu_hi := [10; 20];
     empirical_fsd_phi_hi := [1 / 2; 3 / 2; 1] |}.

(** A restricted model with two hi components and detachment off. *)
Definition restricted_2 : FSDModelGPLVMRestricted.t :=
  {| FSDModelGPLVMRestricted.n_fsd_hi_comps := 2;
     FSDModelGPLVMRestricted.log_mu_lo_intercept := ln (1 / 10);
     FSDModelGPLVMRestricted.log_mu_lo_slope := 1;
     FSDModelGPLVMRestricted.detach_non_inducing_genes := false |}.

(** A full model with a single component in each branch. *)
Definition model_1_1 : FSDModelGPLVM.t :=
  {| FSDModelGPLVM.n_fsd_lo_comps := 1;
     FSDModelGPLVM.n_fsd_hi_comps := 1;
     FSDModelGPLVM.fsd_init_min_mu_lo := 1;
     FSDModelGPLVM.fsd_init_min_mu_hi := 1;
     FSDModelGPLVM.fsd_init_max_phi_lo := 1;
     FSDModelGPLVM.fsd_init_max_phi_hi := 1;
     FSDModelGPLVM.fsd_init_mu_decay := 1 / 2;
     FSDModelGPLVM.fsd_init_w_decay := 1 / 2;
     FSDModelGPLVM.fsd_init_mu_lo_to_mu_hi_ratio := 1 / 10 |}.

(** A full model with two hi components and one lo component, and a row
    of its dimension whose hi stick entry is 0: the two hi weights it
    decodes to are equal. *)
Definition model_2_1 : FSDModelGPLVM.t :=
  {| FSDModelGPLVM.n_fsd_lo_comps := 1;
     FSDModelGPLVM.n_fsd_hi_comps := 2;
     FSDModelGPLVM.fsd_init_min_mu_lo := 1;
     FSDModelGPLVM.fsd_init_min_mu_hi := 1;
     FSDModelGPLVM.fsd_init_max_phi_lo := 1;
     FSDModelGPLVM.fsd_init_max_phi_hi := 1;
     FSDModelGPLVM.fsd_init_mu_decay := 1 / 2;
     FSDModelGPLVM.fsd_init_w_decay := 1 / 2;
     FSDModelGPLVM.fsd_init_mu_lo_to_mu_hi_ratio := 1 / 10 |}.

Definition row_tied : tensor := [0; 1; 0; 0; 0; 0; 0].

(** A row of the dimension of [model_1_1] whose first entry, the log of the
    hi mean, is far below the range of [exp]. *)
Definition row_underflow : tensor := [-1000; 0; 0; 0].

(** Valid parameters for [restricted_2], with distinct hi weights that are
    not in decreasing order. *)
Definition params_2_1 : MixtureParams :=
  {| mu_lo := [1]; phi_lo := [1]; w_lo := [1];
     mu_hi := [1; 2]; phi_hi := [1; 1]; w_hi := [1 / 4; 3 / 4] |}.

(** A transform other than the library's, which keeps a weight vector by
    its first entries: [inv] drops the last weight, and the transform puts
    back what is missing from 1.  It returns every vector that sums to 1,
    zero weights included. *)
Definition drop_last_weight : Transform :=
  {| transform_call := fun x => x ++ [1 - tensor_sum x];
     transform_inv := fun y => removelast y |}.

(** Valid parameters for [model_3_2] with a zero weight in each branch. *)
Definition params_zero_weight : MixtureParams :=
  {| mu_lo := [1; 2]; phi_lo := [1; 1]; w_lo := [1; 0];
     mu_hi := [3; 2; 1]; phi_hi := [1; 1; 1];
     w_hi := [1 / 2; 1 / 2; 0] |}.

(** A dict with means and dispersions only. *)
Definition dict_without_weights : gmap string tensor :=
  <["mu_lo" := [1]]> (<["phi_lo" := [2]]>
  (<["mu_hi" := [1]]> (<["phi_hi" := [1]]> ∅))).

(** * Properties *)

(** ** Small concrete cases *)

Example py_slice_inner : py_slice [1; 2; 3; 4; 5] 1 3 = [2; 3].
Proof. reflexivity. Qed.

Example py_slice_negative_start : py_slice [1; 2; 3; 4; 5] (-2) 10 = [4; 5].
Proof. reflexivity. Qed.

Example py_slice_empty : py_slice [1; 2; 3] 2 1 = [].
Proof. reflexivity. Qed.

Example fsd_xi_dim_3_2 : FSDModelGPLVM.fsd_xi_dim model_3_2 = 13%Z.
Proof. reflexivity. Qed.

Example fsd_xi_dim_restricted_1 :
  FSDModelGPLVMRestricted.fsd_xi_dim restricted_1 = 2%Z.
Proof. reflexivity. Qed.

Example argsort_descending_ties :
  argsort_descending [1; 3; 2; 3] = [1; 3; 2; 0]%nat.
Proof.
  unfold argsort_descending, sort_desc. simpl.
  repeat (destruct (Rlt_dec _ _); try lra; simpl).
  reflexivity.
Qed.

Example gather_by_order : gather [10; 20; 30; 40] [1; 3; 2; 0]%nat
                          = [20; 40; 30; 10].
Proof. reflexivity. Qed.

Example cumsum_three : cumsum [1; 1; 1] = [0 + 1; 0 + 1 + 1; 0 + 1 + 1 + 1].
Proof. reflexivity. Qed.

(** ** Real-number facts used by the codec *)

Lemma sigmoid_pos (x : R) : 0 < sigmoid x.
Proof.
  unfold sigmoid. pose proof (exp_pos (- x)).
  apply Rdiv_lt_0_compat; lra.
Qed.

Lemma sigmoid_lt_1 (x : R) : sigmoid x < 1.
Proof.
  unfold sigmoid. pose proof (exp_pos (- x)).
  apply (Rmult_lt_reg_r (1 + exp (- x))); [lra|].
  unfold Rdiv. rewrite Rmult_assoc, Rinv_l; lra.
Qed.

Lemma sigmoid_log_ratio (a b : R) :
  0 < a -> 0 < b -> sigmoid (ln a - ln b) = a / (a + b).
Proof.
  intros Ha Hb. unfold sigmoid.
  replace (- (ln a - ln b)) with (ln b + - ln a) by lra.
  rewrite exp_plus, exp_Ropp, !exp_ln by assumption.
  field. split; lra.
Qed.

(** ** The stick-breaking transform *)

Example stick_call_even : StickBreakingTransform._call [0] = [1 / 2; 1 / 2].
Proof.
  unfold StickBreakingTransform._call. simpl.
  replace (0 - ln (1 + 1 - (0 + 1))) with 0
    by (replace (1 + 1 - (0 + 1)) with 1 by lra; rewrite ln_1; lra).
  unfold sigmoid. rewrite Ropp_0, exp_0. repeat f_equal; lra.
Qed.

Lemma tensor_sum_app (a b : tensor) :
  tensor_sum (a ++ b) = tensor_sum a + tensor_sum b.
Proof.
  induction a as [|x a IH]; [simpl; lra|].
  change (x + tensor_sum (a ++ b) = x + tensor_sum a + tensor_sum b).
  rewrite IH. lra.
Qed.

Lemma length_cumsum_from (acc : R) (t : tensor) :
  length (cumsum_from acc t) = length t.
Proof. revert acc. induction t as [|x t IH]; intros acc; simpl; auto. Qed.

Lemma length_cumprod_from (acc : R) (t : tensor) :
  length (cumprod_from acc t) = length t.
Proof. revert acc. induction t as [|x t IH]; intros acc; simpl; auto. Qed.

Lemma length_ones (n : nat) : length (ones n) = n.
Proof. apply repeat_length. Qed.

Lemma length_stick_inverse (y : tensor) :
  length (StickBreakingTransform._inverse y) = length (removelast y).
Proof.
  unfold StickBreakingTransform._inverse, tensor_add, tensor_sub, tensor_log,
    cumsum.
  rewrite !length_zip_with, !length_map, !length_cumsum_from, length_ones.
  lia.
Qed.

Lemma length_removelast {A : Type} (l : list A) :
  length (removelast l) = pred (length l).
Proof.
  induction l as [|a l IH]; [reflexivity|].
  destruct l as [|b l]; [reflexivity|].
  change (removelast (a :: b :: l)) with (a :: removelast (b :: l)).
  simpl length in *. rewrite IH. reflexivity.
Qed.

Lemma length_stick_call (x : tensor) :
  length (StickBreakingTransform._call x) = S (length x).
Proof.
  unfold StickBreakingTransform._call, tensor_mul, tensor_sub, tensor_log,
    cumsum, cumprod.
  rewrite length_zip_with, length_app. simpl.
  rewrite length_cumprod_from, !length_map, length_zip_with, !length_map,
    length_cumsum_from, length_ones.
  lia.
Qed.

(** The product form of [_call] unfolds one stick at a time. *)
Lemma stick_product_cons (r z0 : R) (z : tensor) :
  tensor_mul ((z0 :: z) ++ [1])
             (r :: cumprod_from r (map (fun zi => 1 - zi) (z0 :: z)))
  = z0 * r ::
    tensor_mul (z ++ [1])
               (r * (1 - z0) ::
                cumprod_from (r * (1 - z0)) (map (fun zi => 1 - zi) z)).
Proof. reflexivity. Qed.

(** With every break in (0, 1), the sticks are positive and use up exactly
    the mass [r] one starts from. *)
Lemma stick_product_simplex (z : tensor) (r : R) :
  0 < r ->
  Forall (fun zi => 0 < zi < 1) z ->
  let y := tensor_mul (z ++ [1])
                      (r :: cumprod_from r (map (fun zi => 1 - zi) z)) in
  Forall (fun yi => 0 < yi) y /\ tensor_sum y = r.
Proof.
  intros Hr Hz. revert r Hr.
  induction Hz as [|z0 z Hz0 Hz IH]; intros r Hr.
  - simpl. split; [repeat constructor; lra | lra].
  - cbv zeta. rewrite stick_product_cons.
    assert (Hr' : 0 < r * (1 - z0)) by (apply Rmult_lt_0_compat; lra).
    destruct (IH _ Hr') as [Hpos Hsum]. split.
    + constructor; [apply Rmult_lt_0_compat; lra | exact Hpos].
    + change (tensor_sum (?a :: ?l)) with (a + tensor_sum l).
      rewrite Hsum. lra.
Qed.

Lemma stick_call_simplex (x : tensor) :
  Forall (fun yi => 0 < yi) (StickBreakingTransform._call x)
  /\ tensor_sum (StickBreakingTransform._call x) = 1.
Proof.
  unfold StickBreakingTransform._call, cumprod.
  apply stick_product_simplex; [lra|].
  apply List.Forall_forall. intros zi Hin. apply in_map_iff in Hin.
  destruct Hin as [u [<- _]]. split; [apply sigmoid_pos | apply sigmoid_lt_1].
Qed.

(** The breaks recomputed from the inverse image of a weight row. *)
Lemma stick_breaks_of_inverse (yc off : tensor) (acc : R) :
  length off = length yc ->
  map sigmoid
      (tensor_sub
         (tensor_add
            (tensor_sub (tensor_log yc)
               (tensor_log (map (fun c => 1 - c) (cumsum_from acc yc))))
            (tensor_log off))
         (tensor_log off))
  = zip_with (fun yi c => sigmoid (ln yi - ln (1 - c)))
             yc (cumsum_from acc yc).
Proof.
  revert off acc. induction yc as [|y0 yc IH]; intros off acc Hlen.
  - reflexivity.
  - destruct off as [|o off]; [discriminate|]. simpl in Hlen.
    simpl. f_equal.
    + f_equal. lra.
    + apply IH. lia.
Qed.

Lemma stick_roundtrip_from (yc : tensor) (ylast acc : R) :
  Forall (fun yi => 0 < yi) yc -> 0 < ylast ->
  acc + tensor_sum yc + ylast = 1 ->
  let z := zip_with (fun yi c => sigmoid (ln yi - ln (1 - c)))
                    yc (cumsum_from acc yc) in
  tensor_mul (z ++ [1])
             ((1 - acc) :: cumprod_from (1 - acc) (map (fun zi => 1 - zi) z))
  = yc ++ [ylast].
Proof.
  intros Hpos Hlast. revert acc.
  induction Hpos as [|y0 yc Hy0 Hpos IH]; intros acc Hsum; cbv zeta.
  - simpl in *. f_equal. lra.
  - simpl in Hsum.
    assert (Hrest : 0 <= tensor_sum yc).
    { clear -Hpos. induction Hpos; simpl; lra. }
    simpl zip_with. simpl cumsum_from. rewrite stick_product_cons.
    simpl app.
    assert (Hz : sigmoid (ln y0 - ln (1 - (acc + y0))) = y0 / (1 - acc)).
    { rewrite sigmoid_log_ratio by lra. f_equal. lra. }
    rewrite Hz. f_equal.
    + field. lra.
    + replace ((1 - acc) * (1 - y0 / (1 - acc))) with (1 - (acc + y0))
        by (field; lra).
      apply IH. lra.
Qed.

Lemma stick_offsets_agree (y : tensor) :
  y <> [] ->
  map (fun c => INR (length (removelast y)) + 1 - c)
      (cumsum (ones (length (removelast y))))
  = map (fun c => INR (length y) - c) (cumsum (ones (length (removelast y)))).
Proof.
  intros Hy. apply map_ext. intros c. rewrite length_removelast.
  destruct y as [|a y]; [congruence|].
  simpl length. simpl pred. rewrite S_INR. reflexivity.
Qed.

(** [_call] undoes [_inverse] on every row of positive weights summing to 1. *)
Lemma stick_call_inverse (y : tensor) :
  y <> [] -> Forall (fun yi => 0 < yi) y -> tensor_sum y = 1 ->
  StickBreakingTransform._call (StickBreakingTransform._inverse y) = y.
Proof.
  intros Hy Hpos Hsum.
  unfold StickBreakingTransform._call. rewrite length_stick_inverse.
  rewrite stick_offsets_agree by assumption.
  unfold StickBreakingTransform._inverse, cumsum.
  rewrite stick_breaks_of_inverse
    by (rewrite length_map, length_cumsum_from, length_ones; reflexivity).
  transitivity (removelast y ++ [List.last y 0]);
    [| symmetry; apply app_removelast_last; assumption].
  rewrite (app_removelast_last 0 Hy) in Hpos, Hsum.
  apply Forall_app in Hpos. destruct Hpos as [Hc Hl].
  apply Forall_inv in Hl.
  unfold cumprod. replace 1 with (1 - 0) at 2 3 by lra.
  apply stick_roundtrip_from; try assumption.
  rewrite tensor_sum_app in Hsum. simpl in Hsum. lra.
Qed.

(** ** Sorting positions by decreasing weight *)

Section SortDesc.
Variable key : nat -> R.

Let ge_key (a b : nat) : Prop := key b <= key a.

Lemma insert_desc_perm (i : nat) (l : list nat) :
  Permutation (insert_desc key i l) (i :: l).
Proof.
  induction l as [|j l IH]; simpl; [reflexivity|].
  destruct (Rlt_dec (key i) (key j)); [|reflexivity].
  rewrite IH. apply perm_swap.
Qed.

Lemma sort_desc_perm (l : list nat) : Permutation (sort_desc key l) l.
Proof.
  induction l as [|i l IH]; simpl; [reflexivity|].
  rewrite insert_desc_perm. constructor. exact IH.
Qed.

Lemma insert_desc_hdrel (a i : nat) (l : list nat) :
  ge_key a i -> HdRel ge_key a l -> HdRel ge_key a (insert_desc key i l).
Proof.
  intros Hai Hl. destruct l as [|j l]; simpl; [constructor; exact Hai|].
  destruct (Rlt_dec (key i) (key j)); constructor.
  - inversion Hl; assumption.
  - exact Hai.
Qed.

Lemma insert_desc_sorted (i : nat) (l : list nat) :
  Sorted ge_key l -> Sorted ge_key (insert_desc key i l).
Proof.
  induction 1 as [|j l Hs IH Hhd]; simpl.
  - repeat constructor.
  - destruct (Rlt_dec (key i) (key j)) as [Hlt|Hge].
    + constructor; [exact IH|].
      apply insert_desc_hdrel; [unfold ge_key; lra | exact Hhd].
    + constructor; [constructor; assumption|].
      constructor. unfold ge_key. lra.
Qed.

Lemma sort_desc_sorted (l : list nat) : Sorted ge_key (sort_desc key l).
Proof.
  induction l as [|i l IH]; simpl; [constructor|].
  apply insert_desc_sorted, IH.
Qed.

(** Ties keep their order: a list already in decreasing order of key is
    left as it is. *)
Lemma sort_desc_id (l : list nat) : Sorted ge_key l -> sort_desc key l = l.
Proof.
  induction 1 as [|i l Hs IH Hhd]; simpl; [reflexivity|].
  rewrite IH. destruct Hhd as [|j l Hij]; simpl; [reflexivity|].
  unfold ge_key in Hij. destruct (Rlt_dec (key i) (key j)); [lra|reflexivity].
Qed.

End SortDesc.

Lemma sorted_map_key (key : nat -> R) (rel : R -> R -> Prop) (l : list nat) :
  Sorted (fun a b => rel (key a) (key b)) l <-> Sorted rel (map key l).
Proof.
  split.
  - induction 1 as [|i l Hs IH Hhd]; simpl; constructor; [exact IH|].
    destruct Hhd; simpl; constructor; assumption.
  - induction l as [|i l IH]; simpl; intros Hs; [constructor|].
    inversion Hs as [|? ? Hs' Hhd]; subst. constructor; [apply IH, Hs'|].
    destruct l; simpl in *; constructor. inversion Hhd; assumption.
Qed.

Lemma gather_seq (t : tensor) : gather t (seq 0 (length t)) = t.
Proof.
  unfold gather. induction t as [|x t IH]; [reflexivity|].
  simpl. f_equal. rewrite <- seq_shift, map_map. exact IH.
Qed.

Lemma length_gather (t : tensor) (idx : list nat) :
  length (gather t idx) = length idx.
Proof. apply length_map. Qed.

Lemma length_argsort (w : tensor) :
  length (argsort_descending w) = length w.
Proof.
  unfold argsort_descending.
  rewrite (Permutation_length (sort_desc_perm _ _)). apply length_seq.
Qed.

(** Gathering along the sort order of a row of the same length rearranges
    the entries. *)
Lemma gather_argsort_perm (t w : tensor) :
  length t = length w -> Permutation (gather t (argsort_descending w)) t.
Proof.
  intros Hlen. rewrite <- (gather_seq t) at 2. unfold gather.
  apply Permutation_map. rewrite Hlen. apply sort_desc_perm.
Qed.

Lemma gather_argsort_sorted (w : tensor) :
  non_increasing (gather w (argsort_descending w)).
Proof.
  unfold non_increasing, gather, argsort_descending.
  apply (sorted_map_key (fun i => nth i w 0) (fun a b => b <= a)).
  apply sort_desc_sorted.
Qed.

Lemma argsort_non_increasing (w : tensor) :
  non_increasing w -> argsort_descending w = seq 0 (length w).
Proof.
  intros Hw. unfold argsort_descending. apply sort_desc_id.
  apply (sorted_map_key (fun i => nth i w 0) (fun a b => b <= a)).
  change (map (fun i => nth i w 0) (seq 0 (length w)))
    with (gather w (seq 0 (length w))).
  rewrite gather_seq. exact Hw.
Qed.

Lemma gather_non_increasing (t w : tensor) :
  length t = length w -> non_increasing w ->
  gather t (argsort_descending w) = t.
Proof.
  intros Hlen Hw. rewrite argsort_non_increasing by assumption.
  rewrite <- Hlen. apply gather_seq.
Qed.

Lemma tensor_sum_perm (a b : tensor) :
  Permutation a b -> tensor_sum a = tensor_sum b.
Proof.
  induction 1 as [|x a b _ IH|x y a|a b c _ IH1 _ IH2].
  - reflexivity.
  - change (x + tensor_sum a = x + tensor_sum b). rewrite IH. reflexivity.
  - change (y + (x + tensor_sum a) = x + (y + tensor_sum a)). lra.
  - congruence.
Qed.

Lemma positive_perm (a b : tensor) :
  Permutation a b -> all_positive a -> all_positive b.
Proof. intros Hp Ha. unfold all_positive. rewrite <- Hp. exact Ha. Qed.

(** ** Slices and dictionary lookups *)

Lemma py_slice_app {A : Type} (pre seg post : list A) (a b : Z) :
  a = Z.of_nat (length pre) ->
  b = (a + Z.of_nat (length seg))%Z ->
  py_slice (pre ++ seg ++ post) a b = seg.
Proof.
  intros -> ->. unfold py_slice, slice_index.
  rewrite !length_app.
  destruct (Z.ltb_spec (Z.of_nat (length pre)) 0); [lia|].
  destruct (Z.ltb_spec (Z.of_nat (length pre) + Z.of_nat (length seg)) 0);
    [lia|].
  rewrite !Z.min_l by lia.
  replace (Z.to_nat (Z.of_nat (length pre) + Z.of_nat (length seg)
                     - Z.of_nat (length pre))) with (length seg) by lia.
  rewrite Nat2Z.id, drop_app_length, take_app_length. reflexivity.
Qed.

Lemma getitem_xi_dict (fsd_xi : tensor) :
  getitem (xi_dict fsd_xi) "fsd_xi_nq" = Ok fsd_xi.
Proof. unfold getitem, xi_dict. rewrite lookup_insert_eq. reflexivity. Qed.

Lemma contains_xi_dict (fsd_xi : tensor) :
  contains (xi_dict fsd_xi) "fsd_xi_nq" = true.
Proof.
  unfold contains, xi_dict. rewrite lookup_insert_eq.
  apply bool_decide_eq_true. eauto.
Qed.

Lemma getitem_params_dict (p : MixtureParams) :
  getitem (params_dict p) "mu_lo" = Ok (mu_lo p)
  /\ getitem (params_dict p) "phi_lo" = Ok (phi_lo p)
  /\ getitem (params_dict p) "w_lo" = Ok (w_lo p)
  /\ getitem (params_dict p) "mu_hi" = Ok (mu_hi p)
  /\ getitem (params_dict p) "phi_hi" = Ok (phi_hi p)
  /\ getitem (params_dict p) "w_hi" = Ok (w_hi p).
Proof.
  unfold getitem, params_dict.
  repeat split; repeat (rewrite lookup_insert_ne by discriminate);
    rewrite lookup_insert_eq; reflexivity.
Qed.

(** A dict of parameters determines its six entries. *)
Lemma params_dict_inj (p q : MixtureParams) :
  params_dict p = params_dict q -> p = q.
Proof.
  intros Heq.
  pose proof (getitem_params_dict p) as (P1 & P2 & P3 & P4 & P5 & P6).
  pose proof (getitem_params_dict q) as (Q1 & Q2 & Q3 & Q4 & Q5 & Q6).
  rewrite Heq in P1, P2, P3, P4, P5, P6.
  destruct p, q; simpl in *. f_equal; congruence.
Qed.

(** ** The full codec *)

Lemma Ok_inj {A : Type} (a b : A) : Ok a = Ok b -> a = b.
Proof.
  intros Heq.
  exact (f_equal (fun r => match r with Ok x => x | Raise _ => a end) Heq).
Qed.

Lemma bind_ok {A B : Type} (a : A) (f : A -> result B) : (Ok a ≫= f) = f a.
Proof. reflexivity. Qed.

Lemma py_slice_eq {A : Type} (xi pre seg post : list A) (a b : Z) :
  xi = pre ++ seg ++ post ->
  a = Z.of_nat (length pre) ->
  b = (a + Z.of_nat (length seg))%Z ->
  py_slice xi a b = seg.
Proof. intros ->. apply py_slice_app. Qed.

(** Side conditions of [py_slice_eq]: the row is the stated concatenation,
    and the bounds are the lengths of its parts. *)
Ltac slice_side Hxi :=
  first [ rewrite Hxi; rewrite <- ?app_assoc, ?app_nil_r; reflexivity
        | rewrite ?length_app; simpl length; lia ].

Lemma full_encode_params_dict (self : FSDModelGPLVM.t) (p : MixtureParams) :
  FSDModelGPLVM.encode self (params_dict p)
  = Ok (tensor_log (mu_hi p) ++ tensor_log (phi_hi p)
        ++ (if (1 <? FSDModelGPLVM.n_fsd_hi_comps self)%Z
            then StickBreakingTransform._inverse (w_hi p) else [])
        ++ tensor_log (mu_lo p) ++ tensor_log (phi_lo p)
        ++ (if (1 <? FSDModelGPLVM.n_fsd_lo_comps self)%Z
            then StickBreakingTransform._inverse (w_lo p) else [])).
Proof.
  pose proof (getitem_params_dict p) as (P1 & P2 & P3 & P4 & P5 & P6).
  unfold FSDModelGPLVM.encode, cat.
  rewrite P4, bind_ok, P5, bind_ok.
  destruct (1 <? FSDModelGPLVM.n_fsd_hi_comps self)%Z;
    destruct (1 <? FSDModelGPLVM.n_fsd_lo_comps self)%Z;
    rewrite ?P6; simpl; rewrite P1; simpl; rewrite P2; simpl;
    rewrite ?P3; simpl; rewrite ?app_nil_r; reflexivity.
Qed.

Lemma full_decode_cat (self : FSDModelGPLVM.t) (a b c d e f : tensor)
    (parents_dict : option (gmap string R)) :
  let n_hi := FSDModelGPLVM.n_fsd_hi_comps self in
  let n_lo := FSDModelGPLVM.n_fsd_lo_comps self in
  (1 <= n_hi)%Z -> (1 <= n_lo)%Z ->
  shape_last a = n_hi -> shape_last b = n_hi ->
  shape_last c = (n_hi - 1)%Z ->
  shape_last d = n_lo -> shape_last e = n_lo ->
  shape_last f = (n_lo - 1)%Z ->
  FSDModelGPLVM.decode self (xi_dict (a ++ b ++ c ++ d ++ e ++ f)) parents_dict
  = Ok (params_dict
          {| mu_lo := tensor_exp d;
             phi_lo := tensor_exp e;
             w_lo := if (1 <? n_lo)%Z then StickBreakingTransform._call f
                     else ones_like (tensor_exp d);
             mu_hi := tensor_exp a;
             phi_hi := tensor_exp b;
             w_hi := if (1 <? n_hi)%Z then StickBreakingTransform._call c
                     else ones_like (tensor_exp a) |}).
Proof.
  intros n_hi n_lo Hhi Hlo Ha Hb Hc Hd He Hf.
  unfold shape_last in *.
  unfold FSDModelGPLVM.decode.
  rewrite contains_xi_dict, getitem_xi_dict. simpl py_assert. rewrite !bind_ok.
  remember (a ++ b ++ c ++ d ++ e ++ f) as xi eqn:Hxi.
  assert (Hdim : (shape_last xi =? FSDModelGPLVM.fsd_xi_dim self)%Z = true).
  { apply Z.eqb_eq. unfold shape_last, FSDModelGPLVM.fsd_xi_dim. subst xi.
    rewrite !length_app. fold n_hi n_lo. lia. }
  rewrite Hdim. simpl py_assert. rewrite bind_ok. fold n_hi n_lo.
  rewrite (py_slice_eq xi [] a (b ++ c ++ d ++ e ++ f) 0 (0 + n_hi))
    by slice_side Hxi.
  rewrite (py_slice_eq xi a b (c ++ d ++ e ++ f) (0 + n_hi) (0 + n_hi + n_hi))
    by slice_side Hxi.
  destruct (Z.ltb_spec 1 n_hi) as [Hhi1|Hhi1].
  - rewrite (py_slice_eq xi (a ++ b) c (d ++ e ++ f)
               (0 + n_hi + n_hi) (0 + n_hi + n_hi + n_hi - 1))
      by slice_side Hxi.
    set (o := (0 + n_hi + n_hi + (n_hi - 1))%Z). cbv beta iota.
    rewrite (py_slice_eq xi (a ++ b ++ c) d (e ++ f) o (o + n_lo))
      by slice_side Hxi.
    rewrite (py_slice_eq xi (a ++ b ++ c ++ d) e f (o + n_lo) (o + n_lo + n_lo))
      by slice_side Hxi.
    destruct (Z.ltb_spec 1 n_lo) as [Hlo1|Hlo1]; [|reflexivity].
    rewrite (py_slice_eq xi (a ++ b ++ c ++ d ++ e) f []
               (o + n_lo + n_lo) (o + n_lo + n_lo + n_lo - 1))
      by slice_side Hxi.
    reflexivity.
  - set (o := (0 + n_hi + n_hi)%Z). cbv beta iota.
    rewrite (py_slice_eq xi (a ++ b ++ c) d (e ++ f) o (o + n_lo))
      by slice_side Hxi.
    rewrite (py_slice_eq xi (a ++ b ++ c ++ d) e f (o + n_lo) (o + n_lo + n_lo))
      by slice_side Hxi.
    destruct (Z.ltb_spec 1 n_lo) as [Hlo1|Hlo1]; [|reflexivity].
    rewrite (py_slice_eq xi (a ++ b ++ c ++ d ++ e) f []
               (o + n_lo + n_lo) (o + n_lo + n_lo + n_lo - 1))
      by slice_side Hxi.
    reflexivity.
Qed.

Lemma tensor_exp_log (t : tensor) :
  all_positive t -> tensor_exp (tensor_log t) = t.
Proof.
  unfold tensor_exp, tensor_log.
  induction 1 as [|x t Hx _ IH]; simpl; [reflexivity|].
  rewrite exp_ln by exact Hx. rewrite IH. reflexivity.
Qed.

Lemma tensor_exp_positive (t : tensor) : all_positive (tensor_exp t).
Proof.
  unfold all_positive, tensor_exp. induction t; simpl; constructor; auto.
  apply exp_pos.
Qed.

Lemma ones_like_singleton (t : tensor) :
  length t = 1%nat -> ones_like t = [1].
Proof. destruct t as [|x [|y t]]; simpl; intros; try lia; reflexivity. Qed.

Lemma singleton_open_simplex (w : tensor) :
  length w = 1%nat -> in_open_simplex w -> w = [1].
Proof.
  destruct w as [|x [|y w]]; simpl; intros Hl [_ Hs]; try lia.
  simpl in Hs. f_equal. lra.
Qed.

Lemma one_in_open_simplex : in_open_simplex [1].
Proof. split; [repeat constructor; lra | simpl; lra]. Qed.

Lemma open_simplex_on_simplex (w : tensor) : in_open_simplex w -> on_simplex w.
Proof.
  intros [Hp Hs]. split; [|exact Hs].
  eapply Forall_impl; [exact Hp|]. simpl. intros; lra.
Qed.

(** A row at least [n] long is its first [n] entries followed by the rest. *)
Lemma split_row (n : nat) (l : tensor) :
  (n <= length l)%nat ->
  exists a r, l = a ++ r /\ length a = n /\ length r = (length l - n)%nat.
Proof.
  intros Hn. exists (take n l), (drop n l).
  rewrite take_drop, length_take, length_drop. repeat split; lia.
Qed.

Lemma full_split_xi (self : FSDModelGPLVM.t) (xi : tensor) :
  let n_hi := FSDModelGPLVM.n_fsd_hi_comps self in
  let n_lo := FSDModelGPLVM.n_fsd_lo_comps self in
  (1 <= n_hi)%Z -> (1 <= n_lo)%Z ->
  shape_last xi = FSDModelGPLVM.fsd_xi_dim self ->
  exists a b c d e f,
    xi = a ++ b ++ c ++ d ++ e ++ f
    /\ shape_last a = n_hi /\ shape_last b = n_hi
    /\ shape_last c = (n_hi - 1)%Z
    /\ shape_last d = n_lo /\ shape_last e = n_lo
    /\ shape_last f = (n_lo - 1)%Z.
Proof.
  intros n_hi n_lo Hhi Hlo. unfold shape_last, FSDModelGPLVM.fsd_xi_dim.
  fold n_hi n_lo. intros Hlen.
  destruct (split_row (Z.to_nat n_hi) xi) as (a & r1 & -> & Ha & Hr1); [lia|].
  destruct (split_row (Z.to_nat n_hi) r1) as (b & r2 & -> & Hb & Hr2); [lia|].
  destruct (split_row (Z.to_nat (n_hi - 1)) r2) as (c & r3 & -> & Hc & Hr3);
    [lia|].
  destruct (split_row (Z.to_nat n_lo) r3) as (d & r4 & -> & Hd & Hr4); [lia|].
  destruct (split_row (Z.to_nat n_lo) r4) as (e & f & -> & He & Hf); [lia|].
  exists a, b, c, d, e, f. rewrite !length_app in *.
  repeat split; lia.
Qed.

Lemma shape_last_exp (t : tensor) : shape_last (tensor_exp t) = shape_last t.
Proof. unfold shape_last, tensor_exp. rewrite length_map. reflexivity. Qed.

Lemma shape_last_log (t : tensor) : shape_last (tensor_log t) = shape_last t.
Proof. unfold shape_last, tensor_log. rewrite length_map. reflexivity. Qed.

(** The weights [decode] produces for a branch of [n] components. *)
Lemma decoded_weights_valid (n : Z) (c base : tensor) :
  (1 <= n)%Z -> shape_last c = (n - 1)%Z -> shape_last base = n ->
  let w := if (1 <? n)%Z then StickBreakingTransform._call c
           else ones_like base in
  shape_last w = n /\ in_open_simplex w.
Proof.
  unfold shape_last. intros Hn Hc Hbase.
  destruct (Z.ltb_spec 1 n); cbv zeta.
  - rewrite length_stick_call. split; [lia | apply stick_call_simplex].
  - rewrite ones_like_singleton by lia.
    split; [simpl; lia | apply one_in_open_simplex].
Qed.

(** Decoding a row of the right length always succeeds, and yields valid
    parameters in both branches. *)
Lemma full_decode_valid (self : FSDModelGPLVM.t) (xi : tensor)
    (parents_dict : option (gmap string R)) :
  let n_hi := FSDModelGPLVM.n_fsd_hi_comps self in
  let n_lo := FSDModelGPLVM.n_fsd_lo_comps self in
  (1 <= n_hi)%Z -> (1 <= n_lo)%Z ->
  shape_last xi = FSDModelGPLVM.fsd_xi_dim self ->
  exists p,
    FSDModelGPLVM.decode self (xi_dict xi) parents_dict = Ok (params_dict p)
    /\ valid_branch n_lo (mu_lo p) (phi_lo p) (w_lo p)
    /\ valid_branch n_hi (mu_hi p) (phi_hi p) (w_hi p).
Proof.
  intros n_hi n_lo Hhi Hlo Hlen.
  destruct (full_split_xi self xi Hhi Hlo Hlen)
    as (a & b & c & d & e & f & -> & Ha & Hb & Hc & Hd & He & Hf).
  eexists. split; [apply full_decode_cat; assumption|].
  fold n_hi n_lo. unfold valid_branch. simpl.
  destruct (decoded_weights_valid n_lo f (tensor_exp d)) as [Hnlo Hwlo];
    [assumption .. | rewrite shape_last_exp; assumption |].
  destruct (decoded_weights_valid n_hi c (tensor_exp a)) as [Hnhi Hwhi];
    [assumption .. | rewrite shape_last_exp; assumption |].
  rewrite !shape_last_exp.
  split; (split; [|split; [|split; [|split; [|split]]]]);
    try assumption; apply tensor_exp_positive.
Qed.

(** What [encode] writes for the weights of a branch of [n] components,
    and that [decode] reads the weights back from it. *)
Lemma encoded_weights (n : Z) (w : tensor) :
  (1 <= n)%Z -> shape_last w = n -> in_open_simplex w ->
  let c := if (1 <? n)%Z then StickBreakingTransform._inverse w else [] in
  shape_last c = (n - 1)%Z
  /\ forall base, shape_last base = n ->
       (if (1 <? n)%Z then StickBreakingTransform._call c else ones_like base)
       = w.
Proof.
  unfold shape_last. intros Hn Hw [Hpos Hsum].
  destruct (Z.ltb_spec 1 n); cbv zeta.
  - split.
    + rewrite length_stick_inverse, length_removelast. lia.
    + intros _ _. apply stick_call_inverse; try assumption.
      destruct w; [simpl in Hw; lia | discriminate].
  - split; [simpl; lia|]. intros base Hbase.
    rewrite ones_like_singleton by lia.
    symmetry. apply singleton_open_simplex; [lia | split; assumption].
Qed.

Lemma shape_last_encoded_weights (n : Z) (w : tensor) :
  (1 <= n)%Z -> shape_last w = n ->
  shape_last (if (1 <? n)%Z then StickBreakingTransform._inverse w else [])
  = (n - 1)%Z.
Proof.
  unfold shape_last. intros Hn Hw. destruct (Z.ltb_spec 1 n).
  - rewrite length_stick_inverse, length_removelast. lia.
  - simpl. lia.
Qed.

(** The full codec: encoding valid parameters gives a row of the model's
    dimension, from which [decode] recovers the parameters. *)
Lemma full_decode_encode (self : FSDModelGPLVM.t) (p : MixtureParams)
    (parents_dict : option (gmap string R)) :
  let n_hi := FSDModelGPLVM.n_fsd_hi_comps self in
  let n_lo := FSDModelGPLVM.n_fsd_lo_comps self in
  (1 <= n_hi)%Z -> (1 <= n_lo)%Z ->
  valid_branch n_lo (mu_lo p) (phi_lo p) (w_lo p) ->
  valid_branch n_hi (mu_hi p) (phi_hi p) (w_hi p) ->
  exists xi,
    FSDModelGPLVM.encode self (params_dict p) = Ok xi
    /\ FSDModelGPLVM.decode self (xi_dict xi) parents_dict
       = Ok (params_dict p).
Proof.
  intros n_hi n_lo Hhi Hlo (Lm & Lp & Lw & Pm & Pp & Sw)
    (Hm & Hp & Hw & Qm & Qp & Tw).
  rewrite full_encode_params_dict. fold n_hi n_lo.
  eexists. split; [reflexivity|].
  destruct (encoded_weights n_lo (w_lo p)) as [Hclo Hrlo]; try assumption.
  destruct (encoded_weights n_hi (w_hi p)) as [Hchi Hrhi]; try assumption.
  rewrite full_decode_cat; fold n_hi n_lo;
    rewrite ?shape_last_log; try assumption.
  rewrite Hrlo, Hrhi by (rewrite shape_last_exp, shape_last_log; assumption).
  rewrite !tensor_exp_log by assumption.
  destruct p; reflexivity.
Qed.

(** ** Sorting the components of a branch *)

Lemma full_sorted_params_dict (p : MixtureParams) :
  FSDModelGPLVM.get_sorted_params_dict (params_dict p)
  = Ok (params_dict
          {| mu_lo := gather (mu_lo p) (argsort_descending (w_lo p));
             phi_lo := gather (phi_lo p) (argsort_descending (w_lo p));
             w_lo := gather (w_lo p) (argsort_descending (w_lo p));
             mu_hi := gather (mu_hi p) (argsort_descending (w_hi p));
             phi_hi := gather (phi_hi p) (argsort_descending (w_hi p));
             w_hi := gather (w_hi p) (argsort_descending (w_hi p)) |}).
Proof.
  pose proof (getitem_params_dict p) as (P1 & P2 & P3 & P4 & P5 & P6).
  unfold FSDModelGPLVM.get_sorted_params_dict.
  rewrite P1, P2, P3, P4, P5, P6. reflexivity.
Qed.

Lemma shape_last_gather_argsort (t w : tensor) :
  shape_last (gather t (argsort_descending w)) = shape_last w.
Proof.
  unfold shape_last. rewrite length_gather, length_argsort. reflexivity.
Qed.

(** Sorting a valid branch by decreasing weight keeps it valid, and leaves
    its weights in non-increasing order. *)
Lemma sorted_branch_valid (n : Z) (mu phi w : tensor) :
  valid_branch n mu phi w ->
  valid_branch n (gather mu (argsort_descending w))
                 (gather phi (argsort_descending w))
                 (gather w (argsort_descending w))
  /\ non_increasing (gather w (argsort_descending w)).
Proof.
  unfold shape_last. intros (Lm & Lp & Lw & Pm & Pp & [Pw Sw]).
  assert (Hm : Permutation (gather mu (argsort_descending w)) mu)
    by (apply gather_argsort_perm; unfold shape_last in *; lia).
  assert (Hp : Permutation (gather phi (argsort_descending w)) phi)
    by (apply gather_argsort_perm; unfold shape_last in *; lia).
  assert (Hw : Permutation (gather w (argsort_descending w)) w)
    by (apply gather_argsort_perm; reflexivity).
  split; [|apply gather_argsort_sorted].
  unfold valid_branch. rewrite !shape_last_gather_argsort.
  split; [assumption|]. split; [assumption|]. split; [assumption|].
  split; [|split; [|split]].
  - apply (positive_perm mu); [symmetry|]; assumption.
  - apply (positive_perm phi); [symmetry|]; assumption.
  - apply (positive_perm w); [symmetry|]; assumption.
  - rewrite (tensor_sum_perm _ _ Hw). exact Sw.
Qed.

(** A branch whose weights are already in non-increasing order is left as
    it is. *)
Lemma sorted_branch_fixed (n : Z) (mu phi w : tensor) :
  shape_last mu = n -> shape_last phi = n -> shape_last w = n ->
  non_increasing w ->
  gather mu (argsort_descending w) = mu
  /\ gather phi (argsort_descending w) = phi
  /\ gather w (argsort_descending w) = w.
Proof.
  unfold shape_last. intros Lm Lp Lw Hw.
  repeat split; apply gather_non_increasing; try assumption; lia.
Qed.

(** The canonicalisation of the full model succeeds on every row of the
    model's dimension; its result decodes to valid parameters with weights
    in non-increasing order, and is itself left unchanged. *)
Lemma full_get_sorted_fsd_xi_spec (self : FSDModelGPLVM.t) (xi : tensor) :
  let n_hi := FSDModelGPLVM.n_fsd_hi_comps self in
  let n_lo := FSDModelGPLVM.n_fsd_lo_comps self in
  (1 <= n_hi)%Z -> (1 <= n_lo)%Z ->
  shape_last xi = FSDModelGPLVM.fsd_xi_dim self ->
  exists y p,
    FSDModelGPLVM.get_sorted_fsd_xi self xi = Ok y
    /\ FSDModelGPLVM.decode self (xi_dict y) None = Ok (params_dict p)
    /\ non_increasing (w_lo p) /\ non_increasing (w_hi p)
    /\ FSDModelGPLVM.get_sorted_fsd_xi self y = Ok y.
Proof.
  intros n_hi n_lo Hhi Hlo Hlen.
  destruct (full_decode_valid self xi None Hhi Hlo Hlen)
    as (p0 & Hdec & Vlo & Vhi).
  destruct (sorted_branch_valid _ _ _ _ Vlo) as [Vlo' Slo].
  destruct (sorted_branch_valid _ _ _ _ Vhi) as [Vhi' Shi].
  pose (p := {| mu_lo := gather (mu_lo p0) (argsort_descending (w_lo p0));
                phi_lo := gather (phi_lo p0) (argsort_descending (w_lo p0));
                w_lo := gather (w_lo p0) (argsort_descending (w_lo p0));
                mu_hi := gather (mu_hi p0) (argsort_descending (w_hi p0));
                phi_hi := gather (phi_hi p0) (argsort_descending (w_hi p0));
                w_hi := gather (w_hi p0) (argsort_descending (w_hi p0)) |}).
  destruct (full_decode_encode self p None Hhi Hlo Vlo' Vhi')
    as (y & Henc & Hdec').
  exists y, p.
  assert (Hfix : FSDModelGPLVM.get_sorted_params_dict (params_dict p)
                 = Ok (params_dict p)).
  { rewrite full_sorted_params_dict. unfold p.
    cbn [mu_lo phi_lo w_lo mu_hi phi_hi w_hi].
    destruct Vlo' as (L1 & L2 & L3 & _), Vhi' as (H1 & H2 & H3 & _).
    destruct (sorted_branch_fixed _ _ _ _ L1 L2 L3 Slo) as (-> & -> & ->).
    destruct (sorted_branch_fixed _ _ _ _ H1 H2 H3 Shi) as (-> & -> & ->).
    reflexivity. }
  repeat split; try assumption.
  - unfold FSDModelGPLVM.get_sorted_fsd_xi.
    rewrite Hdec, bind_ok, full_sorted_params_dict, bind_ok. exact Henc.
  - unfold FSDModelGPLVM.get_sorted_fsd_xi.
    rewrite Hdec', bind_ok, Hfix, bind_ok. exact Henc.
Qed.

(** ** The restricted codec *)

Section RestrictedCodec.
Variable get_detached : R -> R -> R -> R.
Variable self : FSDModelGPLVMRestricted.t.

Let n_hi : Z := FSDModelGPLVMRestricted.n_fsd_hi_comps self.
Let intercept : R := FSDModelGPLVMRestricted.log_mu_lo_intercept self.
Let slope : R := FSDModelGPLVMRestricted.log_mu_lo_slope self.

(** [encode] reads the three hi entries of the dict it is given. *)
Lemma restricted_encode_hi (d : gmap string tensor) (mu phi w : tensor) :
  getitem d "mu_hi" = Ok mu -> getitem d "phi_hi" = Ok phi ->
  getitem d "w_hi" = Ok w ->
  FSDModelGPLVMRestricted.encode self d
  = Ok (tensor_log mu ++ tensor_log phi
        ++ (if (1 <? n_hi)%Z then StickBreakingTransform._inverse w else [])).
Proof.
  intros Hm Hp Hw. unfold FSDModelGPLVMRestricted.encode, cat.
  rewrite Hm, Hp. fold n_hi.
  destruct (1 <? n_hi)%Z; rewrite ?Hw; simpl; rewrite ?app_nil_r;
    reflexivity.
Qed.

(** The row [decode] returns for [a ++ b ++ c], once the coefficients of
    the link are known. *)
Let decoded (a b c : tensor) (coeffs : R * R) : gmap string tensor :=
  let w := if (1 <? n_hi)%Z then StickBreakingTransform._call c
           else ones_like (tensor_exp a) in
  params_dict
    {| mu_lo := [exp (coeffs.1
                      + coeffs.2 * logsumexp (tensor_add a (tensor_log w)))];
       phi_lo := [1];
       w_lo := [1];
       mu_hi := tensor_exp a;
       phi_hi := tensor_exp b;
       w_hi := w |}.

Lemma restricted_decode_cat (a b c : tensor)
    (parents_dict : option (gmap string R)) :
  (1 <= n_hi)%Z ->
  shape_last a = n_hi -> shape_last b = n_hi ->
  shape_last c = (n_hi - 1)%Z ->
  FSDModelGPLVMRestricted.decode get_detached self (xi_dict (a ++ b ++ c))
    parents_dict
  = match FSDModelGPLVMRestricted.detach_non_inducing_genes self,
          parents_dict with
    | true, Some m =>
        _ ← py_assert 603 (contains m "inducing_binary_mask_tensor_n");
        _ ← py_assert 604 (contains m "non_inducing_binary_mask_tensor_n");
        m1 ← getitem m "inducing_binary_mask_tensor_n";
        m2 ← getitem m "non_inducing_binary_mask_tensor_n";
        Ok (decoded a b c (get_detached intercept m1 m2,
                           get_detached slope m1 m2))
    | _, _ => Ok (decoded a b c (intercept, slope))
    end.
Proof.
  intros Hhi Ha Hb Hc. unfold shape_last in *.
  unfold FSDModelGPLVMRestricted.decode.
  rewrite contains_xi_dict, getitem_xi_dict. simpl py_assert.
  rewrite !bind_ok.
  remember (a ++ b ++ c) as xi eqn:Hxi.
  assert (Hdim : (shape_last xi
                  =? FSDModelGPLVMRestricted.fsd_xi_dim self)%Z = true).
  { apply Z.eqb_eq.
    unfold shape_last, FSDModelGPLVMRestricted.fsd_xi_dim. subst xi.
    rewrite !length_app. fold n_hi. lia. }
  rewrite Hdim. simpl py_assert. rewrite bind_ok. fold n_hi.
  rewrite (py_slice_eq xi [] a (b ++ c) 0 (0 + n_hi)) by slice_side Hxi.
  rewrite (py_slice_eq xi a b c (0 + n_hi) (0 + n_hi + n_hi))
    by slice_side Hxi.
  assert (Hw : (let '(w_hi, _) :=
                  if (1 <? n_hi)%Z
                  then (StickBreakingTransform._call
                          (py_slice xi (0 + n_hi + n_hi)
                                    (0 + n_hi + n_hi + n_hi - 1)),
                        (0 + n_hi + n_hi + (n_hi - 1))%Z)
                  else (ones_like (tensor_exp a), (0 + n_hi + n_hi)%Z)
                in w_hi)
               = if (1 <? n_hi)%Z then StickBreakingTransform._call c
                 else ones_like (tensor_exp a)).
  { destruct (Z.ltb_spec 1 n_hi); [|reflexivity].
    rewrite (py_slice_eq xi (a ++ b) c []
               (0 + n_hi + n_hi) (0 + n_hi + n_hi + n_hi - 1))
      by slice_side Hxi.
    reflexivity. }
  unfold decoded. rewrite <- Hw. fold intercept slope.
  destruct (1 <? n_hi)%Z;
    destruct (FSDModelGPLVMRestricted.detach_non_inducing_genes self);
    destruct parents_dict as [m|]; try reflexivity;
    destruct (py_assert 603 _) as [[]|]; try reflexivity;
    destruct (py_assert 604 _) as [[]|]; try reflexivity;
    destruct (getitem m "inducing_binary_mask_tensor_n"); try reflexivity;
    destruct (getitem m "non_inducing_binary_mask_tensor_n");
    reflexivity.
Qed.

Lemma restricted_split_xi (xi : tensor) :
  (1 <= n_hi)%Z ->
  shape_last xi = FSDModelGPLVMRestricted.fsd_xi_dim self ->
  exists a b c,
    xi = a ++ b ++ c
    /\ shape_last a = n_hi /\ shape_last b = n_hi
    /\ shape_last c = (n_hi - 1)%Z.
Proof.
  intros Hhi. unfold shape_last, FSDModelGPLVMRestricted.fsd_xi_dim.
  fold n_hi. intros Hlen.
  destruct (split_row (Z.to_nat n_hi) xi) as (a & r1 & -> & Ha & Hr1);
    [lia|].
  destruct (split_row (Z.to_nat n_hi) r1) as (b & c & -> & Hb & Hc); [lia|].
  exists a, b, c. rewrite !length_app in *. repeat split; lia.
Qed.

(** Without a [parents_dict], decoding a row of the right length
    succeeds: the hi branch is valid, and the lo branch is the single
    component the link gives. *)
Lemma restricted_decode_valid (xi : tensor) :
  (1 <= n_hi)%Z ->
  shape_last xi = FSDModelGPLVMRestricted.fsd_xi_dim self ->
  exists p,
    FSDModelGPLVMRestricted.decode get_detached self (xi_dict xi) None
    = Ok (params_dict p)
    /\ valid_branch n_hi (mu_hi p) (phi_hi p) (w_hi p)
    /\ valid_branch 1 (mu_lo p) (phi_lo p) (w_lo p)
    /\ phi_lo p = [1] /\ w_lo p = [1].
Proof.
  intros Hhi Hlen.
  destruct (restricted_split_xi xi Hhi Hlen)
    as (a & b & c & -> & Ha & Hb & Hc).
  eexists. split.
  { rewrite restricted_decode_cat by assumption.
    destruct (FSDModelGPLVMRestricted.detach_non_inducing_genes self);
      reflexivity. }
  cbn [mu_lo phi_lo w_lo mu_hi phi_hi w_hi].
  destruct (decoded_weights_valid n_hi c (tensor_exp a)) as [Hn Hw];
    [assumption .. | rewrite shape_last_exp; assumption |].
  unfold valid_branch. rewrite !shape_last_exp.
  split; [|split]; [| |split; reflexivity].
  - split; [|split; [|split; [|split; [|split]]]];
      try assumption; apply tensor_exp_positive.
  - split; [|split; [|split; [|split; [|split]]]]; try reflexivity.
    + repeat constructor. apply exp_pos.
    + repeat constructor. lra.
    + apply one_in_open_simplex.
Qed.

(** [decode] recovers the hi branch that [encode] wrote, and derives the
    lo branch from it whatever the lo entries of the dict were. *)
Lemma restricted_decode_encode (d : gmap string tensor)
    (mu phi w : tensor) :
  (1 <= n_hi)%Z ->
  getitem d "mu_hi" = Ok mu -> getitem d "phi_hi" = Ok phi ->
  getitem d "w_hi" = Ok w ->
  valid_branch n_hi mu phi w ->
  exists xi,
    FSDModelGPLVMRestricted.encode self d = Ok xi
    /\ FSDModelGPLVMRestricted.decode get_detached self (xi_dict xi) None
       = Ok (params_dict
               {| mu_lo :=
                    [exp (intercept
                          + slope * logsumexp (tensor_add (tensor_log mu)
                                                          (tensor_log w)))];
                  phi_lo := [1];
                  w_lo := [1];
                  mu_hi := mu;
                  phi_hi := phi;
                  w_hi := w |}).
Proof.
  intros Hhi Gm Gp Gw (Hm & Hp & Hw & Qm & Qp & Tw).
  rewrite (restricted_encode_hi d mu phi w) by assumption.
  eexists. split; [reflexivity|].
  destruct (encoded_weights n_hi w) as [Hc Hr]; try assumption.
  rewrite restricted_decode_cat;
    rewrite ?shape_last_log; try assumption.
  unfold decoded.
  rewrite Hr by (rewrite shape_last_exp, shape_last_log; assumption).
  rewrite !tensor_exp_log by assumption.
  destruct (FSDModelGPLVMRestricted.detach_non_inducing_genes self);
    reflexivity.
Qed.

End RestrictedCodec.

(** ** Concrete facts *)

Lemma detach_by_masks_keeps_value : keeps_value detach_by_masks.
Proof. intros s m1 m2 [[-> ->]|[-> ->]]; unfold detach_by_masks; lra. Qed.

Lemma params_3_2_valid :
  valid_branch 2 (mu_lo params_3_2) (phi_lo params_3_2) (w_lo params_3_2)
  /\ valid_branch 3 (mu_hi params_3_2) (phi_hi params_3_2) (w_hi params_3_2).
Proof.
  unfold valid_branch, in_open_simplex, all_positive, shape_last; simpl.
  repeat split; try reflexivity; repeat constructor; lra.
Qed.

Lemma params_1_1_valid :
  valid_branch 1 (mu_lo params_1_1) (phi_lo params_1_1) (w_lo params_1_1)
  /\ valid_branch 1 (mu_hi params_1_1) (phi_hi params_1_1) (w_hi params_1_1).
Proof.
  unfold valid_branch, in_open_simplex, all_positive, shape_last; simpl.
  repeat split; try reflexivity; repeat constructor; lra.
Qed.

(** * The properties of the specification *)

(** ** The round trip, given what the transform [stick] returns *)

Lemma exp_add_log (a w : tensor) :
  all_positive w ->
  tensor_exp (tensor_add a (tensor_log w)) = tensor_mul w (tensor_exp a).
Proof.
  unfold tensor_exp, tensor_add, tensor_log, tensor_mul.
  intros Hw. revert a. induction Hw as [|v w Hv _ IH]; intros a.
  - destruct a; reflexivity.
  - destruct a as [|x a]; [reflexivity|]. simpl.
    rewrite exp_plus, exp_ln by exact Hv. rewrite IH. f_equal. lra.
Qed.

Lemma ones_like_positive (t : tensor) : all_positive (ones_like t).
Proof.
  unfold all_positive, ones_like. induction t; simpl; constructor; auto.
  lra.
Qed.

Lemma logsumexp_weighted_positive (log_mu w : tensor) :
  all_positive w ->
  logsumexp_weighted log_mu w = logsumexp (tensor_add log_mu (tensor_log w)).
Proof.
  intros Hw. unfold logsumexp_weighted, logsumexp.
  rewrite exp_add_log by exact Hw. reflexivity.
Qed.

Lemma singleton_on_simplex (w : tensor) :
  length w = 1%nat -> on_simplex w -> w = [1].
Proof.
  destruct w as [|x [|y w]]; simpl; intros Hl [_ Hs]; try lia.
  simpl in Hs. f_equal. lra.
Qed.

Lemma valid_branch_params (n : Z) (mu phi w : tensor) :
  valid_branch n mu phi w -> valid_params_branch n mu phi w.
Proof.
  intros (Lm & Lp & Lw & Pm & Pp & Sw).
  repeat (split; [assumption|]). apply open_simplex_on_simplex, Sw.
Qed.

(** With [stick_breaking] for [stick], these are the methods as modelled
    above. *)
Lemma with_stick_breaking (get_detached : R -> R -> R -> R) :
  (forall self d,
     FSDModelGPLVM.encode_with_stick stick_breaking self d
     = FSDModelGPLVM.encode self d)
  /\ (forall self od pd,
        FSDModelGPLVM.decode_with_stick stick_breaking self od pd
        = FSDModelGPLVM.decode self od pd)
  /\ (forall self d,
        FSDModelGPLVMRestricted.encode_with_stick stick_breaking self d
        = FSDModelGPLVMRestricted.encode self d)
  /\ (forall self od pd,
        FSDModelGPLVMRestricted.decode_with_stick get_detached stick_breaking
          self od pd
        = FSDModelGPLVMRestricted.decode get_detached self od pd).
Proof.
  split; [reflexivity|]. split; [reflexivity|]. split; [reflexivity|].
  intros self od pd.
  unfold FSDModelGPLVMRestricted.decode_with_stick,
    FSDModelGPLVMRestricted.decode.
  destruct (py_assert 579 _) as [[]|]; [|reflexivity]. rewrite !bind_ok.
  destruct (getitem od "fsd_xi_nq") as [xi|]; [|reflexivity].
  rewrite !bind_ok.
  destruct (py_assert 582 _) as [[]|]; [|reflexivity]. rewrite !bind_ok.
  destruct (1 <? FSDModelGPLVMRestricted.n_fsd_hi_comps self)%Z;
    cbv beta iota zeta.
  - rewrite logsumexp_weighted_positive
      by (simpl; apply stick_call_simplex).
    reflexivity.
  - rewrite logsumexp_weighted_positive by apply ones_like_positive.
    reflexivity.
Qed.

(** On positive weights the stick-breaking transform, over the reals,
    returns the weights. *)
Lemma stick_breaking_returns_weights (n : Z) (mu phi w : tensor) :
  (1 <= n)%Z -> valid_branch n mu phi w -> returns_weights stick_breaking w.
Proof.
  intros Hn (_ & _ & Lw & _ & _ & [Pw Sw]). split.
  - simpl. rewrite length_stick_inverse, length_removelast. reflexivity.
  - simpl. apply stick_call_inverse; try assumption.
    unfold shape_last in Lw. destruct w; [simpl in Lw; lia | discriminate].
Qed.

(** What [encode] writes for the weights of a branch of [n] components,
    and that [decode] reads the weights back from it when [stick] returns
    them. *)
Lemma encoded_weights_with_stick (stick : Transform) (n : Z) (w : tensor) :
  (1 <= n)%Z -> shape_last w = n -> on_simplex w ->
  ((1 < n)%Z -> returns_weights stick w) ->
  let c := if (1 <? n)%Z then transform_inv stick w else [] in
  shape_last c = (n - 1)%Z
  /\ forall base, shape_last base = n ->
       (if (1 <? n)%Z then transform_call stick c else ones_like base) = w.
Proof.
  unfold shape_last. intros Hn Hw Hs Hrt.
  destruct (Z.ltb_spec 1 n); cbv zeta.
  - destruct (Hrt ltac:(assumption)) as [Hlen Hcall]. split.
    + rewrite Hlen. lia.
    + intros _ _. exact Hcall.
  - split; [simpl; lia|]. intros base Hbase.
    rewrite ones_like_singleton by lia.
    symmetry. apply singleton_on_simplex; [lia | assumption].
Qed.

Lemma full_encode_with_stick_params_dict (stick : Transform)
    (self : FSDModelGPLVM.t) (p : MixtureParams) :
  FSDModelGPLVM.encode_with_stick stick self (params_dict p)
  = Ok (tensor_log (mu_hi p) ++ tensor_log (phi_hi p)
        ++ (if (1 <? FSDModelGPLVM.n_fsd_hi_comps self)%Z
            then transform_inv stick (w_hi p) else [])
        ++ tensor_log (mu_lo p) ++ tensor_log (phi_lo p)
        ++ (if (1 <? FSDModelGPLVM.n_fsd_lo_comps self)%Z
            then transform_inv stick (w_lo p) else [])).
Proof.
  pose proof (getitem_params_dict p) as (P1 & P2 & P3 & P4 & P5 & P6).
  unfold FSDModelGPLVM.encode_with_stick, cat.
  rewrite P4, bind_ok, P5, bind_ok.
  destruct (1 <? FSDModelGPLVM.n_fsd_hi_comps self)%Z;
    destruct (1 <? FSDModelGPLVM.n_fsd_lo_comps self)%Z;
    rewrite ?P6; simpl; rewrite P1; simpl; rewrite P2; simpl;
    rewrite ?P3; simpl; rewrite ?app_nil_r; reflexivity.
Qed.

Lemma full_decode_with_stick_cat (stick : Transform)
    (self : FSDModelGPLVM.t) (a b c d e f : tensor)
    (parents_dict : option (gmap string R)) :
  let n_hi := FSDModelGPLVM.n_fsd_hi_comps self in
  let n_lo := FSDModelGPLVM.n_fsd_lo_comps self in
  (1 <= n_hi)%Z -> (1 <= n_lo)%Z ->
  shape_last a = n_hi -> shape_last b = n_hi ->
  shape_last c = (n_hi - 1)%Z ->
  shape_last d = n_lo -> shape_last e = n_lo ->
  shape_last f = (n_lo - 1)%Z ->
  FSDModelGPLVM.decode_with_stick stick self
    (xi_dict (a ++ b ++ c ++ d ++ e ++ f)) parents_dict
  = Ok (params_dict
          {| mu_lo := tensor_exp d;
             phi_lo := tensor_exp e;
             w_lo := if (1 <? n_lo)%Z then transform_call stick f
                     else ones_like (tensor_exp d);
             mu_hi := tensor_exp a;
             phi_hi := tensor_exp b;
             w_hi := if (1 <? n_hi)%Z then transform_call stick c
                     else ones_like (tensor_exp a) |}).
Proof.
  intros n_hi n_lo Hhi Hlo Ha Hb Hc Hd He Hf.
  unfold shape_last in *.
  unfold FSDModelGPLVM.decode_with_stick.
  rewrite contains_xi_dict, getitem_xi_dict. simpl py_assert. rewrite !bind_ok.
  remember (a ++ b ++ c ++ d ++ e ++ f) as xi eqn:Hxi.
  assert (Hdim : (shape_last xi =? FSDModelGPLVM.fsd_xi_dim self)%Z = true).
  { apply Z.eqb_eq. unfold shape_last, FSDModelGPLVM.fsd_xi_dim. subst xi.
    rewrite !length_app. fold n_hi n_lo. lia. }
  rewrite Hdim. simpl py_assert. rewrite bind_ok. fold n_hi n_lo.
  rewrite (py_slice_eq xi [] a (b ++ c ++ d ++ e ++ f) 0 (0 + n_hi))
    by slice_side Hxi.
  rewrite (py_slice_eq xi a b (c ++ d ++ e ++ f) (0 + n_hi) (0 + n_hi + n_hi))
    by slice_side Hxi.
  destruct (Z.ltb_spec 1 n_hi) as [Hhi1|Hhi1].
  - rewrite (py_slice_eq xi (a ++ b) c (d ++ e ++ f)
               (0 + n_hi + n_hi) (0 + n_hi + n_hi + n_hi - 1))
      by slice_side Hxi.
    set (o := (0 + n_hi + n_hi + (n_hi - 1))%Z). cbv beta iota.
    rewrite (py_slice_eq xi (a ++ b ++ c) d (e ++ f) o (o + n_lo))
      by slice_side Hxi.
    rewrite (py_slice_eq xi (a ++ b ++ c ++ d) e f (o + n_lo) (o + n_lo + n_lo))
      by slice_side Hxi.
    destruct (Z.ltb_spec 1 n_lo) as [Hlo1|Hlo1]; [|reflexivity].
    rewrite (py_slice_eq xi (a ++ b ++ c ++ d ++ e) f []
               (o + n_lo + n_lo) (o + n_lo + n_lo + n_lo - 1))
      by slice_side Hxi.
    reflexivity.
  - set (o := (0 + n_hi + n_hi)%Z). cbv beta iota.
    rewrite (py_slice_eq xi (a ++ b ++ c) d (e ++ f) o (o + n_lo))
      by slice_side Hxi.
    rewrite (py_slice_eq xi (a ++ b ++ c ++ d) e f (o + n_lo) (o + n_lo + n_lo))
      by slice_side Hxi.
    destruct (Z.ltb_spec 1 n_lo) as [Hlo1|Hlo1]; [|reflexivity].
    rewrite (py_slice_eq xi (a ++ b ++ c ++ d ++ e) f []
               (o + n_lo + n_lo) (o + n_lo + n_lo + n_lo - 1))
      by slice_side Hxi.
    reflexivity.
Qed.

Lemma full_decode_encode_with_stick (stick : Transform)
    (self : FSDModelGPLVM.t)
    (p : MixtureParams) (parents_dict : option (gmap string R)) :
  let n_hi := FSDModelGPLVM.n_fsd_hi_comps self in
  let n_lo := FSDModelGPLVM.n_fsd_lo_comps self in
  (1 <= n_hi)%Z -> (1 <= n_lo)%Z ->
  valid_params_branch n_lo (mu_lo p) (phi_lo p) (w_lo p) ->
  valid_params_branch n_hi (mu_hi p) (phi_hi p) (w_hi p) ->
  ((1 < n_lo)%Z -> returns_weights stick (w_lo p)) ->
  ((1 < n_hi)%Z -> returns_weights stick (w_hi p)) ->
  exists xi,
    FSDModelGPLVM.encode_with_stick stick self (params_dict p) = Ok xi
    /\ FSDModelGPLVM.decode_with_stick stick self (xi_dict xi) parents_dict
       = Ok (params_dict p).
Proof.
  intros n_hi n_lo Hhi Hlo (Lm & Lp & Lw & Pm & Pp & Sw)
    (Hm & Hp & Hw & Qm & Qp & Tw) Rlo Rhi.
  rewrite full_encode_with_stick_params_dict. fold n_hi n_lo.
  eexists. split; [reflexivity|].
  destruct (encoded_weights_with_stick stick n_lo (w_lo p)) as [Hclo Hrlo];
    try assumption.
  destruct (encoded_weights_with_stick stick n_hi (w_hi p)) as [Hchi Hrhi];
    try assumption.
  rewrite full_decode_with_stick_cat; fold n_hi n_lo;
    rewrite ?shape_last_log; try assumption.
  rewrite Hrlo, Hrhi by (rewrite shape_last_exp, shape_last_log; assumption).
  rewrite !tensor_exp_log by assumption.
  destruct p; reflexivity.
Qed.

Lemma restricted_decode_with_stick_cat (get_detached : R -> R -> R -> R)
    (stick : Transform) (self : FSDModelGPLVMRestricted.t)
    (a b c : tensor) :
  let n_hi := FSDModelGPLVMRestricted.n_fsd_hi_comps self in
  let w := if (1 <? n_hi)%Z then transform_call stick c
           else ones_like (tensor_exp a) in
  (1 <= n_hi)%Z ->
  shape_last a = n_hi -> shape_last b = n_hi ->
  shape_last c = (n_hi - 1)%Z ->
  FSDModelGPLVMRestricted.decode_with_stick get_detached stick self
    (xi_dict (a ++ b ++ c)) None
  = Ok (params_dict
          {| mu_lo :=
               [exp (FSDModelGPLVMRestricted.log_mu_lo_intercept self
                     + FSDModelGPLVMRestricted.log_mu_lo_slope self
                       * logsumexp_weighted a w)];
             phi_lo := [1];
             w_lo := [1];
             mu_hi := tensor_exp a;
             phi_hi := tensor_exp b;
             w_hi := w |}).
Proof.
  intros n_hi w Hhi Ha Hb Hc. unfold shape_last in *.
  unfold FSDModelGPLVMRestricted.decode_with_stick.
  rewrite contains_xi_dict, getitem_xi_dict. simpl py_assert.
  rewrite !bind_ok.
  remember (a ++ b ++ c) as xi eqn:Hxi.
  assert (Hdim : (shape_last xi
                  =? FSDModelGPLVMRestricted.fsd_xi_dim self)%Z = true).
  { apply Z.eqb_eq.
    unfold shape_last, FSDModelGPLVMRestricted.fsd_xi_dim. subst xi.
    rewrite !length_app. fold n_hi. lia. }
  rewrite Hdim. simpl py_assert. rewrite bind_ok. fold n_hi.
  rewrite (py_slice_eq xi [] a (b ++ c) 0 (0 + n_hi)) by slice_side Hxi.
  rewrite (py_slice_eq xi a b c (0 + n_hi) (0 + n_hi + n_hi))
    by slice_side Hxi.
  assert (Hw : (let '(w_hi, _) :=
                  if (1 <? n_hi)%Z
                  then (transform_call stick
                          (py_slice xi (0 + n_hi + n_hi)
                                    (0 + n_hi + n_hi + n_hi - 1)),
                        (0 + n_hi + n_hi + (n_hi - 1))%Z)
                  else (ones_like (tensor_exp a), (0 + n_hi + n_hi)%Z)
                in w_hi)
               = w).
  { unfold w. destruct (Z.ltb_spec 1 n_hi); [|reflexivity].
    rewrite (py_slice_eq xi (a ++ b) c []
               (0 + n_hi + n_hi) (0 + n_hi + n_hi + n_hi - 1))
      by slice_side Hxi.
    reflexivity. }
  rewrite <- Hw.
  destruct (1 <? n_hi)%Z;
    destruct (FSDModelGPLVMRestricted.detach_non_inducing_genes self);
    reflexivity.
Qed.

Lemma restricted_decode_encode_with_stick (get_detached : R -> R -> R -> R)
    (stick : Transform) (self : FSDModelGPLVMRestricted.t)
    (q : MixtureParams) :
  let n_hi := FSDModelGPLVMRestricted.n_fsd_hi_comps self in
  (1 <= n_hi)%Z ->
  valid_params_branch n_hi (mu_hi q) (phi_hi q) (w_hi q) ->
  ((1 < n_hi)%Z -> returns_weights stick (w_hi q)) ->
  exists xi,
    FSDModelGPLVMRestricted.encode_with_stick stick self (params_dict q)
    = Ok xi
    /\ FSDModelGPLVMRestricted.decode_with_stick get_detached stick self
         (xi_dict xi) None
       = Ok (params_dict
               {| mu_lo :=
                    [exp (FSDModelGPLVMRestricted.log_mu_lo_intercept self
                          + FSDModelGPLVMRestricted.log_mu_lo_slope self
                            * ln (tensor_sum
                                  (tensor_mul (w_hi q) (mu_hi q))))];
                  phi_lo := [1];
                  w_lo := [1];
                  mu_hi := mu_hi q;
                  phi_hi := phi_hi q;
                  w_hi := w_hi q |}).
Proof.
  intros n_hi Hhi (Hm & Hp & Hw & Qm & Qp & Tw) Rhi.
  pose proof (getitem_params_dict q) as (_ & _ & _ & Q4 & Q5 & Q6).
  assert (Henc : FSDModelGPLVMRestricted.encode_with_stick stick self
                   (params_dict q)
                 = Ok (tensor_log (mu_hi q) ++ tensor_log (phi_hi q)
                       ++ (if (1 <? n_hi)%Z
                           then transform_inv stick (w_hi q) else []))).
  { unfold FSDModelGPLVMRestricted.encode_with_stick, cat.
    rewrite Q4, Q5. fold n_hi.
    destruct (1 <? n_hi)%Z; rewrite ?Q6; simpl; rewrite ?app_nil_r;
      reflexivity. }
  rewrite Henc. eexists. split; [reflexivity|].
  destruct (encoded_weights_with_stick stick n_hi (w_hi q)) as [Hc Hr];
    try assumption.
  rewrite restricted_decode_with_stick_cat; fold n_hi;
    rewrite ?shape_last_log; try assumption.
  rewrite Hr by (rewrite shape_last_exp, shape_last_log; assumption).
  unfold logsumexp_weighted.
  rewrite !tensor_exp_log by assumption.
  reflexivity.
Qed.

(** C1 (as amended).  On valid parameters (positive means and dispersions,
    weights on the simplex, the configured component counts), whenever the
    transform [stick] returns the weight vectors of the branches that have
    more than one component, the full codec is a round trip on all six
    entries: [decode] of [encode p] is [p].  The restricted codec is a round
    trip on the hi branch only: [decode] of [encode q] has the hi entries of
    [q], while its lo entries are those the link derives from the hi
    branch, namely
    [mu_lo = exp (intercept + slope * ln (sum (w_hi * mu_hi)))] and
    [phi_lo = w_lo = 1], whatever the lo entries of [q] were. *)
Theorem codec_roundtrip
    (stick : Transform) (get_detached : R -> R -> R -> R)
    (full : FSDModelGPLVM.t) (p : MixtureParams)
    (parents_dict : option (gmap string R))
    (restricted : FSDModelGPLVMRestricted.t) (q : MixtureParams) :
  (1 <= FSDModelGPLVM.n_fsd_hi_comps full)%Z ->
  (1 <= FSDModelGPLVM.n_fsd_lo_comps full)%Z ->
  valid_params_branch (FSDModelGPLVM.n_fsd_lo_comps full)
    (mu_lo p) (phi_lo p) (w_lo p) ->
  valid_params_branch (FSDModelGPLVM.n_fsd_hi_comps full)
    (mu_hi p) (phi_hi p) (w_hi p) ->
  ((1 < FSDModelGPLVM.n_fsd_lo_comps full)%Z ->
   returns_weights stick (w_lo p)) ->
  ((1 < FSDModelGPLVM.n_fsd_hi_comps full)%Z ->
   returns_weights stick (w_hi p)) ->
  (1 <= FSDModelGPLVMRestricted.n_fsd_hi_comps restricted)%Z ->
  valid_params_branch (FSDModelGPLVMRestricted.n_fsd_hi_comps restricted)
    (mu_hi q) (phi_hi q) (w_hi q) ->
  ((1 < FSDModelGPLVMRestricted.n_fsd_hi_comps restricted)%Z ->
   returns_weights stick (w_hi q)) ->
  (FSDModelGPLVM.encode_with_stick stick full (params_dict p)
     ≫= fun xi =>
        FSDModelGPLVM.decode_with_stick stick full (xi_dict xi) parents_dict)
  = Ok (params_dict p)
  /\ (FSDModelGPLVMRestricted.encode_with_stick stick restricted
        (params_dict q)
        ≫= fun xi =>
           FSDModelGPLVMRestricted.decode_with_stick get_detached stick
             restricted (xi_dict xi) None)
     = Ok (params_dict
             {| mu_lo :=
                  [exp (FSDModelGPLVMRestricted.log_mu_lo_intercept restricted
                        + FSDModelGPLVMRestricted.log_mu_lo_slope restricted
                          * ln (tensor_sum
                                  (tensor_mul (w_hi q) (mu_hi q))))];
                phi_lo := [1];
                w_lo := [1];
                mu_hi := mu_hi q;
                phi_hi := phi_hi q;
                w_hi := w_hi q |}).
Proof.
  intros Hhi Hlo Vlo Vhi Rlo Rhi Hr Vr Rr. split.
  - destruct (full_decode_encode_with_stick stick full p parents_dict
                Hhi Hlo Vlo Vhi Rlo Rhi) as (xi & -> & Hdec).
    exact Hdec.
  - destruct (restricted_decode_encode_with_stick get_detached stick
                restricted q Hr Vr Rr) as (xi & -> & Hdec).
    exact Hdec.
Qed.

Lemma codec_roundtrip_witness :
  ((FSDModelGPLVM.encode_with_stick stick_breaking model_3_2
      (params_dict params_3_2)
      ≫= fun xi =>
         FSDModelGPLVM.decode_with_stick stick_breaking model_3_2
           (xi_dict xi) None)
   = Ok (params_dict params_3_2)
   /\ (FSDModelGPLVMRestricted.encode_with_stick stick_breaking restricted_2
         (params_dict params_2_1)
         ≫= fun xi =>
            FSDModelGPLVMRestricted.decode_with_stick detach_by_masks
              stick_breaking restricted_2 (xi_dict xi) None)
      = Ok (params_dict
              {| mu_lo :=
                   [exp (ln (1 / 10)
                         + 1 * ln (tensor_sum
                                     (tensor_mul [1 / 4; 3 / 4] [1; 2])))];
                 phi_lo := [1]; w_lo := [1];
                 mu_hi := [1; 2]; phi_hi := [1; 1];
                 w_hi := [1 / 4; 3 / 4] |}))
  /\ (FSDModelGPLVM.encode_with_stick drop_last_weight model_3_2
        (params_dict params_zero_weight)
        ≫= fun xi =>
           FSDModelGPLVM.decode_with_stick drop_last_weight model_3_2
             (xi_dict xi) None)
     = Ok (params_dict params_zero_weight).
Proof.
  assert (V2 : valid_branch 2 (mu_hi params_2_1) (phi_hi params_2_1)
                 (w_hi params_2_1)).
  { unfold valid_branch, in_open_simplex, all_positive, shape_last; simpl.
    repeat split; try reflexivity; repeat constructor; lra. }
  split.
  - apply (codec_roundtrip stick_breaking detach_by_masks model_3_2
             params_3_2 None restricted_2 params_2_1).
    + simpl. lia.
    + simpl. lia.
    + apply valid_branch_params, params_3_2_valid.
    + apply valid_branch_params, params_3_2_valid.
    + intros _.
      apply (stick_breaking_returns_weights 2 _ _ _ ltac:(lia)
               (proj1 params_3_2_valid)).
    + intros _.
      apply (stick_breaking_returns_weights 3 _ _ _ ltac:(lia)
               (proj2 params_3_2_valid)).
    + simpl. lia.
    + apply valid_branch_params, V2.
    + intros _. apply (stick_breaking_returns_weights 2 _ _ _ ltac:(lia) V2).
  - apply (codec_roundtrip drop_last_weight detach_by_masks model_3_2
             params_zero_weight None restricted_2 params_2_1).
    + simpl. lia.
    + simpl. lia.
    + unfold valid_params_branch, on_simplex, all_positive, shape_last; simpl.
      repeat split; try reflexivity; repeat constructor; lra.
    + unfold valid_params_branch, on_simplex, all_positive, shape_last; simpl.
      repeat split; try reflexivity; repeat constructor; lra.
    + intros _. split; [reflexivity|]. simpl. repeat f_equal. lra.
    + intros _. split; [reflexivity|]. simpl. repeat f_equal. lra.
    + simpl. lia.
    + apply valid_branch_params, V2.
    + intros _. split; [reflexivity|]. simpl. repeat f_equal. lra.
Defined.

(** C1, as stated, fails for the restricted codec: [params_1_1] is valid
    for [restricted_1], yet decoding its encoding does not give it back
    (the lo dispersion 2 comes back as 1). *)
Lemma codec_roundtrip_restricted_counterexample :
  (valid_params_branch 1
     (mu_lo params_1_1) (phi_lo params_1_1) (w_lo params_1_1)
   /\ valid_params_branch
        (FSDModelGPLVMRestricted.n_fsd_hi_comps restricted_1)
        (mu_hi params_1_1) (phi_hi params_1_1) (w_hi params_1_1))
  /\ (FSDModelGPLVMRestricted.encode restricted_1 (params_dict params_1_1)
        ≫= fun xi =>
           FSDModelGPLVMRestricted.decode detach_by_masks restricted_1
             (xi_dict xi) None)
     <> Ok (params_dict params_1_1).
Proof.
  split.
  { split; apply valid_branch_params, params_1_1_valid. }
  pose proof (getitem_params_dict params_1_1) as (_ & _ & _ & Q4 & Q5 & Q6).
  destruct (restricted_decode_encode detach_by_masks restricted_1
              (params_dict params_1_1) _ _ _ ltac:(simpl; lia) Q4 Q5 Q6
              (proj2 params_1_1_valid)) as (xi & -> & Hdec).
  rewrite bind_ok, Hdec. intros Heq. apply Ok_inj in Heq.
  apply params_dict_inj in Heq. apply (f_equal phi_lo) in Heq.
  simpl in Heq. injection Heq. lra.
Qed.

(** ** The range of the floating-point exponential *)

Lemma decode_with_exp_exp (self : FSDModelGPLVM.t)
    (od : gmap string tensor) (parents_dict : option (gmap string R)) :
  FSDModelGPLVM.decode_with_exp exp self od parents_dict
  = FSDModelGPLVM.decode self od parents_dict.
Proof. reflexivity. Qed.

Lemma full_decode_with_exp_cat (float_exp : R -> R) (self : FSDModelGPLVM.t)
    (a b c d e f : tensor) (parents_dict : option (gmap string R)) :
  let n_hi := FSDModelGPLVM.n_fsd_hi_comps self in
  let n_lo := FSDModelGPLVM.n_fsd_lo_comps self in
  (1 <= n_hi)%Z -> (1 <= n_lo)%Z ->
  shape_last a = n_hi -> shape_last b = n_hi ->
  shape_last c = (n_hi - 1)%Z ->
  shape_last d = n_lo -> shape_last e = n_lo ->
  shape_last f = (n_lo - 1)%Z ->
  FSDModelGPLVM.decode_with_exp float_exp self
    (xi_dict (a ++ b ++ c ++ d ++ e ++ f)) parents_dict
  = Ok (params_dict
          {| mu_lo := map float_exp d;
             phi_lo := map float_exp e;
             w_lo := if (1 <? n_lo)%Z then StickBreakingTransform._call f
                     else ones_like (map float_exp d);
             mu_hi := map float_exp a;
             phi_hi := map float_exp b;
             w_hi := if (1 <? n_hi)%Z then StickBreakingTransform._call c
                     else ones_like (map float_exp a) |}).
Proof.
  intros n_hi n_lo Hhi Hlo Ha Hb Hc Hd He Hf.
  unfold shape_last in *.
  unfold FSDModelGPLVM.decode_with_exp.
  rewrite contains_xi_dict, getitem_xi_dict. simpl py_assert. rewrite !bind_ok.
  remember (a ++ b ++ c ++ d ++ e ++ f) as xi eqn:Hxi.
  assert (Hdim : (shape_last xi =? FSDModelGPLVM.fsd_xi_dim self)%Z = true).
  { apply Z.eqb_eq. unfold shape_last, FSDModelGPLVM.fsd_xi_dim. subst xi.
    rewrite !length_app. fold n_hi n_lo. lia. }
  rewrite Hdim. simpl py_assert. rewrite bind_ok. fold n_hi n_lo.
  rewrite (py_slice_eq xi [] a (b ++ c ++ d ++ e ++ f) 0 (0 + n_hi))
    by slice_side Hxi.
  rewrite (py_slice_eq xi a b (c ++ d ++ e ++ f) (0 + n_hi) (0 + n_hi + n_hi))
    by slice_side Hxi.
  destruct (Z.ltb_spec 1 n_hi) as [Hhi1|Hhi1].
  - rewrite (py_slice_eq xi (a ++ b) c (d ++ e ++ f)
               (0 + n_hi + n_hi) (0 + n_hi + n_hi + n_hi - 1))
      by slice_side Hxi.
    set (o := (0 + n_hi + n_hi + (n_hi - 1))%Z). cbv beta iota.
    rewrite (py_slice_eq xi (a ++ b ++ c) d (e ++ f) o (o + n_lo))
      by slice_side Hxi.
    rewrite (py_slice_eq xi (a ++ b ++ c ++ d) e f (o + n_lo) (o + n_lo + n_lo))
      by slice_side Hxi.
    destruct (Z.ltb_spec 1 n_lo) as [Hlo1|Hlo1]; [|reflexivity].
    rewrite (py_slice_eq xi (a ++ b ++ c ++ d ++ e) f []
               (o + n_lo + n_lo) (o + n_lo + n_lo + n_lo - 1))
      by slice_side Hxi.
    reflexivity.
  - set (o := (0 + n_hi + n_hi)%Z). cbv beta iota.
    rewrite (py_slice_eq xi (a ++ b ++ c) d (e ++ f) o (o + n_lo))
      by slice_side Hxi.
    rewrite (py_slice_eq xi (a ++ b ++ c ++ d) e f (o + n_lo) (o + n_lo + n_lo))
      by slice_side Hxi.
    destruct (Z.ltb_spec 1 n_lo) as [Hlo1|Hlo1]; [|reflexivity].
    rewrite (py_slice_eq xi (a ++ b ++ c ++ d ++ e) f []
               (o + n_lo + n_lo) (o + n_lo + n_lo + n_lo - 1))
      by slice_side Hxi.
    reflexivity.
Qed.

Lemma exponentiated_entries_cat (self : FSDModelGPLVM.t)
    (a b c d e f : tensor) :
  let n_hi := FSDModelGPLVM.n_fsd_hi_comps self in
  let n_lo := FSDModelGPLVM.n_fsd_lo_comps self in
  (1 <= n_hi)%Z -> (1 <= n_lo)%Z ->
  shape_last a = n_hi -> shape_last b = n_hi ->
  shape_last c = (n_hi - 1)%Z ->
  shape_last d = n_lo -> shape_last e = n_lo ->
  exponentiated_entries self (a ++ b ++ c ++ d ++ e ++ f)
  = a ++ b ++ d ++ e.
Proof.
  intros n_hi n_lo Hhi Hlo Ha Hb Hc Hd He. unfold shape_last in *.
  unfold exponentiated_entries. fold n_hi n_lo.
  rewrite (app_assoc a b), (take_app_length' (a ++ b))
    by (rewrite length_app; lia).
  rewrite (app_assoc (a ++ b) c), (drop_app_length' ((a ++ b) ++ c))
    by (rewrite !length_app; lia).
  rewrite (app_assoc d e), (take_app_length' (d ++ e))
    by (rewrite length_app; lia).
  rewrite <- !app_assoc. reflexivity.
Qed.

Lemma map_nonneg (g : R -> R) (t : tensor) :
  (forall x, 0 <= g x) -> Forall (fun v => 0 <= v) (map g t).
Proof. intros Hg. induction t; simpl; constructor; auto. Qed.

Lemma map_positive (g : R -> R) (t : tensor) :
  (forall x, -103 <= x -> 0 < g x) -> Forall (fun x => -103 <= x) t ->
  all_positive (map g t).
Proof.
  intros Hg Ht. unfold all_positive.
  induction Ht; simpl; constructor; auto.
Qed.

Lemma exp_underflowing_float32_exp_like : float32_exp_like exp_underflowing.
Proof.
  unfold exp_underflowing. split; intros x.
  - destruct (Rlt_dec x (-105)); [lra|]. left. apply exp_pos.
  - intros Hx. destruct (Rlt_dec x (-105)); [lra|]. apply exp_pos.
Qed.

(** C5 (as amended).  Whatever the floating-point exponential does outside
    its range, every row whose length is the model's [fsd_xi_dim] decodes,
    and in the decoded parameters each branch's weights are non-negative
    and sum to 1 and no mean or dispersion is negative, whatever the
    entries of the row are; the means and dispersions are all strictly
    positive when the entries of the row that [decode] exponentiates are
    at least -103. *)
Theorem decode_simplex_and_positive
    (float_exp : R -> R)
    (full : FSDModelGPLVM.t) (xi : tensor)
    (parents_dict : option (gmap string R)) :
  float32_exp_like float_exp ->
  (1 <= FSDModelGPLVM.n_fsd_hi_comps full)%Z ->
  (1 <= FSDModelGPLVM.n_fsd_lo_comps full)%Z ->
  shape_last xi = FSDModelGPLVM.fsd_xi_dim full ->
  exists p,
    FSDModelGPLVM.decode_with_exp float_exp full (xi_dict xi) parents_dict
    = Ok (params_dict p)
    /\ on_simplex (w_lo p) /\ on_simplex (w_hi p)
    /\ Forall (fun v => 0 <= v) (mu_lo p ++ phi_lo p ++ mu_hi p ++ phi_hi p)
    /\ (Forall (fun x => -103 <= x) (exponentiated_entries full xi) ->
        all_positive (mu_lo p) /\ all_positive (phi_lo p)
        /\ all_positive (mu_hi p) /\ all_positive (phi_hi p)).
Proof.
  intros [Hnonneg Hpos] Hhi Hlo Hlen.
  destruct (full_split_xi full xi Hhi Hlo Hlen)
    as (a & b & c & d & e & f & -> & Ha & Hb & Hc & Hd & He & Hf).
  eexists. split; [apply full_decode_with_exp_cat; assumption|].
  cbn [mu_lo phi_lo w_lo mu_hi phi_hi w_hi].
  destruct (decoded_weights_valid (FSDModelGPLVM.n_fsd_lo_comps full) f
              (map float_exp d)) as [_ Hwlo];
    [assumption .. | unfold shape_last in *; rewrite length_map; assumption |].
  destruct (decoded_weights_valid (FSDModelGPLVM.n_fsd_hi_comps full) c
              (map float_exp a)) as [_ Hwhi];
    [assumption .. | unfold shape_last in *; rewrite length_map; assumption |].
  split; [apply open_simplex_on_simplex, Hwlo|].
  split; [apply open_simplex_on_simplex, Hwhi|].
  split.
  - rewrite !Forall_app. repeat split; apply map_nonneg, Hnonneg.
  - rewrite exponentiated_entries_cat by assumption.
    rewrite !Forall_app. intros (Fa & Fb & Fd & Fe).
    repeat split; apply map_positive; assumption.
Qed.

Lemma decode_simplex_and_positive_witness :
  exists p,
    FSDModelGPLVM.decode_with_exp exp_underflowing model_3_2
      (xi_dict [80; -100; 0; 1; 2; 3; 500; -500; 0; 7; 1; 1; -2000]) None
    = Ok (params_dict p)
    /\ on_simplex (w_lo p) /\ on_simplex (w_hi p)
    /\ all_positive (mu_lo p) /\ all_positive (phi_lo p)
    /\ all_positive (mu_hi p) /\ all_positive (phi_hi p).
Proof.
  destruct (decode_simplex_and_positive exp_underflowing model_3_2
              [80; -100; 0; 1; 2; 3; 500; -500; 0; 7; 1; 1; -2000] None)
    as (p & Hp & H1 & H2 & _ & Hpos).
  - apply exp_underflowing_float32_exp_like.
  - simpl. lia.
  - simpl. lia.
  - reflexivity.
  - exists p. split; [exact Hp|]. split; [exact H1|]. split; [exact H2|].
    apply Hpos. unfold exponentiated_entries. simpl.
    repeat constructor; lra.
Defined.

(** C5, as stated, fails where [exp] underflows: [row_underflow] has the
    dimension of [model_1_1], and with an exponential that is 0 far below
    its range, as the floating-point one is, the hi mean it decodes to is
    0. *)
Lemma decode_positive_underflow_counterexample :
  float32_exp_like exp_underflowing
  /\ shape_last row_underflow = FSDModelGPLVM.fsd_xi_dim model_1_1
  /\ exists p,
       FSDModelGPLVM.decode_with_exp exp_underflowing model_1_1
         (xi_dict row_underflow) None = Ok (params_dict p)
       /\ mu_hi p = [0]
       /\ ~ all_positive (mu_hi p).
Proof.
  split; [apply exp_underflowing_float32_exp_like|].
  split; [reflexivity|].
  pose proof (full_decode_with_exp_cat exp_underflowing model_1_1
                [-1000] [0] [] [0] [0] [] None) as Hcat.
  cbv zeta in Hcat.
  eexists. split; [apply Hcat; simpl; try lia; reflexivity|].
  cbn [mu_hi].
  assert (H0 : map exp_underflowing [-1000] = [0]).
  { simpl. unfold exp_underflowing.
    destruct (Rlt_dec (-1000) (-105)); [reflexivity | lra]. }
  rewrite H0. split; [reflexivity|].
  intros Hpos. inversion Hpos; subst. lra.
Qed.

(** C7.  For parameters with the configured component counts, [encode]
    returns a row whose length is the model's [fsd_xi_dim]:
    [(3 * n_hi - 1) + (3 * n_lo - 1)] for the full model, which is 13 for
    three hi and two lo components, and [3 * n_hi - 1] for the restricted
    model. *)
Theorem encode_length
    (full : FSDModelGPLVM.t) (p : MixtureParams)
    (restricted : FSDModelGPLVMRestricted.t) (q : MixtureParams) :
  let n_hi := FSDModelGPLVM.n_fsd_hi_comps full in
  let n_lo := FSDModelGPLVM.n_fsd_lo_comps full in
  let r_hi := FSDModelGPLVMRestricted.n_fsd_hi_comps restricted in
  (1 <= n_hi)%Z -> (1 <= n_lo)%Z ->
  shape_last (mu_lo p) = n_lo -> shape_last (phi_lo p) = n_lo ->
  shape_last (w_lo p) = n_lo ->
  shape_last (mu_hi p) = n_hi -> shape_last (phi_hi p) = n_hi ->
  shape_last (w_hi p) = n_hi ->
  (1 <= r_hi)%Z ->
  shape_last (mu_hi q) = r_hi -> shape_last (phi_hi q) = r_hi ->
  shape_last (w_hi q) = r_hi ->
  (exists xi,
     FSDModelGPLVM.encode full (params_dict p) = Ok xi
     /\ shape_last xi = FSDModelGPLVM.fsd_xi_dim full
     /\ shape_last xi = ((3 * n_hi - 1) + (3 * n_lo - 1))%Z
     /\ (n_hi = 3%Z -> n_lo = 2%Z -> shape_last xi = 13%Z))
  /\ (exists xi,
        FSDModelGPLVMRestricted.encode restricted (params_dict q) = Ok xi
        /\ shape_last xi = FSDModelGPLVMRestricted.fsd_xi_dim restricted
        /\ shape_last xi = (3 * r_hi - 1)%Z).
Proof.
  intros n_hi n_lo r_hi Hhi Hlo L1 L2 L3 H1 H2 H3 Hr R1 R2 R3. split.
  - rewrite full_encode_params_dict. fold n_hi n_lo.
    eexists. split; [reflexivity|].
    pose proof (shape_last_encoded_weights n_hi (w_hi p) Hhi H3) as E1.
    pose proof (shape_last_encoded_weights n_lo (w_lo p) Hlo L3) as E2.
    rewrite <- (shape_last_log (mu_hi p)) in H1.
    rewrite <- (shape_last_log (phi_hi p)) in H2.
    rewrite <- (shape_last_log (mu_lo p)) in L1.
    rewrite <- (shape_last_log (phi_lo p)) in L2.
    unfold FSDModelGPLVM.fsd_xi_dim. fold n_hi n_lo.
    set (c_hi := if (1 <? n_hi)%Z then _ else _) in *.
    set (c_lo := if (1 <? n_lo)%Z then _ else _) in *.
    clearbody c_hi c_lo.
    unfold shape_last in *. rewrite !length_app. lia.
  - pose proof (getitem_params_dict q) as (_ & _ & _ & Q4 & Q5 & Q6).
    rewrite (restricted_encode_hi restricted _ _ _ _ Q4 Q5 Q6). fold r_hi.
    eexists. split; [reflexivity|].
    pose proof (shape_last_encoded_weights r_hi (w_hi q) Hr R3) as E1.
    rewrite <- (shape_last_log (mu_hi q)) in R1.
    rewrite <- (shape_last_log (phi_hi q)) in R2.
    unfold FSDModelGPLVMRestricted.fsd_xi_dim. fold r_hi.
    set (c_hi := if (1 <? r_hi)%Z then _ else _) in *. clearbody c_hi.
    unfold shape_last in *. rewrite !length_app. lia.
Qed.

Lemma encode_length_witness :
  (exists xi,
     FSDModelGPLVM.encode model_3_2 (params_dict params_3_2) = Ok xi
     /\ shape_last xi = FSDModelGPLVM.fsd_xi_dim model_3_2
     /\ shape_last xi = ((3 * 3 - 1) + (3 * 2 - 1))%Z
     /\ (3%Z = 3%Z -> 2%Z = 2%Z -> shape_last xi = 13%Z))
  /\ (exists xi,
        FSDModelGPLVMRestricted.encode restricted_1 (params_dict params_1_1)
        = Ok xi
        /\ shape_last xi = FSDModelGPLVMRestricted.fsd_xi_dim restricted_1
        /\ shape_last xi = (3 * 1 - 1)%Z).
Proof.
  apply (encode_length model_3_2 params_3_2 restricted_1 params_1_1);
    simpl; try lia; reflexivity.
Defined.

(** ** The length check of [decode] *)

Lemma decode_prelude (od : gmap string tensor) (xi : tensor) :
  od !! "fsd_xi_nq" = Some xi ->
  contains od "fsd_xi_nq" = true /\ getitem od "fsd_xi_nq" = Ok xi.
Proof.
  intros Hxi. unfold contains, getitem. rewrite Hxi. split; [|reflexivity].
  apply bool_decide_eq_true. eauto.
Qed.

Lemma full_decode_dim_check (self : FSDModelGPLVM.t)
    (od : gmap string tensor) (xi : tensor)
    (parents_dict : option (gmap string R)) :
  od !! "fsd_xi_nq" = Some xi ->
  (shape_last xi <> FSDModelGPLVM.fsd_xi_dim self ->
   FSDModelGPLVM.decode self od parents_dict = Raise (AssertionError 235))
  /\ (shape_last xi = FSDModelGPLVM.fsd_xi_dim self ->
      exists d, FSDModelGPLVM.decode self od parents_dict = Ok d).
Proof.
  intros Hxi. destruct (decode_prelude od xi Hxi) as [Hc Hg].
  unfold FSDModelGPLVM.decode. rewrite Hc, Hg. simpl py_assert.
  rewrite !bind_ok. split; intros Hdim.
  - apply Z.eqb_neq in Hdim. rewrite Hdim. reflexivity.
  - apply Z.eqb_eq in Hdim. rewrite Hdim. simpl py_assert. rewrite bind_ok.
    destruct (1 <? FSDModelGPLVM.n_fsd_hi_comps self)%Z;
      destruct (1 <? FSDModelGPLVM.n_fsd_lo_comps self)%Z;
      eexists; reflexivity.
Qed.

Lemma restricted_decode_dim_check (get_detached : R -> R -> R -> R)
    (self : FSDModelGPLVMRestricted.t)
    (od : gmap string tensor) (xi : tensor)
    (parents_dict : option (gmap string R)) :
  od !! "fsd_xi_nq" = Some xi ->
  (shape_last xi <> FSDModelGPLVMRestricted.fsd_xi_dim self ->
   FSDModelGPLVMRestricted.decode get_detached self od parents_dict
   = Raise (AssertionError 582))
  /\ (shape_last xi = FSDModelGPLVMRestricted.fsd_xi_dim self ->
      FSDModelGPLVMRestricted.decode get_detached self od parents_dict
      <> Raise (AssertionError 582)
      /\ exists d,
           FSDModelGPLVMRestricted.decode get_detached self od None = Ok d).
Proof.
  intros Hxi. destruct (decode_prelude od xi Hxi) as [Hc Hg].
  unfold FSDModelGPLVMRestricted.decode. rewrite Hc, Hg. simpl py_assert.
  rewrite !bind_ok. split; intros Hdim.
  - apply Z.eqb_neq in Hdim. rewrite Hdim. reflexivity.
  - apply Z.eqb_eq in Hdim. rewrite Hdim. simpl py_assert. rewrite !bind_ok.
    split.
    + destruct (1 <? FSDModelGPLVMRestricted.n_fsd_hi_comps self)%Z;
        destruct (FSDModelGPLVMRestricted.detach_non_inducing_genes self);
        destruct parents_dict as [m|]; try discriminate;
        destruct (contains m "inducing_binary_mask_tensor_n");
        try discriminate;
        destruct (contains m "non_inducing_binary_mask_tensor_n");
        try discriminate;
        simpl py_assert; rewrite !bind_ok; unfold getitem;
        destruct (m !! "inducing_binary_mask_tensor_n");
        try discriminate;
        destruct (m !! "non_inducing_binary_mask_tensor_n");
        discriminate.
    + destruct (1 <? FSDModelGPLVMRestricted.n_fsd_hi_comps self)%Z;
        destruct (FSDModelGPLVMRestricted.detach_non_inducing_genes self);
        eexists; reflexivity.
Qed.

(** C8.  [decode] raises the assertion error of its length check, and so
    returns no parameters, when the last dimension of the row it is given
    differs from the model's [fsd_xi_dim]; when the two are equal that
    check does not fail: the full model's [decode] returns its dict, and
    the restricted model's [decode] does not raise that error and, without
    a [parents_dict], returns its dict. *)
Theorem decode_length_check
    (get_detached : R -> R -> R -> R)
    (full : FSDModelGPLVM.t) (restricted : FSDModelGPLVMRestricted.t)
    (od : gmap string tensor) (xi : tensor)
    (parents_dict : option (gmap string R)) :
  od !! "fsd_xi_nq" = Some xi ->
  ((shape_last xi <> FSDModelGPLVM.fsd_xi_dim full ->
    FSDModelGPLVM.decode full od parents_dict = Raise (AssertionError 235))
   /\ (shape_last xi = FSDModelGPLVM.fsd_xi_dim full ->
       exists d, FSDModelGPLVM.decode full od parents_dict = Ok d))
  /\ ((shape_last xi <> FSDModelGPLVMRestricted.fsd_xi_dim restricted ->
       FSDModelGPLVMRestricted.decode get_detached restricted od parents_dict
       = Raise (AssertionError 582))
      /\ (shape_last xi = FSDModelGPLVMRestricted.fsd_xi_dim restricted ->
          FSDModelGPLVMRestricted.decode get_detached restricted od
            parents_dict <> Raise (AssertionError 582)
          /\ exists d,
               FSDModelGPLVMRestricted.decode get_detached restricted od None
               = Ok d)).
Proof.
  intros Hxi. split.
  - apply full_decode_dim_check, Hxi.
  - apply restricted_decode_dim_check, Hxi.
Qed.

Lemma decode_length_check_witness :
  xi_dict [0; 0] !! "fsd_xi_nq" = Some [0; 0]
  /\ FSDModelGPLVM.decode model_3_2 (xi_dict [0; 0]) None
     = Raise (AssertionError 235)
  /\ exists d,
       FSDModelGPLVMRestricted.decode detach_by_masks restricted_1
         (xi_dict [0; 0]) None = Ok d.
Proof.
  assert (Hxi : xi_dict [0; 0] !! "fsd_xi_nq" = Some [0; 0])
    by apply lookup_insert_eq.
  destruct (decode_length_check detach_by_masks model_3_2 restricted_1
              (xi_dict [0; 0]) [0; 0] None Hxi) as [[Hne _] [_ Heq]].
  split; [exact Hxi|]. split.
  - apply Hne. vm_compute. discriminate.
  - apply Heq. reflexivity.
Defined.

(** ** The restricted link *)

Lemma logsumexp_singleton (x : R) : logsumexp [x] = x.
Proof.
  unfold logsumexp, tensor_sum, tensor_exp. simpl.
  rewrite Rplus_0_r. apply ln_exp.
Qed.

(** Every dict the restricted [decode] returns has a single lo component
    with dispersion 1 and weight 1. *)
Lemma restricted_decode_lo (get_detached : R -> R -> R -> R)
    (self : FSDModelGPLVMRestricted.t) (od : gmap string tensor)
    (parents_dict : option (gmap string R)) (d : gmap string tensor) :
  FSDModelGPLVMRestricted.decode get_detached self od parents_dict = Ok d ->
  getitem d "phi_lo" = Ok [1] /\ getitem d "w_lo" = Ok [1].
Proof.
  unfold FSDModelGPLVMRestricted.decode.
  destruct (py_assert 579 _) as [[]|]; [|discriminate]. rewrite bind_ok.
  destruct (getitem od "fsd_xi_nq") as [xi|]; [|discriminate].
  rewrite bind_ok.
  destruct (py_assert 582 _) as [[]|]; [|discriminate]. rewrite bind_ok.
  assert (Hleaf : forall p : MixtureParams,
            phi_lo p = [1] -> w_lo p = [1] ->
            Ok (params_dict p) = Ok d ->
            getitem d "phi_lo" = Ok [1] /\ getitem d "w_lo" = Ok [1]).
  { intros p Hp Hw Heq. apply Ok_inj in Heq. subst d.
    pose proof (getitem_params_dict p) as (_ & P2 & P3 & _).
    rewrite P2, P3, Hp, Hw. split; reflexivity. }
  destruct (1 <? FSDModelGPLVMRestricted.n_fsd_hi_comps self)%Z;
    destruct (FSDModelGPLVMRestricted.detach_non_inducing_genes self);
    destruct parents_dict as [m|];
    try (apply Hleaf; reflexivity);
    (destruct (py_assert 603 _) as [[]|]; [|discriminate]);
    (destruct (py_assert 604 _) as [[]|]; [|discriminate]);
    rewrite !bind_ok;
    (destruct (getitem m "inducing_binary_mask_tensor_n"); [|discriminate]);
    (destruct (getitem m "non_inducing_binary_mask_tensor_n");
       [|discriminate]);
    apply Hleaf; reflexivity.
Qed.

(** C3.  In every dict that the restricted [decode] returns, whatever the
    model, the dicts it is given and the detachment helper, [phi_lo] and
    [w_lo] are [[1]].  And in a restricted model with a single hi
    component, with the masks (when detachment uses them) covering the
    row, a row of the model's dimension whose log-mean entry is within the
    range of [exp] decodes to [mu_hi = [m]], [w_hi = [1]] and
    [mu_lo = [exp (intercept + slope * ln m)]]. *)
Theorem restricted_link :
  (forall (get_detached : R -> R -> R -> R)
          (self : FSDModelGPLVMRestricted.t) (od : gmap string tensor)
          (pd : option (gmap string R)) (d : gmap string tensor),
     FSDModelGPLVMRestricted.decode get_detached self od pd = Ok d ->
     getitem d "phi_lo" = Ok [1] /\ getitem d "w_lo" = Ok [1])
  /\ (forall (get_detached : R -> R -> R -> R)
             (self : FSDModelGPLVMRestricted.t) (xi : tensor)
             (parents_dict : option (gmap string R)),
        keeps_value get_detached ->
        FSDModelGPLVMRestricted.n_fsd_hi_comps self = 1%Z ->
        shape_last xi = FSDModelGPLVMRestricted.fsd_xi_dim self ->
        masks_cover (FSDModelGPLVMRestricted.detach_non_inducing_genes self)
          parents_dict ->
        exp_safe (nth 0 xi 0) ->
        exists m phi,
          0 < m
          /\ FSDModelGPLVMRestricted.decode get_detached self (xi_dict xi)
               parents_dict
             = Ok (params_dict
                     {| mu_lo :=
                          [exp (FSDModelGPLVMRestricted.log_mu_lo_intercept
                                  self
                                + FSDModelGPLVMRestricted.log_mu_lo_slope self
                                  * ln m)];
                        phi_lo := [1];
                        w_lo := [1];
                        mu_hi := [m];
                        phi_hi := [phi];
                        w_hi := [1] |})).
Proof.
  split; [intros get_detached self od pd d; apply restricted_decode_lo|].
  intros get_detached self xi parents_dict Hgd Hn Hlen Hmask _.
  destruct (restricted_split_xi self xi ltac:(lia) Hlen)
    as (a & b & c & -> & Ha & Hb & Hc).
  rewrite Hn in Ha, Hb, Hc. unfold shape_last in *.
  destruct a as [|x0 [|? ?]]; simpl in Ha; try lia.
  destruct b as [|x1 [|? ?]]; simpl in Hb; try lia.
  destruct c as [|? ?]; simpl in Hc; try lia.
  exists (exp x0), (exp x1). split; [apply exp_pos|].
  rewrite restricted_decode_cat by (unfold shape_last; simpl; lia).
  assert (Hdec : forall coeffs : R * R,
            coeffs = (FSDModelGPLVMRestricted.log_mu_lo_intercept self,
                      FSDModelGPLVMRestricted.log_mu_lo_slope self) ->
            (let w := if (1 <? FSDModelGPLVMRestricted.n_fsd_hi_comps self)%Z
                      then StickBreakingTransform._call []
                      else ones_like (tensor_exp [x0]) in
             params_dict
               {| mu_lo := [exp (coeffs.1 + coeffs.2
                                 * logsumexp (tensor_add [x0] (tensor_log w)))];
                  phi_lo := [1]; w_lo := [1];
                  mu_hi := tensor_exp [x0]; phi_hi := tensor_exp [x1];
                  w_hi := w |})
            = params_dict
                {| mu_lo :=
                     [exp (FSDModelGPLVMRestricted.log_mu_lo_intercept self
                           + FSDModelGPLVMRestricted.log_mu_lo_slope self
                             * ln (exp x0))];
                   phi_lo := [1]; w_lo := [1];
                   mu_hi := [exp x0]; phi_hi := [exp x1]; w_hi := [1] |}).
  { intros coeffs ->. rewrite Hn. cbn -[params_dict logsumexp].
    rewrite ln_1, Rplus_0_r, logsumexp_singleton, ln_exp. reflexivity. }
  destruct (FSDModelGPLVMRestricted.detach_non_inducing_genes self) eqn:Hd;
    [destruct parents_dict as [m|]|].
  - destruct (Hmask eq_refl m eq_refl) as (m1 & m2 & H1 & H2 & Hcov).
    unfold contains, getitem. rewrite H1, H2.
    rewrite !bool_decide_eq_true_2 by eauto. simpl py_assert.
    rewrite !bind_ok. f_equal. apply Hdec.
    rewrite !Hgd by exact Hcov. reflexivity.
  - f_equal. apply Hdec. reflexivity.
  - f_equal. apply Hdec. reflexivity.
Qed.

Lemma restricted_link_witness :
  exists m phi,
    0 < m
    /\ FSDModelGPLVMRestricted.decode detach_by_masks restricted_1
         (xi_dict [1; 0])
         (Some (<["inducing_binary_mask_tensor_n" := 0]>
                (<["non_inducing_binary_mask_tensor_n" := 1]> ∅)))
       = Ok (params_dict
               {| mu_lo := [exp (0 + 1 * ln m)];
                  phi_lo := [1]; w_lo := [1];
                  mu_hi := [m]; phi_hi := [phi]; w_hi := [1] |}).
Proof.
  apply (proj2 restricted_link detach_by_masks restricted_1 [1; 0]).
  - apply detach_by_masks_keeps_value.
  - reflexivity.
  - reflexivity.
  - intros _ m [= <-]. exists 0, 1.
    rewrite lookup_insert_eq, lookup_insert_ne, lookup_insert_eq
      by discriminate.
    auto.
  - unfold exp_safe. simpl. lra.
Defined.

(** C10.  The full model's [decode] does not depend on [parents_dict]: any
    two values of it, [None] included, give the same result on every
    [output_dict].  The restricted model's [decode] does read it: with
    detachment on, the same row decodes under [None] but raises the
    assertion error of the mask lookup under a [parents_dict] without
    masks. *)
Theorem full_decode_ignores_parents_dict (get_detached : R -> R -> R -> R) :
  (forall (self : FSDModelGPLVM.t) (od : gmap string tensor)
          (pd1 pd2 : option (gmap string R)),
     FSDModelGPLVM.decode self od pd1 = FSDModelGPLVM.decode self od pd2)
  /\ (exists d,
        FSDModelGPLVMRestricted.decode get_detached restricted_1
          (xi_dict [0; 0]) None = Ok d)
  /\ FSDModelGPLVMRestricted.decode get_detached restricted_1
       (xi_dict [0; 0]) (Some ∅) = Raise (AssertionError 603).
Proof.
  split; [reflexivity|].
  pose proof (restricted_decode_cat get_detached restricted_1 [0] [0] [])
    as Hcat.
  change ([0] ++ [0] ++ []) with [0; 0] in Hcat. split.
  - eexists. rewrite Hcat by (unfold shape_last; simpl; lia). reflexivity.
  - rewrite Hcat by (unfold shape_last; simpl; lia).
    change (FSDModelGPLVMRestricted.detach_non_inducing_genes restricted_1)
      with true.
    cbv iota. unfold contains. rewrite lookup_empty.
    rewrite bool_decide_eq_false_2 by (intros [? ?]; discriminate).
    reflexivity.
Qed.

(** C6.  [log_abs_det_jacobian x y] has the shape of [x] and every entry
    of it is 0, for all [x] and [y]. *)
Theorem log_abs_det_jacobian_zero (x y : tensor_obj) :
  length (SortByComponentWeights.log_abs_det_jacobian x y)
  = length (obj_val x)
  /\ Forall (fun v => v = 0) (SortByComponentWeights.log_abs_det_jacobian x y).
Proof.
  unfold SortByComponentWeights.log_abs_det_jacobian, zeros_like.
  split; [apply length_map|].
  induction (obj_val x); simpl; constructor; auto.
Qed.

(** ** Initial weights *)

Lemma tensor_sum_scale (l : tensor) (s : R) :
  tensor_sum (map (fun w => w / s) l) = tensor_sum l / s.
Proof.
  induction l as [|x l IH]; [simpl; lra|].
  change (x / s + tensor_sum (map (fun w => w / s) l)
          = (x + tensor_sum l) / s).
  rewrite IH. lra.
Qed.

Lemma powers_sum_pos (d : R) (a n : nat) :
  0 < d -> (0 < n)%nat -> 0 < tensor_sum (map (pow d) (seq a n)).
Proof.
  intros Hd Hn. destruct n as [|n]; [lia|]. clear Hn. revert a.
  induction n as [|n IH]; intros a.
  - simpl. pose proof (pow_lt d a Hd). lra.
  - change (0 < d ^ a + tensor_sum (map (pow d) (seq (S a) (S n)))).
    pose proof (pow_lt d a Hd). specialize (IH (S a)). lra.
Qed.

Lemma powers_decreasing (d : R) (a n : nat) :
  0 < d < 1 -> strictly_decreasing (map (pow d) (seq a n)).
Proof.
  intros Hd. unfold strictly_decreasing. revert a.
  induction n as [|n IH]; intros a; simpl; constructor.
  - apply IH.
  - destruct n; simpl; constructor.
    pose proof (pow_lt d a ltac:(lra)). nra.
Qed.

Lemma scaled_decreasing (l : tensor) (s : R) :
  0 < s -> strictly_decreasing l ->
  strictly_decreasing (map (fun w => w / s) l).
Proof.
  intros Hs. unfold strictly_decreasing.
  induction 1 as [|x l Hl IH Hhd]; simpl; constructor; [exact IH|].
  destruct Hhd as [|y l Hxy]; simpl; constructor.
  unfold Rdiv. apply Rmult_lt_compat_r; [apply Rinv_0_lt_compat|]; assumption.
Qed.

(** The normalised geometric weights of a branch with [n >= 1]
    components. *)
Lemma init_weights (decay : R) (n : Z) :
  (1 <= n)%Z -> 0 < decay ->
  let w := FSDModelGPLVM.power_arange decay n in
  let w' := map (fun v => v / tensor_sum w) w in
  tensor_sum w' = 1 /\ (decay < 1 -> strictly_decreasing w').
Proof.
  intros Hn Hd. cbv zeta. unfold FSDModelGPLVM.power_arange.
  assert (Hs : 0 < tensor_sum (map (fun i => decay ^ i) (seq 0 (Z.to_nat n))))
    by (apply (powers_sum_pos decay 0); [assumption | lia]).
  split.
  - rewrite tensor_sum_scale. field. lra.
  - intros Hd1. apply scaled_decreasing; [exact Hs|].
    apply (powers_decreasing decay 0). lra.
Qed.

(** C9.  For every pair of guesses, the weights [w_lo] and [w_hi] that
    [generate_fsd_init_params] returns each sum to 1 when the weight decay
    is positive, and strictly decrease along the component index when the
    decay is moreover below 1. *)
Theorem generate_fsd_init_params_weights
    (self : FSDModelGPLVM.t) (mu_hi_guess phi_hi_guess : R) :
  (1 <= FSDModelGPLVM.n_fsd_lo_comps self)%Z ->
  (1 <= FSDModelGPLVM.n_fsd_hi_comps self)%Z ->
  0 < FSDModelGPLVM.fsd_init_w_decay self ->
  let '(_, _, wl, _, _, wh) :=
    FSDModelGPLVM.generate_fsd_init_params self mu_hi_guess phi_hi_guess in
  tensor_sum wl = 1 /\ tensor_sum wh = 1
  /\ (FSDModelGPLVM.fsd_init_w_decay self < 1 ->
      strictly_decreasing wl /\ strictly_decreasing wh).
Proof.
  intros Hlo Hhi Hd. unfold FSDModelGPLVM.generate_fsd_init_params.
  destruct (init_weights _ _ Hlo Hd) as [Slo Dlo].
  destruct (init_weights _ _ Hhi Hd) as [Shi Dhi].
  auto.
Qed.

Lemma generate_fsd_init_params_weights_witness :
  let '(_, _, wl, _, _, wh) :=
    FSDModelGPLVM.generate_fsd_init_params model_3_2 100 (1 / 2) in
  tensor_sum wl = 1 /\ tensor_sum wh = 1
  /\ strictly_decreasing wl /\ strictly_decreasing wh.
Proof.
  pose proof (generate_fsd_init_params_weights model_3_2 100 (1 / 2)
                ltac:(simpl; lia) ltac:(simpl; lia) ltac:(simpl; lra)) as Hw.
  unfold FSDModelGPLVM.generate_fsd_init_params in *.
  destruct Hw as (Hlo & Hhi & Hdec).
  split; [exact Hlo|]. split; [exact Hhi|]. apply Hdec. simpl. lra.
Defined.

(** ** The cache of the sort transform *)

Section SortTransform.
Context {M : Type} `{FSDModel M} (fsd_model : M).

Import SortByComponentWeights.

(** Every key of the cache is the identity of a forward output, and every
    identity in use is below the next one the runtime hands out. *)
Lemma run_cache_keys (st : state) (outs : list tensor_obj) :
  run fsd_model st outs ->
  forall (k : nat) (x : tensor_obj),
    _intermediates_cache st !! k = Some x ->
    In k (map obj_id outs) /\ (k < next_id st)%nat.
Proof.
  induction 1 as [next|st st' outs x y Hrun IH Hcall
                 |st st' outs x y Hrun IH Hinv|st outs Hrun IH];
    intros k v Hk.
  - simpl in Hk. rewrite lookup_empty in Hk. discriminate.
  - unfold _call in Hcall.
    destruct (get_sorted_fsd_xi fsd_model (obj_val x)) as [y_val|];
      [|discriminate].
    rewrite bind_ok in Hcall. unfold _add_intermediate_to_cache in Hcall.
    destruct (py_assert 77 _) as [[]|]; [|discriminate].
    rewrite !bind_ok in Hcall. apply Ok_inj in Hcall.
    injection Hcall as <- <-. simpl in *.
    destruct (decide (k = next_id st)) as [->|Hne].
    + split; [left; reflexivity | lia].
    + rewrite lookup_insert_ne in Hk by congruence.
      destruct (IH k v Hk). split; [right; assumption | lia].
  - unfold _inverse in Hinv.
    destruct (_intermediates_cache st !! obj_id y) as [x'|]; [|discriminate].
    apply Ok_inj in Hinv. injection Hinv as <- <-. simpl in *.
    apply lookup_delete_Some in Hk. destruct Hk as [_ Hk]. exact (IH k v Hk).
  - simpl in *. destruct (IH k v Hk). split; [assumption | lia].
Qed.

(** C2.  In any state a transform instance can reach, a forward call on
    [x] (whose sorting succeeds) followed by an inverse call on its output
    returns [x] itself and removes the entry, leaving the cache as it was
    before the forward call; a second inverse call on the same output
    raises [KeyError]; registering that output again raises the assertion
    error of the collision check; and an inverse call on any tensor that is
    not the output of an earlier forward call of the instance raises
    [KeyError]. *)
Theorem sort_transform_cache_contract
    (st : state) (outs : list tensor_obj) (x : tensor_obj) (y_val : tensor) :
  run fsd_model st outs ->
  get_sorted_fsd_xi fsd_model (obj_val x) = Ok y_val ->
  exists y st1 st2,
    _call fsd_model x st = Ok (y, st1)
    /\ obj_val y = y_val
    /\ _inverse y st1 = Ok (x, st2)
    /\ _intermediates_cache st2 !! obj_id y = None
    /\ _intermediates_cache st2 = _intermediates_cache st
    /\ (exists msg, _inverse y st2 = Raise (KeyError msg))
    /\ (forall x', _add_intermediate_to_cache x' y st1
                   = Raise (AssertionError 77))
    /\ (forall y', ~ In (obj_id y') (map obj_id outs) ->
                   exists msg, _inverse y' st = Raise (KeyError msg)).
Proof.
  intros Hrun Hsort.
  assert (Hfresh : _intermediates_cache st !! next_id st = None).
  { destruct (_intermediates_cache st !! next_id st) as [v|] eqn:Hk;
      [|reflexivity].
    destruct (run_cache_keys st outs Hrun _ _ Hk). lia. }
  exists {| obj_id := next_id st; obj_val := y_val |}.
  exists {| next_id := S (next_id st);
            _intermediates_cache :=
              <[next_id st := x]> (_intermediates_cache st) |}.
  exists {| next_id := S (next_id st);
            _intermediates_cache := _intermediates_cache st |}.
  split; [|split; [reflexivity|split; [|split; [|split; [|split; [|split]]]]]].
  - unfold _call. rewrite Hsort, bind_ok.
    unfold _add_intermediate_to_cache. simpl. rewrite Hfresh.
    rewrite bool_decide_eq_false_2 by (intros [? ?]; discriminate).
    reflexivity.
  - unfold _inverse. simpl. rewrite lookup_insert_eq.
    rewrite delete_insert_id by exact Hfresh. reflexivity.
  - exact Hfresh.
  - reflexivity.
  - eexists. unfold _inverse. simpl. rewrite Hfresh. reflexivity.
  - intros x'. unfold _add_intermediate_to_cache. simpl.
    rewrite lookup_insert_eq.
    rewrite bool_decide_eq_true_2 by eauto. reflexivity.
  - intros y' Hy'. eexists. unfold _inverse.
    destruct (_intermediates_cache st !! obj_id y') as [v|] eqn:Hk;
      [|reflexivity].
    destruct (run_cache_keys st outs Hrun _ _ Hk). contradiction.
Qed.

End SortTransform.

Lemma sort_transform_cache_contract_witness :
  let x := {| obj_id := 0;
              obj_val := [0; 1; 2; 0; 0; 0; -1; 3; 1; 2; 0; 0; 5] |} in
  let st := SortByComponentWeights.init 1 in
  exists y st1 st2,
    SortByComponentWeights._call model_3_2 x st = Ok (y, st1)
    /\ SortByComponentWeights._inverse y st1 = Ok (x, st2)
    /\ SortByComponentWeights._intermediates_cache st2 !! obj_id y = None
    /\ (exists msg,
          SortByComponentWeights._inverse y st2 = Raise (KeyError msg))
    /\ SortByComponentWeights._add_intermediate_to_cache x y st1
       = Raise (AssertionError 77)
    /\ (exists msg,
          SortByComponentWeights._inverse x st = Raise (KeyError msg)).
Proof.
  intros x st.
  destruct (full_get_sorted_fsd_xi_spec model_3_2 (obj_val x))
    as (y_val & _ & Hsort & _); [simpl; lia | simpl; lia | reflexivity |].
  destruct (@sort_transform_cache_contract _ FSDModelGPLVM_FSDModel
              model_3_2 st [] x y_val
              (SortByComponentWeights.run_init model_3_2 1) Hsort)
    as (y & st1 & st2 & H1 & _ & H2 & H3 & _ & H4 & H5 & H6).
  exists y, st1, st2. repeat split; auto.
Defined.

(** * Further properties of the code *)

(** ** The codec read in the other direction *)

Lemma logit_sigmoid (t : R) : ln (sigmoid t) - ln (1 - sigmoid t) = t.
Proof.
  pose proof (exp_pos (- t)) as He.
  assert (H1 : sigmoid t = / (1 + exp (- t))) by (unfold sigmoid; lra).
  assert (H2 : 1 - sigmoid t = exp (- t) * / (1 + exp (- t)))
    by (rewrite H1; field; lra).
  rewrite H2, H1.
  rewrite ln_mult by (try apply Rinv_0_lt_compat; lra).
  rewrite ln_exp. lra.
Qed.

Lemma removelast_stick_product (r z0 : R) (z : tensor) :
  removelast
    (tensor_mul ((z0 :: z) ++ [1])
       (r :: cumprod_from r (map (fun zi => 1 - zi) (z0 :: z))))
  = z0 * r ::
    removelast
      (tensor_mul (z ++ [1])
         (r * (1 - z0) ::
          cumprod_from (r * (1 - z0)) (map (fun zi => 1 - zi) z))).
Proof.
  rewrite stick_product_cons.
  destruct z as [|z1 z]; reflexivity.
Qed.

(** The inverse transform reads the unconstrained row back from the
    sticks, whatever mass [r = 1 - acc] is left to break. *)
Lemma stick_inverse_from (x off : tensor) (r acc : R) :
  length off = length x -> 0 < r -> acc + r = 1 ->
  let z := map sigmoid (tensor_sub x (tensor_log off)) in
  let yc :=
    removelast
      (tensor_mul (z ++ [1])
         (r :: cumprod_from r (map (fun zi => 1 - zi) z))) in
  tensor_add
    (tensor_sub (tensor_log yc)
       (tensor_log (map (fun c => 1 - c) (cumsum_from acc yc))))
    (tensor_log off)
  = x.
Proof.
  revert off r acc. induction x as [|x0 x IH]; intros off r acc Hlen Hr Hacc.
  - destruct off; [reflexivity | discriminate].
  - destruct off as [|o off]; [discriminate|]. simpl in Hlen.
    cbv zeta.
    change (map sigmoid (tensor_sub (x0 :: x) (tensor_log (o :: off))))
      with (sigmoid (x0 - ln o) :: map sigmoid (tensor_sub x (tensor_log off))).
    rewrite removelast_stick_product.
    set (z0 := sigmoid (x0 - ln o)).
    assert (Hz : 0 < z0 < 1) by (split; [apply sigmoid_pos|apply sigmoid_lt_1]).
    assert (Hr' : 0 < r * (1 - z0)) by (apply Rmult_lt_0_compat; lra).
    pose proof (IH off (r * (1 - z0)) (acc + z0 * r) ltac:(lia) Hr'
                  ltac:(nra)) as IH'.
    cbv zeta in IH'.
    set (rest := removelast _) in *. clearbody rest.
    simpl. f_equal; [|exact IH'].
    replace (1 - (acc + z0 * r)) with (r * (1 - z0)) by nra.
    rewrite !ln_mult by lra.
    pose proof (logit_sigmoid (x0 - ln o)) as Hl. fold z0 in Hl. lra.
Qed.

(** [_inverse] undoes [_call] on every unconstrained row. *)
Lemma stick_inverse_call (x : tensor) :
  StickBreakingTransform._inverse (StickBreakingTransform._call x) = x.
Proof.
  unfold StickBreakingTransform._inverse.
  rewrite length_stick_call, length_removelast, length_stick_call.
  simpl pred.
  replace (map (fun c => INR (S (length x)) - c) (cumsum (ones (length x))))
    with (map (fun c => INR (length x) + 1 - c) (cumsum (ones (length x))))
    by (apply map_ext; intros c; rewrite S_INR; reflexivity).
  unfold StickBreakingTransform._call, cumsum at 2, cumprod.
  apply stick_inverse_from; [|lra|lra].
  unfold cumsum. rewrite length_map, length_cumsum_from, length_ones.
  reflexivity.
Qed.

Lemma tensor_log_exp (t : tensor) : tensor_log (tensor_exp t) = t.
Proof.
  unfold tensor_log, tensor_exp. induction t as [|x t IH]; simpl;
    [reflexivity|].
  rewrite ln_exp, IH. reflexivity.
Qed.

(** What [encode] adds for the weights that [decode] produced from the
    segment [c] of a branch with [n] components. *)
Lemma reencoded_weights (n : Z) (c base : tensor) :
  (1 <= n)%Z -> shape_last c = (n - 1)%Z ->
  (if (1 <? n)%Z
   then StickBreakingTransform._inverse
          (if (1 <? n)%Z then StickBreakingTransform._call c
           else ones_like base)
   else [])
  = c.
Proof.
  unfold shape_last. intros Hn Hc. destruct (Z.ltb_spec 1 n).
  - apply stick_inverse_call.
  - destruct c; [reflexivity | simpl in Hc; lia].
Qed.

(** X1.  In the full model, what [decode] returns for a row of the model's
    dimension is a fixed point of the codec: encoding it and decoding the
    encoding gives the same parameters again, under any [parents_dict]. *)
Theorem full_decode_encode_decode
    (self : FSDModelGPLVM.t) (xi : tensor)
    (parents_dict : option (gmap string R)) :
  (1 <= FSDModelGPLVM.n_fsd_hi_comps self)%Z ->
  (1 <= FSDModelGPLVM.n_fsd_lo_comps self)%Z ->
  shape_last xi = FSDModelGPLVM.fsd_xi_dim self ->
  exists p,
    FSDModelGPLVM.decode self (xi_dict xi) parents_dict = Ok (params_dict p)
    /\ (FSDModelGPLVM.encode self (params_dict p)
          ≫= fun xi' => FSDModelGPLVM.decode self (xi_dict xi') parents_dict)
       = Ok (params_dict p).
Proof.
  intros Hhi Hlo Hlen.
  destruct (full_decode_valid self xi parents_dict Hhi Hlo Hlen)
    as (p & Hdec & Vlo & Vhi).
  exists p. split; [exact Hdec|].
  destruct (full_decode_encode self p parents_dict Hhi Hlo Vlo Vhi)
    as (xi' & -> & Hdec').
  exact Hdec'.
Qed.

Lemma full_decode_encode_decode_witness :
  exists p,
    FSDModelGPLVM.decode model_3_2
      (xi_dict [0; 1; 2; 0; 0; 0; -1; 3; 1; 2; 0; 0; 5]) None
    = Ok (params_dict p)
    /\ (FSDModelGPLVM.encode model_3_2 (params_dict p)
          ≫= fun xi' => FSDModelGPLVM.decode model_3_2 (xi_dict xi') None)
       = Ok (params_dict p).
Proof.
  apply full_decode_encode_decode; simpl; try lia; reflexivity.
Defined.

(** X2.  In the restricted model too, a dict that [decode] returns for a
    row of the model's dimension is a fixed point of the codec, when the
    log-mean entries of the row are within the range of [exp]: [encode]
    reads its hi entries, and [decode] of the encoding (under the same
    [parents_dict]) returns the same dict, the derived lo entries
    included. *)
Theorem restricted_decode_encode_decode
    (get_detached : R -> R -> R -> R)
    (self : FSDModelGPLVMRestricted.t) (xi : tensor)
    (parents_dict : option (gmap string R)) (d : gmap string tensor) :
  (1 <= FSDModelGPLVMRestricted.n_fsd_hi_comps self)%Z ->
  shape_last xi = FSDModelGPLVMRestricted.fsd_xi_dim self ->
  Forall exp_safe
    (take (Z.to_nat (FSDModelGPLVMRestricted.n_fsd_hi_comps self)) xi) ->
  FSDModelGPLVMRestricted.decode get_detached self (xi_dict xi) parents_dict
  = Ok d ->
  (FSDModelGPLVMRestricted.encode self d
     ≫= fun xi' =>
        FSDModelGPLVMRestricted.decode get_detached self (xi_dict xi')
          parents_dict)
  = Ok d.
Proof.
  intros Hhi Hlen _ Hdec.
  assert (Henc : FSDModelGPLVMRestricted.encode self d = Ok xi).
  { revert Hdec.
    destruct (restricted_split_xi self xi Hhi Hlen)
      as (a & b & c & -> & Ha & Hb & Hc).
    rewrite restricted_decode_cat by assumption.
    assert (Hleaf : forall p : MixtureParams,
              mu_hi p = tensor_exp a -> phi_hi p = tensor_exp b ->
              w_hi p
              = (if (1 <? FSDModelGPLVMRestricted.n_fsd_hi_comps self)%Z
                 then StickBreakingTransform._call c
                 else ones_like (tensor_exp a)) ->
              Ok (params_dict p) = Ok d ->
              FSDModelGPLVMRestricted.encode self d = Ok (a ++ b ++ c)).
    { intros p Hm Hp Hw Heq. apply Ok_inj in Heq. subst d.
      pose proof (getitem_params_dict p) as (_ & _ & _ & P4 & P5 & P6).
      rewrite (restricted_encode_hi self _ _ _ _ P4 P5 P6), Hm, Hp, Hw.
      rewrite !tensor_log_exp, reencoded_weights by assumption.
      reflexivity. }
    destruct (FSDModelGPLVMRestricted.detach_non_inducing_genes self);
      destruct parents_dict as [m|];
      try (apply Hleaf; reflexivity);
      (destruct (py_assert 603 _) as [[]|]; [|discriminate]);
      (destruct (py_assert 604 _) as [[]|]; [|discriminate]);
      rewrite !bind_ok;
      (destruct (getitem m "inducing_binary_mask_tensor_n"); [|discriminate]);
      (destruct (getitem m "non_inducing_binary_mask_tensor_n");
         [|discriminate]);
      apply Hleaf; reflexivity. }
  rewrite Henc, bind_ok. exact Hdec.
Qed.

Lemma restricted_decode_encode_decode_witness :
  exists d,
    FSDModelGPLVMRestricted.decode detach_by_masks restricted_1
      (xi_dict [3; 4]) None = Ok d
    /\ (FSDModelGPLVMRestricted.encode restricted_1 d
          ≫= fun xi' =>
             FSDModelGPLVMRestricted.decode detach_by_masks restricted_1
               (xi_dict xi') None)
       = Ok d.
Proof.
  destruct (restricted_decode_valid detach_by_masks restricted_1 [3; 4]
              ltac:(simpl; lia) eq_refl) as (p & Hdec & _).
  exists (params_dict p). split; [exact Hdec|].
  apply (restricted_decode_encode_decode detach_by_masks restricted_1 [3; 4]
           None);
    [simpl; lia | reflexivity
     | simpl; repeat constructor; unfold exp_safe; lra | exact Hdec].
Defined.







(** ** Sorting relabels whole components *)

Lemma nth_seq_id {A : Type} (l : list A) (d : A) :
  map (fun i => nth i l d) (seq 0 (length l)) = l.
Proof.
  induction l as [|x l IH]; [reflexivity|].
  simpl. f_equal. rewrite <- seq_shift, map_map. exact IH.
Qed.

Lemma gather_perm (t : tensor) (pi : list nat) :
  Permutation pi (seq 0 (length t)) -> Permutation (gather t pi) t.
Proof.
  intros Hpi. rewrite <- (gather_seq t) at 2. unfold gather.
  apply Permutation_map. exact Hpi.
Qed.

Lemma argsort_perm (w : tensor) :
  Permutation (argsort_descending w) (seq 0 (length w)).
Proof. apply sort_desc_perm. Qed.

Lemma perm_seq_bound (pi : list nat) (n i : nat) :
  Permutation pi (seq 0 n) -> In i pi -> (i < n)%nat.
Proof.
  intros Hpi Hi. apply (Permutation_in _ Hpi) in Hi.
  apply in_seq in Hi. lia.
Qed.

(** Gathering twice is gathering along the composed positions. *)
Lemma gather_gather (t : tensor) (pi idx : list nat) :
  Forall (fun i => (i < length pi)%nat) idx ->
  gather (gather t pi) idx = gather t (map (fun i => nth i pi 0%nat) idx).
Proof.
  unfold gather. intros Hidx. rewrite map_map.
  apply map_ext_in. intros i Hi.
  rewrite List.Forall_forall in Hidx. specialize (Hidx i Hi).
  rewrite (nth_indep _ 0 (nth 0%nat t 0))
    by (rewrite length_map; exact Hidx).
  apply (map_nth (fun j => nth j t 0)).
Qed.

(** Two rearrangements of one list that are both in strictly decreasing
    order of key are the same list. *)
Lemma strictly_sorted_perm_unique {A : Type} (key : A -> R) (l1 l2 : list A) :
  Permutation l1 l2 ->
  Sorted (fun a b => key b < key a) l1 ->
  Sorted (fun a b => key b < key a) l2 ->
  l1 = l2.
Proof.
  intros Hp H1 H2.
  assert (Htrans : Relations_1.Transitive (fun a b : A => key b < key a))
    by (intros a b c Hab Hbc; lra).
  apply Sorted_StronglySorted in H1; [|exact Htrans].
  apply Sorted_StronglySorted in H2; [|exact Htrans].
  clear Htrans. revert l2 Hp H2.
  induction H1 as [|a l1 Hs1 IH Ha]; intros l2 Hp H2.
  - apply Permutation_nil in Hp. congruence.
  - destruct H2 as [|b l2 Hs2 Hb].
    + apply Permutation_sym, Permutation_nil in Hp. discriminate.
    + assert (Hab : a = b).
      { assert (Ia : In a (b :: l2))
          by (apply (Permutation_in _ Hp); left; reflexivity).
        assert (Ib : In b (a :: l1))
          by (apply (Permutation_in _ (Permutation_sym Hp)); left;
              reflexivity).
        destruct Ia as [->|Ia]; [reflexivity|].
        destruct Ib as [->|Ib]; [reflexivity|].
        rewrite List.Forall_forall in Ha, Hb.
        specialize (Ha b Ib). specialize (Hb a Ia). lra. }
      subst b. f_equal. apply IH; [|exact Hs2].
      apply Permutation_cons_inv in Hp. exact Hp.
Qed.

Lemma non_increasing_nodup_strict (l : tensor) :
  non_increasing l -> List.NoDup l -> strictly_decreasing l.
Proof.
  unfold non_increasing, strictly_decreasing.
  induction 1 as [|a l Hs IH Hhd]; intros Hnd; constructor.
  - apply IH. inversion Hnd; assumption.
  - destruct Hhd as [|b l Hab]; constructor.
    inversion Hnd as [|? ? Hnotin _]; subst.
    destruct (Req_dec a b) as [->|Hne];
      [exfalso; apply Hnotin; left; reflexivity | lra].
Qed.

(** The sort order of distinct weights, as a list of positions in strictly
    decreasing order of weight. *)
Lemma argsort_strict (w : tensor) :
  List.NoDup w ->
  Sorted (fun a b => nth b w 0 < nth a w 0) (argsort_descending w).
Proof.
  intros Hnd.
  apply (sorted_map_key (fun i => nth i w 0) (fun a b => b < a)).
  change (strictly_decreasing (gather w (argsort_descending w))).
  apply non_increasing_nodup_strict; [apply gather_argsort_sorted|].
  apply (Permutation_NoDup (l := w)); [|exact Hnd].
  symmetry. apply gather_argsort_perm. reflexivity.
Qed.

(** Relabelling distinct weights relabels their sort order accordingly. *)
Lemma argsort_gather (w : tensor) (pi : list nat) :
  Permutation pi (seq 0 (length w)) -> List.NoDup w ->
  map (fun i => nth i pi 0%nat) (argsort_descending (gather w pi))
  = argsort_descending w.
Proof.
  intros Hpi Hnd.
  assert (Hlen : length pi = length w)
    by (rewrite (Permutation_length Hpi); apply length_seq).
  assert (Hlen' : length (gather w pi) = length pi) by apply length_gather.
  assert (Hnd' : List.NoDup (gather w pi)).
  { apply (Permutation_NoDup (l := w)); [|exact Hnd].
    symmetry. apply gather_perm, Hpi. }
  apply (strictly_sorted_perm_unique (fun i => nth i w 0)).
  - transitivity pi.
    + rewrite <- (nth_seq_id pi 0%nat) at 2.
      apply Permutation_map. rewrite <- Hlen'. apply argsort_perm.
    + rewrite Hpi. symmetry. apply argsort_perm.
  - apply (sorted_map_key (fun i => nth i w 0) (fun a b => b < a)).
    rewrite map_map.
    pose proof (argsort_strict (gather w pi) Hnd') as Hs.
    apply (sorted_map_key (fun i => nth i (gather w pi) 0)
             (fun a b => b < a)) in Hs.
    erewrite map_ext_in; [exact Hs|].
    intros i Hi. cbv beta.
    assert (Hi' : (i < length pi)%nat).
    { rewrite <- Hlen'. apply (perm_seq_bound _ _ _ (argsort_perm _) Hi). }
    unfold gather.
    rewrite (nth_indep (map (fun j => nth j w 0) pi) 0 (nth 0%nat w 0))
      by (rewrite length_map; exact Hi').
    rewrite (map_nth (fun j => nth j w 0)). reflexivity.
  - apply argsort_strict, Hnd.
Qed.

Lemma gather_relabelled (t w : tensor) (pi : list nat) :
  Permutation pi (seq 0 (length w)) -> List.NoDup w ->
  gather (gather t pi) (argsort_descending (gather w pi))
  = gather t (argsort_descending w).
Proof.
  intros Hpi Hnd.
  assert (Hlen : length (gather w pi) = length pi) by apply length_gather.
  rewrite gather_gather.
  - rewrite argsort_gather by assumption. reflexivity.
  - apply List.Forall_forall. intros i Hi. rewrite <- Hlen.
    apply (perm_seq_bound _ _ _ (argsort_perm _) Hi).
Qed.

Lemma full_sorted_params_dict_relabel (p : MixtureParams) :
  FSDModelGPLVM.get_sorted_params_dict (params_dict p)
  = Ok (params_dict
          (relabel (argsort_descending (w_lo p))
                   (argsort_descending (w_hi p)) p)).
Proof. apply full_sorted_params_dict. Qed.

(** Sorting after relabelling is sorting: with distinct weights in each
    branch, the labels the components came with leave no trace. *)
Lemma relabel_sorted (pi_lo pi_hi : list nat) (p : MixtureParams) :
  Permutation pi_lo (seq 0 (length (w_lo p))) ->
  Permutation pi_hi (seq 0 (length (w_hi p))) ->
  List.NoDup (w_lo p) -> List.NoDup (w_hi p) ->
  let q := relabel pi_lo pi_hi p in
  relabel (argsort_descending (w_lo q)) (argsort_descending (w_hi q)) q
  = relabel (argsort_descending (w_lo p)) (argsort_descending (w_hi p)) p.
Proof.
  intros Hlo Hhi Nlo Nhi. unfold relabel.
  cbn [mu_lo phi_lo w_lo mu_hi phi_hi w_hi].
  rewrite !gather_relabelled by assumption. reflexivity.
Qed.

Lemma relabel_valid_branch (n : Z) (mu phi w : tensor) (pi : list nat) :
  valid_branch n mu phi w ->
  Permutation pi (seq 0 (length w)) ->
  valid_branch n (gather mu pi) (gather phi pi) (gather w pi).
Proof.
  unfold valid_branch, shape_last.
  intros (Lm & Lp & Lw & Pm & Pp & [Pw Sw]) Hpi.
  assert (Hlen : length pi = length w)
    by (rewrite (Permutation_length Hpi); apply length_seq).
  assert (Hm : Permutation (gather mu pi) mu)
    by (apply gather_perm; replace (length mu) with (length w) by lia;
        exact Hpi).
  assert (Hp : Permutation (gather phi pi) phi)
    by (apply gather_perm; replace (length phi) with (length w) by lia;
        exact Hpi).
  assert (Hw : Permutation (gather w pi) w) by (apply gather_perm, Hpi).
  rewrite !length_gather.
  split; [lia|]. split; [lia|]. split; [lia|].
  split; [|split; [|split]].
  - apply (positive_perm mu); [symmetry|]; assumption.
  - apply (positive_perm phi); [symmetry|]; assumption.
  - apply (positive_perm w); [symmetry|]; assumption.
  - rewrite (tensor_sum_perm _ _ Hw). exact Sw.
Qed.

(** X3.  On a dict whose branches each have rows of one length,
    [get_sorted_params_dict] only relabels whole components: within a
    branch one rearrangement of the positions is applied to the means, the
    dispersions and the weights alike, so each output row is a
    rearrangement of the input row, and the output weights never
    increase. *)
Theorem get_sorted_params_dict_relabels (p : MixtureParams) :
  aligned (mu_lo p) (phi_lo p) (w_lo p) ->
  aligned (mu_hi p) (phi_hi p) (w_hi p) ->
  exists pi_lo pi_hi,
    Permutation pi_lo (seq 0 (length (w_lo p)))
    /\ Permutation pi_hi (seq 0 (length (w_hi p)))
    /\ FSDModelGPLVM.get_sorted_params_dict (params_dict p)
       = Ok (params_dict (relabel pi_lo pi_hi p))
    /\ Permutation (mu_lo (relabel pi_lo pi_hi p)) (mu_lo p)
    /\ Permutation (phi_lo (relabel pi_lo pi_hi p)) (phi_lo p)
    /\ Permutation (w_lo (relabel pi_lo pi_hi p)) (w_lo p)
    /\ Permutation (mu_hi (relabel pi_lo pi_hi p)) (mu_hi p)
    /\ Permutation (phi_hi (relabel pi_lo pi_hi p)) (phi_hi p)
    /\ Permutation (w_hi (relabel pi_lo pi_hi p)) (w_hi p)
    /\ non_increasing (w_lo (relabel pi_lo pi_hi p))
    /\ non_increasing (w_hi (relabel pi_lo pi_hi p)).
Proof.
  intros [Lm Lp] [Hm Hp].
  exists (argsort_descending (w_lo p)), (argsort_descending (w_hi p)).
  split; [apply argsort_perm|]. split; [apply argsort_perm|].
  split; [apply full_sorted_params_dict_relabel|].
  cbn [relabel mu_lo phi_lo w_lo mu_hi phi_hi w_hi].
  repeat split;
    try apply gather_argsort_sorted;
    apply gather_argsort_perm; auto.
Qed.

Lemma get_sorted_params_dict_relabels_witness :
  exists pi_lo pi_hi,
    Permutation pi_lo (seq 0 2) /\ Permutation pi_hi (seq 0 3)
    /\ FSDModelGPLVM.get_sorted_params_dict (params_dict params_3_2)
       = Ok (params_dict (relabel pi_lo pi_hi params_3_2))
    /\ non_increasing (w_lo (relabel pi_lo pi_hi params_3_2))
    /\ non_increasing (w_hi (relabel pi_lo pi_hi params_3_2)).
Proof.
  destruct (get_sorted_params_dict_relabels params_3_2)
    as (pi_lo & pi_hi & H1 & H2 & H3 & _ & _ & _ & _ & _ & _ & H4 & H5);
    [split; reflexivity | split; reflexivity |].
  exists pi_lo, pi_hi. auto.
Defined.

(** X4.  [get_sorted_params_dict] forgets the labels: when the weights of
    each branch are pairwise distinct, relabelling the components of a
    dict (any rearrangement of the positions of each branch) does not
    change what it returns. *)
Theorem get_sorted_params_dict_label_invariant
    (pi_lo pi_hi : list nat) (p : MixtureParams) :
  aligned (mu_lo p) (phi_lo p) (w_lo p) ->
  aligned (mu_hi p) (phi_hi p) (w_hi p) ->
  Permutation pi_lo (seq 0 (length (w_lo p))) ->
  Permutation pi_hi (seq 0 (length (w_hi p))) ->
  List.NoDup (w_lo p) -> List.NoDup (w_hi p) ->
  FSDModelGPLVM.get_sorted_params_dict (params_dict (relabel pi_lo pi_hi p))
  = FSDModelGPLVM.get_sorted_params_dict (params_dict p).
Proof.
  intros _ _ Hlo Hhi Nlo Nhi.
  rewrite !full_sorted_params_dict_relabel.
  rewrite (relabel_sorted pi_lo pi_hi p) by assumption. reflexivity.
Qed.

Lemma params_distinct_valid :
  valid_branch 2 (mu_lo params_distinct) (phi_lo params_distinct)
    (w_lo params_distinct)
  /\ valid_branch 3 (mu_hi params_distinct) (phi_hi params_distinct)
       (w_hi params_distinct).
Proof.
  unfold valid_branch, in_open_simplex, all_positive, shape_last; simpl.
  repeat split; try reflexivity; repeat constructor; lra.
Qed.

Lemma params_distinct_nodup :
  List.NoDup (w_lo params_distinct) /\ List.NoDup (w_hi params_distinct).
Proof.
  split; simpl; repeat constructor; simpl; intuition lra.
Qed.

Lemma relabelling_2_3 :
  Permutation [1; 0]%nat (seq 0 2) /\ Permutation [2; 0; 1]%nat (seq 0 3).
Proof.
  split; simpl.
  - apply perm_swap.
  - apply (Permutation_app_comm [2%nat] [0; 1]%nat).
Qed.

Lemma get_sorted_params_dict_label_invariant_witness :
  FSDModelGPLVM.get_sorted_params_dict
    (params_dict (relabel [1; 0]%nat [2; 0; 1]%nat params_distinct))
  = FSDModelGPLVM.get_sorted_params_dict (params_dict params_distinct).
Proof.
  apply get_sorted_params_dict_label_invariant.
  - split; reflexivity.
  - split; reflexivity.
  - apply relabelling_2_3.
  - apply relabelling_2_3.
  - apply params_distinct_nodup.
  - apply params_distinct_nodup.
Defined.

(** X5.  [get_sorted_fsd_xi] breaks the label symmetry of the rows: for
    valid parameters with pairwise distinct positive weights in each
    branch, the canonical row of the encoding of the parameters and the
    canonical row of the encoding of any relabelling of their components
    decode to the same parameters, namely the parameters with the
    components of each branch in decreasing order of weight. *)
Theorem get_sorted_fsd_xi_label_invariant
    (self : FSDModelGPLVM.t) (pi_lo pi_hi : list nat) (p : MixtureParams) :
  (1 <= FSDModelGPLVM.n_fsd_hi_comps self)%Z ->
  (1 <= FSDModelGPLVM.n_fsd_lo_comps self)%Z ->
  valid_branch (FSDModelGPLVM.n_fsd_lo_comps self)
    (mu_lo p) (phi_lo p) (w_lo p) ->
  valid_branch (FSDModelGPLVM.n_fsd_hi_comps self)
    (mu_hi p) (phi_hi p) (w_hi p) ->
  Permutation pi_lo (seq 0 (length (w_lo p))) ->
  Permutation pi_hi (seq 0 (length (w_hi p))) ->
  List.NoDup (w_lo p) -> List.NoDup (w_hi p) ->
  let canonical_params := fun q : MixtureParams =>
    (FSDModelGPLVM.encode self (params_dict q)
       ≫= FSDModelGPLVM.get_sorted_fsd_xi self)
      ≫= fun y => FSDModelGPLVM.decode self (xi_dict y) None in
  let sorted :=
    relabel (argsort_descending (w_lo p)) (argsort_descending (w_hi p)) p in
  canonical_params p = Ok (params_dict sorted)
  /\ canonical_params (relabel pi_lo pi_hi p) = Ok (params_dict sorted)
  /\ non_increasing (w_lo sorted) /\ non_increasing (w_hi sorted).
Proof.
  intros Hhi Hlo Vlo Vhi Plo Phi Nlo Nhi canonical_params sorted.
  pose proof (relabel_valid_branch _ _ _ _ _ Vlo Plo) as Vlo'.
  pose proof (relabel_valid_branch _ _ _ _ _ Vhi Phi) as Vhi'.
  destruct (full_decode_encode self p None Hhi Hlo Vlo Vhi)
    as (xi & Henc & Hdec).
  destruct (full_decode_encode self (relabel pi_lo pi_hi p) None Hhi Hlo
              Vlo' Vhi') as (xi' & Henc' & Hdec').
  destruct (sorted_branch_valid _ _ _ _ Vlo) as [Slo Dlo].
  destruct (sorted_branch_valid _ _ _ _ Vhi) as [Shi Dhi].
  destruct (full_decode_encode self sorted None Hhi Hlo Slo Shi)
    as (y & Hy & Hdy).
  unfold canonical_params. rewrite Henc, Henc', !bind_ok.
  unfold FSDModelGPLVM.get_sorted_fsd_xi.
  rewrite Hdec, Hdec', !bind_ok, !full_sorted_params_dict_relabel, !bind_ok.
  rewrite (relabel_sorted pi_lo pi_hi p) by assumption.
  fold sorted. rewrite Hy, bind_ok.
  split; [exact Hdy|]. split; [exact Hdy|]. split; assumption.
Qed.

Lemma get_sorted_fsd_xi_label_invariant_witness :
  ((FSDModelGPLVM.encode model_3_2 (params_dict params_distinct)
      ≫= FSDModelGPLVM.get_sorted_fsd_xi model_3_2)
     ≫= fun y => FSDModelGPLVM.decode model_3_2 (xi_dict y) None)
  = ((FSDModelGPLVM.encode model_3_2
        (params_dict (relabel [1; 0]%nat [2; 0; 1]%nat params_distinct))
        ≫= FSDModelGPLVM.get_sorted_fsd_xi model_3_2)
       ≫= fun y => FSDModelGPLVM.decode model_3_2 (xi_dict y) None).
Proof.
  destruct (get_sorted_fsd_xi_label_invariant model_3_2
              [1; 0]%nat [2; 0; 1]%nat params_distinct)
    as (H1 & H2 & _).
  - simpl. lia.
  - simpl. lia.
  - apply params_distinct_valid.
  - apply params_distinct_valid.
  - apply relabelling_2_3.
  - apply relabelling_2_3.
  - apply params_distinct_nodup.
  - apply params_distinct_nodup.
  - rewrite H1, H2. reflexivity.
Defined.

(** ** Sorting when ties may come out in any order *)

Section SortDescTiesReversed.
Variable key : nat -> R.

Let ge_key (a b : nat) : Prop := key b <= key a.

Lemma insert_desc_ties_reversed_perm (i : nat) (l : list nat) :
  Permutation (insert_desc_ties_reversed key i l) (i :: l).
Proof.
  induction l as [|j l IH]; simpl; [reflexivity|].
  destruct (Rle_dec (key i) (key j)); [|reflexivity].
  rewrite IH. apply perm_swap.
Qed.

Lemma insert_desc_ties_reversed_hdrel (a i : nat) (l : list nat) :
  ge_key a i -> HdRel ge_key a l ->
  HdRel ge_key a (insert_desc_ties_reversed key i l).
Proof.
  intros Hai Hl. destruct l as [|j l]; simpl; [constructor; exact Hai|].
  destruct (Rle_dec (key i) (key j)); constructor.
  - inversion Hl; assumption.
  - exact Hai.
Qed.

Lemma insert_desc_ties_reversed_sorted (i : nat) (l : list nat) :
  Sorted ge_key l -> Sorted ge_key (insert_desc_ties_reversed key i l).
Proof.
  induction 1 as [|j l Hs IH Hhd]; simpl.
  - repeat constructor.
  - destruct (Rle_dec (key i) (key j)) as [Hle|Hgt].
    + constructor; [exact IH|].
      apply insert_desc_ties_reversed_hdrel; [exact Hle | exact Hhd].
    + constructor; [constructor; assumption|].
      constructor. unfold ge_key. lra.
Qed.

End SortDescTiesReversed.

Lemma argsort_descending_is_descending :
  descending_argsort argsort_descending.
Proof.
  intros w. split; [apply argsort_perm | apply gather_argsort_sorted].
Qed.

Lemma argsort_descending_ties_reversed_is_descending :
  descending_argsort argsort_descending_ties_reversed.
Proof.
  intros w. unfold argsort_descending_ties_reversed. split.
  - induction (seq 0 (length w)) as [|i l IH]; simpl; [reflexivity|].
    rewrite insert_desc_ties_reversed_perm. constructor. exact IH.
  - unfold non_increasing, gather.
    apply (sorted_map_key (fun i => nth i w 0) (fun a b => b <= a)).
    induction (seq 0 (length w)) as [|i l IH]; simpl; [constructor|].
    apply insert_desc_ties_reversed_sorted, IH.
Qed.

(** Two equal weights come out in reverse order. *)
Lemma argsort_descending_ties_reversed_pair (a : R) :
  argsort_descending_ties_reversed [a; a] = [1; 0]%nat.
Proof.
  unfold argsort_descending_ties_reversed. simpl.
  destruct (Rle_dec a a) as [_|Hn]; [reflexivity|].
  exfalso. apply Hn. lra.
Qed.

(** On pairwise distinct weights the descending order is unique, so every
    [argsort] returns the order of [argsort_descending]. *)
Lemma descending_argsort_distinct (argsort : tensor -> list nat)
    (w : tensor) :
  descending_argsort argsort -> List.NoDup w ->
  argsort w = argsort_descending w.
Proof.
  intros Hsort Hnd. destruct (Hsort w) as [Hperm Hdesc].
  apply (strictly_sorted_perm_unique (fun i => nth i w 0)).
  - rewrite Hperm. symmetry. apply argsort_perm.
  - apply (sorted_map_key (fun i => nth i w 0) (fun a b => b < a)).
    change (strictly_decreasing (gather w (argsort w))).
    apply non_increasing_nodup_strict; [exact Hdesc|].
    apply (Permutation_NoDup (l := w)); [|exact Hnd].
    symmetry. apply gather_perm, Hperm.
  - apply argsort_strict, Hnd.
Qed.

Lemma full_sorted_params_dict_by (argsort : tensor -> list nat)
    (p : MixtureParams) :
  FSDModelGPLVM.get_sorted_params_dict_by argsort (params_dict p)
  = Ok (params_dict (relabel (argsort (w_lo p)) (argsort (w_hi p)) p)).
Proof.
  pose proof (getitem_params_dict p) as (P1 & P2 & P3 & P4 & P5 & P6).
  unfold FSDModelGPLVM.get_sorted_params_dict_by.
  rewrite P1, P2, P3, P4, P5, P6. reflexivity.
Qed.

(** With [argsort_descending] for [argsort], these are the methods as
    modelled above. *)
Lemma get_sorted_fsd_xi_by_argsort_descending
    (get_detached : R -> R -> R -> R) :
  (forall self xi,
     FSDModelGPLVM.get_sorted_fsd_xi_by argsort_descending self xi
     = FSDModelGPLVM.get_sorted_fsd_xi self xi)
  /\ (forall self xi,
        FSDModelGPLVMRestricted.get_sorted_fsd_xi_by get_detached
          argsort_descending self xi
        = FSDModelGPLVMRestricted.get_sorted_fsd_xi get_detached self xi).
Proof. split; reflexivity. Qed.

(** A branch with distinct weights in non-increasing order is left as it
    is, whatever [argsort] does with ties. *)
Lemma sorted_distinct_branch_fixed (argsort : tensor -> list nat) (n : Z)
    (mu phi w : tensor) :
  descending_argsort argsort ->
  shape_last mu = n -> shape_last phi = n -> shape_last w = n ->
  non_increasing w -> List.NoDup w ->
  gather mu (argsort w) = mu
  /\ gather phi (argsort w) = phi
  /\ gather w (argsort w) = w.
Proof.
  intros Hsort Lm Lp Lw Hw Hnd.
  rewrite (descending_argsort_distinct argsort w Hsort Hnd).
  apply (sorted_branch_fixed n); assumption.
Qed.

Lemma full_get_sorted_fsd_xi_by_spec (argsort : tensor -> list nat)
    (self : FSDModelGPLVM.t) (xi : tensor) :
  let n_hi := FSDModelGPLVM.n_fsd_hi_comps self in
  let n_lo := FSDModelGPLVM.n_fsd_lo_comps self in
  descending_argsort argsort ->
  (1 <= n_hi)%Z -> (1 <= n_lo)%Z ->
  shape_last xi = FSDModelGPLVM.fsd_xi_dim self ->
  exists p y q,
    FSDModelGPLVM.decode self (xi_dict xi) None = Ok (params_dict p)
    /\ FSDModelGPLVM.get_sorted_fsd_xi_by argsort self xi = Ok y
    /\ FSDModelGPLVM.decode self (xi_dict y) None = Ok (params_dict q)
    /\ non_increasing (w_lo q) /\ non_increasing (w_hi q)
    /\ (List.NoDup (w_lo p) -> List.NoDup (w_hi p) ->
        FSDModelGPLVM.get_sorted_fsd_xi_by argsort self y = Ok y).
Proof.
  intros n_hi n_lo Hsort Hhi Hlo Hlen.
  destruct (full_decode_valid self xi None Hhi Hlo Hlen)
    as (p & Hdec & Vlo & Vhi).
  destruct (Hsort (w_lo p)) as [Plo Slo].
  destruct (Hsort (w_hi p)) as [Phi Shi].
  pose proof (relabel_valid_branch _ _ _ _ _ Vlo Plo) as Vlo'.
  pose proof (relabel_valid_branch _ _ _ _ _ Vhi Phi) as Vhi'.
  destruct (full_decode_encode self
              (relabel (argsort (w_lo p)) (argsort (w_hi p)) p) None
              Hhi Hlo Vlo' Vhi') as (y & Henc & Hdec').
  exists p, y, (relabel (argsort (w_lo p)) (argsort (w_hi p)) p).
  split; [exact Hdec|]. split.
  { unfold FSDModelGPLVM.get_sorted_fsd_xi_by.
    rewrite Hdec, bind_ok, full_sorted_params_dict_by, bind_ok. exact Henc. }
  split; [exact Hdec'|]. split; [exact Slo|]. split; [exact Shi|].
  intros Nlo Nhi.
  assert (Hfix : forall q : MixtureParams,
            q = relabel (argsort (w_lo p)) (argsort (w_hi p)) p ->
            relabel (argsort (w_lo q)) (argsort (w_hi q)) q = q).
  { intros q ->.
    destruct Vlo' as (L1 & L2 & L3 & _), Vhi' as (H1 & H2 & H3 & _).
    destruct (sorted_distinct_branch_fixed argsort _ _ _ _ Hsort L1 L2 L3
                Slo) as (E1 & E2 & E3).
    { apply (Permutation_NoDup (l := w_lo p)); [|exact Nlo].
      symmetry. apply gather_perm, Plo. }
    destruct (sorted_distinct_branch_fixed argsort _ _ _ _ Hsort H1 H2 H3
                Shi) as (F1 & F2 & F3).
    { apply (Permutation_NoDup (l := w_hi p)); [|exact Nhi].
      symmetry. apply gather_perm, Phi. }
    unfold relabel. cbn [mu_lo phi_lo w_lo mu_hi phi_hi w_hi].
    rewrite E1, E2, E3, F1, F2, F3. reflexivity. }
  unfold FSDModelGPLVM.get_sorted_fsd_xi_by.
  rewrite Hdec', bind_ok, full_sorted_params_dict_by, bind_ok.
  rewrite Hfix by reflexivity. exact Henc.
Qed.

Section RestrictedSortBy.
Variable argsort : tensor -> list nat.
Variable get_detached : R -> R -> R -> R.
Variable self : FSDModelGPLVMRestricted.t.

Let n_hi : Z := FSDModelGPLVMRestricted.n_fsd_hi_comps self.

Lemma restricted_get_sorted_fsd_xi_by_spec (xi : tensor) :
  descending_argsort argsort ->
  (1 <= n_hi)%Z ->
  shape_last xi = FSDModelGPLVMRestricted.fsd_xi_dim self ->
  exists p y q,
    FSDModelGPLVMRestricted.decode get_detached self (xi_dict xi) None
    = Ok (params_dict p)
    /\ FSDModelGPLVMRestricted.get_sorted_fsd_xi_by get_detached argsort
         self xi = Ok y
    /\ FSDModelGPLVMRestricted.decode get_detached self (xi_dict y) None
       = Ok (params_dict q)
    /\ non_increasing (w_lo q) /\ non_increasing (w_hi q)
    /\ (List.NoDup (w_hi p) ->
        FSDModelGPLVMRestricted.get_sorted_fsd_xi_by get_detached argsort
          self y = Ok y).
Proof.
  intros Hsort Hhi Hlen.
  destruct (restricted_decode_valid get_detached self xi Hhi Hlen)
    as (p0 & Hdec & Vhi & _).
  destruct (Hsort (w_hi p0)) as [Ppi Shi].
  pose proof (relabel_valid_branch _ _ _ _ _ Vhi Ppi) as Vhi'.
  set (mu := gather (mu_hi p0) (argsort (w_hi p0))) in *.
  set (phi := gather (phi_hi p0) (argsort (w_hi p0))) in *.
  set (w := gather (w_hi p0) (argsort (w_hi p0))) in *.
  set (d := (<["mu_hi" := mu]> (<["phi_hi" := phi]> (<["w_hi" := w]> ∅)))
            : gmap string tensor).
  assert (Gm : getitem d "mu_hi" = Ok mu).
  { unfold getitem, d. rewrite lookup_insert_eq. reflexivity. }
  assert (Gp : getitem d "phi_hi" = Ok phi).
  { unfold getitem, d. rewrite lookup_insert_ne by discriminate.
    rewrite lookup_insert_eq. reflexivity. }
  assert (Gw : getitem d "w_hi" = Ok w).
  { unfold getitem, d. rewrite !lookup_insert_ne by discriminate.
    rewrite lookup_insert_eq. reflexivity. }
  destruct (restricted_decode_encode get_detached self d mu phi w
              Hhi Gm Gp Gw Vhi') as (y & Henc & Hdec').
  assert (Hby : forall q mu' phi' w',
            mu_hi q = mu' -> phi_hi q = phi' -> w_hi q = w' ->
            gather mu' (argsort w') = mu ->
            gather phi' (argsort w') = phi ->
            gather w' (argsort w') = w ->
            forall x,
            FSDModelGPLVMRestricted.decode get_detached self (xi_dict x)
              None = Ok (params_dict q) ->
            FSDModelGPLVMRestricted.get_sorted_fsd_xi_by get_detached argsort
              self x = Ok y).
  { intros q mu' phi' w' <- <- <- Em Ep Ew x Hx.
    pose proof (getitem_params_dict q) as (_ & _ & _ & Q4 & Q5 & Q6).
    unfold FSDModelGPLVMRestricted.get_sorted_fsd_xi_by.
    rewrite Hx, bind_ok, Q4, Q5, Q6, !bind_ok, Em, Ep, Ew. exact Henc. }
  eexists p0, y, _.
  split; [exact Hdec|]. split; [|split; [exact Hdec'|split; [|split]]].
  - apply (Hby p0 _ _ _ eq_refl eq_refl eq_refl); try reflexivity.
    exact Hdec.
  - cbn [w_lo]. repeat constructor.
  - cbn [w_hi]. exact Shi.
  - intros Nhi. destruct Vhi' as (L1 & L2 & L3 & _).
    destruct (sorted_distinct_branch_fixed argsort _ _ _ _ Hsort L1 L2 L3 Shi)
      as (E1 & E2 & E3).
    { apply (Permutation_NoDup (l := w_hi p0)); [|exact Nhi].
      symmetry. apply gather_perm, Ppi. }
    eapply Hby; [| | | | | | exact Hdec']; cbn [mu_hi phi_hi w_hi];
      try reflexivity; assumption.
Qed.

End RestrictedSortBy.

Lemma decode_ok_shape (self : FSDModelGPLVM.t) (xi : tensor)
    (parents_dict : option (gmap string R)) (d : gmap string tensor) :
  FSDModelGPLVM.decode self (xi_dict xi) parents_dict = Ok d ->
  shape_last xi = FSDModelGPLVM.fsd_xi_dim self.
Proof.
  intros Hdec.
  destruct (Z.eq_dec (shape_last xi) (FSDModelGPLVM.fsd_xi_dim self))
    as [E|E]; [exact E|].
  assert (Hxi : xi_dict xi !! "fsd_xi_nq" = Some xi)
    by apply lookup_insert_eq.
  rewrite (proj1 (full_decode_dim_check self (xi_dict xi) xi parents_dict
                    Hxi) E) in Hdec.
  discriminate.
Qed.

Lemma restricted_decode_ok_shape (get_detached : R -> R -> R -> R)
    (self : FSDModelGPLVMRestricted.t) (xi : tensor)
    (parents_dict : option (gmap string R)) (d : gmap string tensor) :
  FSDModelGPLVMRestricted.decode get_detached self (xi_dict xi) parents_dict
  = Ok d ->
  shape_last xi = FSDModelGPLVMRestricted.fsd_xi_dim self.
Proof.
  intros Hdec.
  destruct (Z.eq_dec (shape_last xi)
              (FSDModelGPLVMRestricted.fsd_xi_dim self)) as [E|E];
    [exact E|].
  assert (Hxi : xi_dict xi !! "fsd_xi_nq" = Some xi)
    by apply lookup_insert_eq.
  rewrite (proj1 (restricted_decode_dim_check get_detached self (xi_dict xi)
                    xi parents_dict Hxi) E) in Hdec.
  discriminate.
Qed.

Lemma params_2_1_valid :
  valid_branch 2 (mu_hi params_2_1) (phi_hi params_2_1) (w_hi params_2_1)
  /\ List.NoDup (w_hi params_2_1).
Proof.
  split.
  - unfold valid_branch, in_open_simplex, all_positive, shape_last; simpl.
    repeat split; try reflexivity; repeat constructor; lra.
  - simpl. repeat constructor; simpl; intuition lra.
Qed.

(** C4 (as amended).  Whatever order [torch.argsort] returns tied weights
    in, on every row of the model's dimension [get_sorted_fsd_xi] returns
    a row that decodes to weights which never increase along the component
    index in each branch; and when the weights the row decodes to are
    pairwise distinct within each branch, [get_sorted_fsd_xi] leaves the
    row it returned unchanged when applied again.  For the full and for
    the restricted model. *)
Theorem get_sorted_fsd_xi_idempotent
    (argsort : tensor -> list nat) (get_detached : R -> R -> R -> R)
    (full : FSDModelGPLVM.t) (xi : tensor)
    (restricted : FSDModelGPLVMRestricted.t) (xi_r : tensor) :
  descending_argsort argsort ->
  (1 <= FSDModelGPLVM.n_fsd_hi_comps full)%Z ->
  (1 <= FSDModelGPLVM.n_fsd_lo_comps full)%Z ->
  shape_last xi = FSDModelGPLVM.fsd_xi_dim full ->
  (1 <= FSDModelGPLVMRestricted.n_fsd_hi_comps restricted)%Z ->
  shape_last xi_r = FSDModelGPLVMRestricted.fsd_xi_dim restricted ->
  (exists p y q,
     FSDModelGPLVM.decode full (xi_dict xi) None = Ok (params_dict p)
     /\ FSDModelGPLVM.get_sorted_fsd_xi_by argsort full xi = Ok y
     /\ FSDModelGPLVM.decode full (xi_dict y) None = Ok (params_dict q)
     /\ non_increasing (w_lo q) /\ non_increasing (w_hi q)
     /\ (List.NoDup (w_lo p) -> List.NoDup (w_hi p) ->
         (FSDModelGPLVM.get_sorted_fsd_xi_by argsort full xi
            ≫= FSDModelGPLVM.get_sorted_fsd_xi_by argsort full)
         = FSDModelGPLVM.get_sorted_fsd_xi_by argsort full xi))
  /\ (exists p y q,
        FSDModelGPLVMRestricted.decode get_detached restricted (xi_dict xi_r)
          None = Ok (params_dict p)
        /\ FSDModelGPLVMRestricted.get_sorted_fsd_xi_by get_detached argsort
             restricted xi_r = Ok y
        /\ FSDModelGPLVMRestricted.decode get_detached restricted (xi_dict y)
             None = Ok (params_dict q)
        /\ non_increasing (w_lo q) /\ non_increasing (w_hi q)
        /\ (List.NoDup (w_hi p) ->
            (FSDModelGPLVMRestricted.get_sorted_fsd_xi_by get_detached
               argsort restricted xi_r
               ≫= FSDModelGPLVMRestricted.get_sorted_fsd_xi_by get_detached
                    argsort restricted)
            = FSDModelGPLVMRestricted.get_sorted_fsd_xi_by get_detached
                argsort restricted xi_r)).
Proof.
  intros Hsort Hhi Hlo Hlen Hr Hlen_r. split.
  - destruct (full_get_sorted_fsd_xi_by_spec argsort full xi Hsort Hhi Hlo
                Hlen) as (p & y & q & Hp & Hy & Hq & Slo & Shi & Hyy).
    exists p, y, q. rewrite Hy, bind_ok. auto 10.
  - destruct (restricted_get_sorted_fsd_xi_by_spec argsort get_detached
                restricted xi_r Hsort Hr Hlen_r)
      as (p & y & q & Hp & Hy & Hq & Slo & Shi & Hyy).
    exists p, y, q. rewrite Hy, bind_ok. auto 10.
Qed.

Lemma get_sorted_fsd_xi_idempotent_witness :
  exists xi xi_r,
    FSDModelGPLVM.encode model_3_2 (params_dict params_distinct) = Ok xi
    /\ FSDModelGPLVMRestricted.encode restricted_2 (params_dict params_2_1)
       = Ok xi_r
    /\ (FSDModelGPLVM.get_sorted_fsd_xi_by argsort_descending_ties_reversed
          model_3_2 xi
          ≫= FSDModelGPLVM.get_sorted_fsd_xi_by
               argsort_descending_ties_reversed model_3_2)
       = FSDModelGPLVM.get_sorted_fsd_xi_by argsort_descending_ties_reversed
           model_3_2 xi
    /\ (FSDModelGPLVMRestricted.get_sorted_fsd_xi_by detach_by_masks
          argsort_descending_ties_reversed restricted_2 xi_r
          ≫= FSDModelGPLVMRestricted.get_sorted_fsd_xi_by detach_by_masks
               argsort_descending_ties_reversed restricted_2)
       = FSDModelGPLVMRestricted.get_sorted_fsd_xi_by detach_by_masks
           argsort_descending_ties_reversed restricted_2 xi_r.
Proof.
  destruct (full_decode_encode model_3_2 params_distinct None
              ltac:(simpl; lia) ltac:(simpl; lia)
              (proj1 params_distinct_valid) (proj2 params_distinct_valid))
    as (xi & Henc & Hdec).
  pose proof (getitem_params_dict params_2_1)
    as (_ & _ & _ & Q4 & Q5 & Q6).
  destruct (restricted_decode_encode detach_by_masks restricted_2
              (params_dict params_2_1) _ _ _ ltac:(simpl; lia) Q4 Q5 Q6
              (proj1 params_2_1_valid)) as (xi_r & Henc_r & Hdec_r).
  exists xi, xi_r. split; [exact Henc|]. split; [exact Henc_r|].
  destruct (get_sorted_fsd_xi_idempotent argsort_descending_ties_reversed
              detach_by_masks model_3_2 xi restricted_2 xi_r
              argsort_descending_ties_reversed_is_descending
              ltac:(simpl; lia) ltac:(simpl; lia)
              (decode_ok_shape _ _ _ _ Hdec)
              ltac:(simpl; lia)
              (restricted_decode_ok_shape _ _ _ _ _ Hdec_r))
    as [(p & y & q & Hp & _ & _ & _ & _ & Hidem)
        (p' & y' & q' & Hp' & _ & _ & _ & _ & Hidem')].
  rewrite Hdec in Hp. apply Ok_inj, params_dict_inj in Hp. subst p.
  rewrite Hdec_r in Hp'. apply Ok_inj, params_dict_inj in Hp'. subst p'.
  split.
  - apply Hidem; apply params_distinct_nodup.
  - apply Hidem'. apply params_2_1_valid.
Defined.

(** C4, as stated, fails on ties.  The row [row_tied] has the dimension of
    [model_2_1] and decodes to two equal hi weights; with an [argsort] that
    returns tied positions in reverse order, each application of
    [get_sorted_fsd_xi] swaps the two hi components, so the second
    application does not return the row of the first. *)
Lemma get_sorted_fsd_xi_ties_counterexample :
  descending_argsort argsort_descending_ties_reversed
  /\ shape_last row_tied = FSDModelGPLVM.fsd_xi_dim model_2_1
  /\ (FSDModelGPLVM.get_sorted_fsd_xi_by argsort_descending_ties_reversed
        model_2_1 row_tied
        ≫= FSDModelGPLVM.get_sorted_fsd_xi_by
             argsort_descending_ties_reversed model_2_1)
     <> FSDModelGPLVM.get_sorted_fsd_xi_by argsort_descending_ties_reversed
          model_2_1 row_tied.
Proof.
  split; [apply argsort_descending_ties_reversed_is_descending|].
  split; [reflexivity|].
  set (f := FSDModelGPLVM.get_sorted_fsd_xi_by
              argsort_descending_ties_reversed model_2_1).
  pose (p0 := {| mu_lo := [exp 0]; phi_lo := [exp 0]; w_lo := [1];
                 mu_hi := [exp 0; exp 1]; phi_hi := [exp 0; exp 0];
                 w_hi := [1 / 2; 1 / 2] |}).
  pose (p1 := {| mu_lo := [exp 0]; phi_lo := [exp 0]; w_lo := [1];
                 mu_hi := [exp 1; exp 0]; phi_hi := [exp 0; exp 0];
                 w_hi := [1 / 2; 1 / 2] |}).
  assert (Hdec0 : FSDModelGPLVM.decode model_2_1 (xi_dict row_tied) None
                  = Ok (params_dict p0)).
  { pose proof (full_decode_cat model_2_1 [0; 1] [0; 0] [0] [0] [0] [] None)
      as Hcat.
    cbv zeta in Hcat.
    rewrite stick_call_even in Hcat.
    apply Hcat; simpl; try lia; reflexivity. }
  assert (Hvalid : forall p : MixtureParams,
            p = p0 \/ p = p1 ->
            valid_branch 1 (mu_lo p) (phi_lo p) (w_lo p)
            /\ valid_branch 2 (mu_hi p) (phi_hi p) (w_hi p)).
  { intros p [-> | ->];
      unfold valid_branch, in_open_simplex, all_positive, shape_last; simpl;
      repeat split; try reflexivity; repeat constructor;
      try apply exp_pos; lra. }
  assert (Hswap : forall p q : MixtureParams,
            (p = p0 /\ q = p1) \/ (p = p1 /\ q = p0) ->
            relabel (argsort_descending_ties_reversed (w_lo p))
                    (argsort_descending_ties_reversed (w_hi p)) p = q).
  { intros p q [[-> ->] | [-> ->]]; unfold relabel; simpl w_hi;
      rewrite argsort_descending_ties_reversed_pair; reflexivity. }
  destruct (full_decode_encode model_2_1 p1 None ltac:(simpl; lia)
              ltac:(simpl; lia) (proj1 (Hvalid p1 (or_intror eq_refl)))
              (proj2 (Hvalid p1 (or_intror eq_refl))))
    as (y1 & Henc1 & Hdec1).
  destruct (full_decode_encode model_2_1 p0 None ltac:(simpl; lia)
              ltac:(simpl; lia) (proj1 (Hvalid p0 (or_introl eq_refl)))
              (proj2 (Hvalid p0 (or_introl eq_refl))))
    as (y0 & Henc0 & Hdec0').
  assert (Hf0 : f row_tied = Ok y1).
  { unfold f, FSDModelGPLVM.get_sorted_fsd_xi_by.
    rewrite Hdec0, bind_ok, full_sorted_params_dict_by, bind_ok.
    rewrite (Hswap p0 p1) by (left; split; reflexivity). exact Henc1. }
  assert (Hf1 : f y1 = Ok y0).
  { unfold f, FSDModelGPLVM.get_sorted_fsd_xi_by.
    rewrite Hdec1, bind_ok, full_sorted_params_dict_by, bind_ok.
    rewrite (Hswap p1 p0) by (right; split; reflexivity). exact Henc0. }
  rewrite Hf0, bind_ok, Hf1. intros Heq. apply Ok_inj in Heq. subst y1.
  rewrite Hdec0' in Hdec1. apply Ok_inj, params_dict_inj in Hdec1.
  apply (f_equal mu_hi) in Hdec1. simpl in Hdec1.
  injection Hdec1 as H01 _. apply exp_inv in H01. lra.
Qed.

(** ** More on the cache of the sort transform *)

Section SortTransformMore.
Context {M : Type} `{FSDModel M} (fsd_model : M).

Import SortByComponentWeights.

(** Every forward output so far has an identity below the next one the
    runtime hands out. *)
Lemma run_outputs_below (st : state) (outs : list tensor_obj) :
  run fsd_model st outs ->
  Forall (fun y => (obj_id y < next_id st)%nat) outs.
Proof.
  induction 1 as [next|st st' outs x y Hrun IH Hcall
                 |st st' outs x y Hrun IH Hinv|st outs Hrun IH].
  - constructor.
  - unfold _call in Hcall.
    destruct (get_sorted_fsd_xi fsd_model (obj_val x)) as [y_val|];
      [|discriminate].
    rewrite bind_ok in Hcall. unfold _add_intermediate_to_cache in Hcall.
    destruct (py_assert 77 _) as [[]|]; [|discriminate].
    rewrite !bind_ok in Hcall. apply Ok_inj in Hcall.
    injection Hcall as <- <-. simpl. constructor; [simpl; lia|].
    eapply Forall_impl; [exact IH|]. simpl. intros; lia.
  - unfold _inverse in Hinv.
    destruct (_intermediates_cache st !! obj_id y) as [x'|]; [|discriminate].
    apply Ok_inj in Hinv. injection Hinv as <- <-. exact IH.
  - simpl. eapply Forall_impl; [exact IH|]. simpl. intros; lia.
Qed.

Lemma cache_fresh (st : state) (outs : list tensor_obj) :
  run fsd_model st outs -> _intermediates_cache st !! next_id st = None.
Proof.
  intros Hrun.
  destruct (_intermediates_cache st !! next_id st) as [v|] eqn:Hk;
    [|reflexivity].
  destruct (run_cache_keys fsd_model st outs Hrun _ _ Hk). lia.
Qed.

Lemma call_ok (st : state) (outs : list tensor_obj) (x : tensor_obj)
    (y_val : tensor) :
  run fsd_model st outs ->
  get_sorted_fsd_xi fsd_model (obj_val x) = Ok y_val ->
  _call fsd_model x st
  = Ok ({| obj_id := next_id st; obj_val := y_val |},
        {| next_id := S (next_id st);
           _intermediates_cache :=
             <[next_id st := x]> (_intermediates_cache st) |}).
Proof.
  intros Hrun Hsort. unfold _call. rewrite Hsort, bind_ok.
  unfold _add_intermediate_to_cache. simpl.
  rewrite (cache_fresh st outs Hrun).
  rewrite bool_decide_eq_false_2 by (intros [? ?]; discriminate).
  reflexivity.
Qed.

(** X6.  In every state a transform instance can reach, a forward call
    fails exactly when the sorting of its argument fails, and then with
    the exception of the sorting: the collision assertion of the cache is
    never what stops it.  When the sorting succeeds the output is a new
    object, different from every earlier output, and the call adds to the
    cache the one entry from that object to the argument. *)
Theorem forward_call_outcome
    (st : state) (outs : list tensor_obj) (x : tensor_obj) :
  run fsd_model st outs ->
  match get_sorted_fsd_xi fsd_model (obj_val x) with
  | Ok y_val =>
      exists y st',
        _call fsd_model x st = Ok (y, st')
        /\ obj_val y = y_val
        /\ ~ In (obj_id y) (map obj_id outs)
        /\ _intermediates_cache st'
           = <[obj_id y := x]> (_intermediates_cache st)
        /\ size (_intermediates_cache st')
           = S (size (_intermediates_cache st))
  | Raise e => _call fsd_model x st = Raise e
  end.
Proof.
  intros Hrun.
  destruct (get_sorted_fsd_xi fsd_model (obj_val x)) as [y_val|e] eqn:Hsort.
  - eexists _, _. split; [exact (call_ok st outs x y_val Hrun Hsort)|].
    simpl. split; [reflexivity|]. split; [|split; [reflexivity|]].
    + intros Hin. apply in_map_iff in Hin. destruct Hin as (y & Hid & Hy).
      pose proof (run_outputs_below st outs Hrun) as Hb.
      rewrite List.Forall_forall in Hb. specialize (Hb y Hy). lia.
    + apply map_size_insert_None, (cache_fresh st outs Hrun).
  - unfold _call. rewrite Hsort. reflexivity.
Qed.

(** X7.  Two forward calls may be pending at once, even on arguments with
    the same entries: their outputs are different objects, and the inverse
    calls give each output its own argument back, in either order, after
    which the cache is what it was before the two forward calls. *)
Theorem two_pending_forward_calls
    (st : state) (outs : list tensor_obj) (x1 x2 : tensor_obj)
    (v1 v2 : tensor) :
  run fsd_model st outs ->
  get_sorted_fsd_xi fsd_model (obj_val x1) = Ok v1 ->
  get_sorted_fsd_xi fsd_model (obj_val x2) = Ok v2 ->
  exists y1 st1 y2 st2,
    _call fsd_model x1 st = Ok (y1, st1)
    /\ _call fsd_model x2 st1 = Ok (y2, st2)
    /\ obj_id y1 <> obj_id y2
    /\ (exists sa sb,
          _inverse y1 st2 = Ok (x1, sa) /\ _inverse y2 sa = Ok (x2, sb)
          /\ _intermediates_cache sb = _intermediates_cache st)
    /\ (exists sa sb,
          _inverse y2 st2 = Ok (x2, sa) /\ _inverse y1 sa = Ok (x1, sb)
          /\ _intermediates_cache sb = _intermediates_cache st).
Proof.
  intros Hrun H1 H2.
  pose proof (call_ok st outs x1 v1 Hrun H1) as C1.
  pose proof (run_call fsd_model _ _ _ _ _ Hrun C1) as Hrun1.
  pose proof (call_ok _ _ x2 v2 Hrun1 H2) as C2. simpl in C2.
  pose proof (cache_fresh st outs Hrun) as F0.
  assert (F1 : _intermediates_cache st !! S (next_id st) = None).
  { destruct (_intermediates_cache st !! S (next_id st)) as [v|] eqn:Hk;
      [|reflexivity].
    destruct (run_cache_keys fsd_model st outs Hrun _ _ Hk). lia. }
  eexists _, _, _, _. split; [exact C1|]. split; [exact C2|].
  simpl. split; [lia|]. split.
  - eexists _, _. unfold _inverse. simpl.
    rewrite lookup_insert_ne, lookup_insert_eq by lia.
    split; [reflexivity|]. simpl.
    rewrite delete_insert_ne by lia. rewrite delete_insert_id by exact F0.
    rewrite lookup_insert_eq.
    split; [reflexivity|]. simpl.
    apply delete_insert_id. exact F1.
  - eexists _, _. unfold _inverse. simpl.
    rewrite lookup_insert_eq. split; [reflexivity|]. simpl.
    rewrite delete_insert_id
      by (rewrite lookup_insert_ne by lia; exact F1).
    rewrite lookup_insert_eq. split; [reflexivity|]. simpl.
    apply delete_insert_id. exact F0.
Qed.

End SortTransformMore.

Lemma full_get_sorted_fsd_xi_wrong_length (self : FSDModelGPLVM.t)
    (xi : tensor) :
  shape_last xi <> FSDModelGPLVM.fsd_xi_dim self ->
  FSDModelGPLVM.get_sorted_fsd_xi self xi = Raise (AssertionError 235).
Proof.
  intros Hne. unfold FSDModelGPLVM.get_sorted_fsd_xi.
  destruct (full_decode_dim_check self (xi_dict xi) xi None) as [Hraise _];
    [apply lookup_insert_eq|].
  rewrite (Hraise Hne). reflexivity.
Qed.

Lemma forward_call_outcome_witness :
  let st := SortByComponentWeights.init 1 in
  (exists y st',
     SortByComponentWeights._call model_3_2
       {| obj_id := 0;
          obj_val := [0; 1; 2; 0; 0; 0; -1; 3; 1; 2; 0; 0; 5] |} st
     = Ok (y, st')
     /\ size (SortByComponentWeights._intermediates_cache st') = 1%nat)
  /\ SortByComponentWeights._call model_3_2
       {| obj_id := 0; obj_val := [0; 1] |} st
     = Raise (AssertionError 235).
Proof.
  intros st. split.
  - pose proof (@forward_call_outcome _ FSDModelGPLVM_FSDModel model_3_2
                  st []
                  {| obj_id := 0;
                     obj_val := [0; 1; 2; 0; 0; 0; -1; 3; 1; 2; 0; 0; 5] |}
                  (SortByComponentWeights.run_init model_3_2 1)) as Hout.
    destruct (full_get_sorted_fsd_xi_spec model_3_2
                [0; 1; 2; 0; 0; 0; -1; 3; 1; 2; 0; 0; 5])
      as (y_val & _ & Hsort & _); [simpl; lia | simpl; lia | reflexivity |].
    simpl in Hout. change (get_sorted_fsd_xi model_3_2) 
      with (FSDModelGPLVM.get_sorted_fsd_xi model_3_2) in Hout.
    rewrite Hsort in Hout.
    destruct Hout as (y & st' & Hcall & _ & _ & _ & Hsize).
    exists y, st'. split; [exact Hcall|]. rewrite Hsize. reflexivity.
  - pose proof (@forward_call_outcome _ FSDModelGPLVM_FSDModel model_3_2
                  st [] {| obj_id := 0; obj_val := [0; 1] |}
                  (SortByComponentWeights.run_init model_3_2 1)) as Hout.
    simpl in Hout. change (get_sorted_fsd_xi model_3_2) 
      with (FSDModelGPLVM.get_sorted_fsd_xi model_3_2) in Hout.
    rewrite full_get_sorted_fsd_xi_wrong_length in Hout
      by (vm_compute; discriminate).
    exact Hout.
Defined.

Lemma two_pending_forward_calls_witness :
  let st := SortByComponentWeights.init 2 in
  let row := [0; 1; 2; 0; 0; 0; -1; 3; 1; 2; 0; 0; 5] in
  let x1 := {| obj_id := 0; obj_val := row |} in
  let x2 := {| obj_id := 1; obj_val := row |} in
  exists y1 st1 y2 st2,
    SortByComponentWeights._call model_3_2 x1 st = Ok (y1, st1)
    /\ SortByComponentWeights._call model_3_2 x2 st1 = Ok (y2, st2)
    /\ obj_id y1 <> obj_id y2
    /\ (exists sa sb,
          SortByComponentWeights._inverse y2 st2 = Ok (x2, sa)
          /\ SortByComponentWeights._inverse y1 sa = Ok (x1, sb)).
Proof.
  intros st row x1 x2.
  destruct (full_get_sorted_fsd_xi_spec model_3_2 row)
    as (y_val & _ & Hsort & _); [simpl; lia | simpl; lia | reflexivity |].
  destruct (@two_pending_forward_calls _ FSDModelGPLVM_FSDModel model_3_2
              st [] x1 x2 y_val y_val
              (SortByComponentWeights.run_init model_3_2 2) Hsort Hsort)
    as (y1 & st1 & y2 & st2 & C1 & C2 & Hne & _ & (sa & sb & I2 & I1 & _)).
  exists y1, st1, y2, st2. repeat split; try assumption.
  exists sa, sb. split; assumption.
Defined.

(** ** Initial parameters *)

Lemma length_power_arange (base : R) (n : Z) :
  length (FSDModelGPLVM.power_arange base n) = Z.to_nat n.
Proof.
  unfold FSDModelGPLVM.power_arange. rewrite length_map, length_seq.
  reflexivity.
Qed.

Lemma Forall_map_intro {A B : Type} (P : B -> Prop) (f : A -> B)
    (l : list A) :
  (forall a, P (f a)) -> Forall P (map f l).
Proof. intros Hf. induction l; simpl; constructor; auto. Qed.

Lemma power_arange_positive (base : R) (n : Z) :
  0 < base -> all_positive (FSDModelGPLVM.power_arange base n).
Proof.
  intros Hb. unfold all_positive, FSDModelGPLVM.power_arange.
  apply Forall_map_intro. intros i. apply pow_lt, Hb.
Qed.

Lemma power_arange_sum_pos (base : R) (n : Z) :
  0 < base -> (1 <= n)%Z ->
  0 < tensor_sum (FSDModelGPLVM.power_arange base n).
Proof.
  intros Hb Hn. unfold FSDModelGPLVM.power_arange.
  apply (powers_sum_pos base 0); [exact Hb | lia].
Qed.

(** The normalised weights of a branch are valid weights. *)
Lemma init_weights_valid (decay : R) (n : Z) :
  (1 <= n)%Z -> 0 < decay ->
  let w := FSDModelGPLVM.power_arange decay n in
  let w' := map (fun v => v / tensor_sum w) w in
  shape_last w' = n /\ in_open_simplex w'.
Proof.
  intros Hn Hd. cbv zeta. split; [|split].
  - unfold shape_last. rewrite length_map, length_power_arange. lia.
  - pose proof (power_arange_sum_pos decay n Hd Hn) as Hs.
    pose proof (power_arange_positive decay n Hd) as Hp.
    unfold all_positive in *. rewrite List.Forall_forall in Hp.
    apply List.Forall_forall. intros v Hv.
    apply in_map_iff in Hv. destruct Hv as (u & <- & Hu).
    apply Rdiv_lt_0_compat; [apply Hp, Hu | exact Hs].
  - apply (init_weights decay n Hn Hd).
Qed.

(** Under positive floors, a positive dispersion guess and cap, and a
    positive weight decay, the initial parameters are valid in both
    branches. *)
Lemma generate_fsd_init_params_valid
    (self : FSDModelGPLVM.t) (mu_hi_guess phi_hi_guess : R) :
  (1 <= FSDModelGPLVM.n_fsd_lo_comps self)%Z ->
  (1 <= FSDModelGPLVM.n_fsd_hi_comps self)%Z ->
  0 < FSDModelGPLVM.fsd_init_min_mu_lo self ->
  0 < FSDModelGPLVM.fsd_init_min_mu_hi self ->
  0 < FSDModelGPLVM.fsd_init_max_phi_hi self ->
  0 < phi_hi_guess ->
  0 < FSDModelGPLVM.fsd_init_w_decay self ->
  let '(ml, pl, wl, mh, ph, wh) :=
    FSDModelGPLVM.generate_fsd_init_params self mu_hi_guess phi_hi_guess in
  valid_branch (FSDModelGPLVM.n_fsd_lo_comps self) ml pl wl
  /\ valid_branch (FSDModelGPLVM.n_fsd_hi_comps self) mh ph wh.
Proof.
  intros Hlo Hhi Hml Hmh Hph Hpg Hd.
  unfold FSDModelGPLVM.generate_fsd_init_params.
  destruct (init_weights_valid _ _ Hlo Hd) as [Llo Slo].
  destruct (init_weights_valid _ _ Hhi Hd) as [Lhi Shi].
  unfold valid_branch. split.
  - split; [|split; [|split; [exact Llo|split; [|split; [|exact Slo]]]]].
    + unfold shape_last. rewrite !length_map, length_power_arange. lia.
    + unfold shape_last, ones. rewrite repeat_length. lia.
    + apply Forall_map_intro. intros m.
      pose proof (Rmax_r m (1.1 * FSDModelGPLVM.fsd_init_min_mu_lo self)).
      lra.
    + unfold all_positive, ones. apply Forall_forall. intros v Hv.
      apply list_elem_of_In, repeat_spec in Hv. lra.
  - split; [|split; [|split; [exact Lhi|split; [|split; [|exact Shi]]]]].
    + unfold shape_last. rewrite !length_map, length_power_arange. lia.
    + unfold shape_last, ones. rewrite length_map, repeat_length. lia.
    + apply Forall_map_intro. intros m.
      pose proof (Rmax_r m (1.1 * FSDModelGPLVM.fsd_init_min_mu_hi self)).
      lra.
    + apply List.Forall_forall. intros v Hv.
      apply in_map_iff in Hv. destruct Hv as (o & <- & Ho).
      apply repeat_spec in Ho. subst o.
      pose proof (Rmin_glb_lt phi_hi_guess
                    (0.9 * FSDModelGPLVM.fsd_init_max_phi_hi self) 0
                    Hpg ltac:(lra)).
      lra.
Qed.

(** X8.  Whatever the guesses, [generate_fsd_init_params] returns rows of
    [n_fsd_lo_comps] and [n_fsd_hi_comps] entries in which every lo mean
    is at least [1.1 * fsd_init_min_mu_lo], every hi mean at least
    [1.1 * fsd_init_min_mu_hi], every lo dispersion is 1 (the cap
    [fsd_init_max_phi_lo] plays no part), and every hi dispersion is at
    most the guess and at most [0.9 * fsd_init_max_phi_hi]. *)
Theorem generate_fsd_init_params_bounds
    (self : FSDModelGPLVM.t) (mu_hi_guess phi_hi_guess : R) :
  let '(ml, pl, wl, mh, ph, wh) :=
    FSDModelGPLVM.generate_fsd_init_params self mu_hi_guess phi_hi_guess in
  let n_lo := Z.to_nat (FSDModelGPLVM.n_fsd_lo_comps self) in
  let n_hi := Z.to_nat (FSDModelGPLVM.n_fsd_hi_comps self) in
  (length ml = n_lo /\ length pl = n_lo /\ length wl = n_lo)
  /\ (length mh = n_hi /\ length ph = n_hi /\ length wh = n_hi)
  /\ Forall (fun m => 1.1 * FSDModelGPLVM.fsd_init_min_mu_lo self <= m) ml
  /\ Forall (fun m => 1.1 * FSDModelGPLVM.fsd_init_min_mu_hi self <= m) mh
  /\ Forall (fun f => f = 1) pl
  /\ Forall (fun f => f <= phi_hi_guess
                      /\ f <= 0.9 * FSDModelGPLVM.fsd_init_max_phi_hi self) ph.
Proof.
  unfold FSDModelGPLVM.generate_fsd_init_params, ones. cbv zeta.
  rewrite !length_map, !length_power_arange, !repeat_length.
  split; [auto|]. split; [auto|].
  split; [|split; [|split]].
  - apply Forall_map_intro. intros m. apply Rmax_r.
  - apply Forall_map_intro. intros m. apply Rmax_r.
  - apply List.Forall_forall. intros v Hv. apply repeat_spec in Hv. exact Hv.
  - apply List.Forall_forall. intros v Hv.
    apply in_map_iff in Hv. destruct Hv as (o & <- & Ho).
    apply repeat_spec in Ho. subst o. rewrite Rmult_1_r.
    split; [apply Rmin_l | apply Rmin_r].
Qed.

(** X9.  When the floors of the means, the cap of the hi dispersion, the
    mean empirical dispersion and the weight decay are positive (and each
    branch has a component), [init_fsd_xi_loc_prior] returns a row of the
    model's dimension that decodes to the parameters
    [generate_fsd_init_params] gives for the mean empirical estimates. *)
Theorem init_fsd_xi_loc_prior_decodes
    (self : FSDModelGPLVM.t) (dtm : SingleCellFingerprintDTM) :
  (1 <= FSDModelGPLVM.n_fsd_lo_comps self)%Z ->
  (1 <= FSDModelGPLVM.n_fsd_hi_comps self)%Z ->
  0 < FSDModelGPLVM.fsd_init_min_mu_lo self ->
  0 < FSDModelGPLVM.fsd_init_min_mu_hi self ->
  0 < FSDModelGPLVM.fsd_init_max_phi_hi self ->
  0 < np_mean (empirical_fsd_phi_hi dtm) ->
  0 < FSDModelGPLVM.fsd_init_w_decay self ->
  exists xi,
    FSDModelGPLVM.init_fsd_xi_loc_prior self dtm = Ok xi
    /\ shape_last xi = FSDModelGPLVM.fsd_xi_dim self
    /\ let '(ml, pl, wl, mh, ph, wh) :=
         FSDModelGPLVM.generate_fsd_init_params self
           (np_mean (empirical_fsd_mu_hi dtm))
           (np_mean (empirical_fsd_phi_hi dtm)) in
       FSDModelGPLVM.decode self (xi_dict xi) None
       = Ok (params_dict {| mu_lo := ml; phi_lo := pl; w_lo := wl;
                            mu_hi := mh; phi_hi := ph; w_hi := wh |}).
Proof.
  intros Hlo Hhi Hml Hmh Hph Hpg Hd.
  pose proof (generate_fsd_init_params_valid self
                (np_mean (empirical_fsd_mu_hi dtm))
                (np_mean (empirical_fsd_phi_hi dtm))
                Hlo Hhi Hml Hmh Hph Hpg Hd) as Hvalid.
  unfold FSDModelGPLVM.init_fsd_xi_loc_prior.
  destruct (FSDModelGPLVM.generate_fsd_init_params self _ _)
    as [[[[[ml pl] wl] mh] ph] wh].
  destruct Hvalid as [Vlo Vhi].
  destruct (full_decode_encode self
              {| mu_lo := ml; phi_lo := pl; w_lo := wl;
                 mu_hi := mh; phi_hi := ph; w_hi := wh |} None Hhi Hlo
              Vlo Vhi) as (xi & Henc & Hdec).
  exists xi. split; [exact Henc|]. split; [|exact Hdec].
  destruct (Z.eq_dec (shape_last xi) (FSDModelGPLVM.fsd_xi_dim self))
    as [Heq|Hne]; [exact Heq|].
  destruct (full_decode_dim_check self (xi_dict xi) xi None) as [Hraise _];
    [apply lookup_insert_eq|].
  rewrite (Hraise Hne) in Hdec. discriminate.
Qed.

Lemma init_fsd_xi_loc_prior_decodes_witness :
  exists xi,
    FSDModelGPLVM.init_fsd_xi_loc_prior model_3_2 fingerprint_2 = Ok xi
    /\ shape_last xi = 13%Z
    /\ let '(ml, pl, wl, mh, ph, wh) :=
         FSDModelGPLVM.generate_fsd_init_params model_3_2
           (np_mean [10; 20]) (np_mean [1 / 2; 3 / 2]) in
       FSDModelGPLVM.decode model_3_2 (xi_dict xi) None
       = Ok (params_dict {| mu_lo := ml; phi_lo := pl; w_lo := wl;
                            mu_hi := mh; phi_hi := ph; w_hi := wh |}).
Proof.
  apply (init_fsd_xi_loc_prior_decodes model_3_2 fingerprint_2);
    simpl; try lia; try lra.
  unfold np_mean. simpl. lra.
Defined.

(** ** Loops over indices *)

Lemma for_each_return {A B : Type} (js : list A) (body : A -> outcome B)
    (f : A -> B) :
  (forall j, In j js -> body j = Return (f j)) ->
  for_each js body = Return (map f js).
Proof.
  induction js as [|j js IH]; intros Hbody; [reflexivity|].
  assert (Hj : body j = Return (f j)) by (apply Hbody; left; reflexivity).
  assert (Hjs : for_each js body = Return (map f js))
    by (apply IH; intros i Hi; apply Hbody; right; exact Hi).
  simpl. rewrite Hj, Hjs. reflexivity.
Qed.

Lemma for_each_throw {A B : Type} (js1 js2 : list A) (j : A)
    (body : A -> outcome B) (f : A -> B) (e : py_exn) :
  (forall i, In i js1 -> body i = Return (f i)) ->
  body j = Throw e ->
  for_each (js1 ++ j :: js2) body = Throw e.
Proof.
  induction js1 as [|i js1 IH]; intros Hbody Hj.
  - simpl. rewrite Hj. reflexivity.
  - assert (Hi : body i = Return (f i)) by (apply Hbody; left; reflexivity).
    assert (Hrest : for_each (js1 ++ j :: js2) body = Throw e).
    { apply IH; [|exact Hj]. intros k Hk. apply Hbody. right. exact Hk. }
    simpl. rewrite Hi, Hrest. reflexivity.
Qed.

Lemma getindex_in_range (t : tensor) (j : nat) :
  (j < length t)%nat -> getindex t j = Return (nth j t 0).
Proof.
  intros Hj. unfold getindex.
  destruct (_ !! _) as [v|] eqn:E; [|apply lookup_ge_None in E; lia].
  rewrite (nth_lookup_Some t j 0 v E). reflexivity.
Qed.

Lemma getindex_out_of_range (t : tensor) (j : nat) :
  (length t <= j)%nat -> getindex t j = Throw (IndexError j).
Proof.
  intros Hj. unfold getindex.
  destruct (_ !! _) as [v|] eqn:E; [|reflexivity].
  apply lookup_lt_Some in E. lia.
Qed.

(** ** The table of initial posterior locations *)

Lemma init_row_ok (self : FSDModelGPLVM.t) (mu_hi_guess phi_hi_guess : R) :
  exists row, init_row self mu_hi_guess phi_hi_guess = Ok row.
Proof.
  unfold init_row, FSDModelGPLVM.generate_fsd_init_params.
  rewrite full_encode_params_dict. eexists. reflexivity.
Qed.

(** One turn of the loop of [init_fsd_xi_loc_posterior], on a gene for
    which both estimates exist. *)
Lemma posterior_body_in_range (self : FSDModelGPLVM.t)
    (dtm : SingleCellFingerprintDTM) (g : nat) :
  (g < length (empirical_fsd_mu_hi dtm))%nat ->
  (g < length (empirical_fsd_phi_hi dtm))%nat ->
  (mu_hi_guess ← getindex (empirical_fsd_mu_hi dtm) g;
   phi_hi_guess ← getindex (empirical_fsd_phi_hi dtm) g;
   let '(ml, pl, wl, mh, ph, wh) :=
     FSDModelGPLVM.generate_fsd_init_params self mu_hi_guess phi_hi_guess in
   lift_result
     (FSDModelGPLVM.encode self
        (params_dict {| mu_lo := ml; phi_lo := pl; w_lo := wl;
                        mu_hi := mh; phi_hi := ph; w_hi := wh |})))
  = lift_result (init_row self (nth g (empirical_fsd_mu_hi dtm) 0)
                               (nth g (empirical_fsd_phi_hi dtm) 0)).
Proof.
  intros Hm Hp. rewrite !getindex_in_range by assumption. reflexivity.
Qed.

(** X10.  When the fingerprint announces at least one gene and has both
    empirical estimates for every announced gene,
    [init_fsd_xi_loc_posterior] returns one row per gene, in gene order,
    and the row of a gene is the encoding of the initial parameters that
    [generate_fsd_init_params] gives for that gene's own estimates. *)
Theorem init_fsd_xi_loc_posterior_rows
    (self : FSDModelGPLVM.t) (dtm : SingleCellFingerprintDTM) :
  (1 <= n_genes dtm)%Z ->
  (Z.to_nat (n_genes dtm) <= length (empirical_fsd_mu_hi dtm))%nat ->
  (Z.to_nat (n_genes dtm) <= length (empirical_fsd_phi_hi dtm))%nat ->
  exists rows,
    FSDModelGPLVM.init_fsd_xi_loc_posterior self dtm = Return rows
    /\ length rows = Z.to_nat (n_genes dtm)
    /\ forall g, (g < Z.to_nat (n_genes dtm))%nat ->
         exists row,
           rows !! g = Some row
           /\ init_row self (nth g (empirical_fsd_mu_hi dtm) 0)
                            (nth g (empirical_fsd_phi_hi dtm) 0)
              = Ok row.
Proof.
  intros Hn Hmu Hphi.
  set (f := fun g : nat =>
              match init_row self (nth g (empirical_fsd_mu_hi dtm) 0)
                                  (nth g (empirical_fsd_phi_hi dtm) 0) with
              | Ok row => row
              | Raise _ => []
              end).
  assert (Hf : forall g,
            init_row self (nth g (empirical_fsd_mu_hi dtm) 0)
                          (nth g (empirical_fsd_phi_hi dtm) 0) = Ok (f g)).
  { intros g. unfold f. destruct (init_row_ok self
      (nth g (empirical_fsd_mu_hi dtm) 0)
      (nth g (empirical_fsd_phi_hi dtm) 0)) as [row ->]. reflexivity. }
  exists (map f (py_range (n_genes dtm))).
  split; [|split].
  - unfold FSDModelGPLVM.init_fsd_xi_loc_posterior.
    rewrite (for_each_return _ _ f).
    + unfold py_range.
      destruct (Z.to_nat (n_genes dtm)) as [|k] eqn:Hk; [lia|].
      reflexivity.
    + intros g Hg. apply in_seq in Hg.
      rewrite posterior_body_in_range by lia.
      rewrite Hf. reflexivity.
  - unfold py_range. rewrite length_map, length_seq. reflexivity.
  - intros g Hg. exists (f g). split; [|apply Hf].
    unfold py_range. rewrite list_lookup_fmap.
    rewrite lookup_seq_lt by exact Hg. reflexivity.
Qed.

Lemma init_fsd_xi_loc_posterior_rows_witness :
  exists rows,
    FSDModelGPLVM.init_fsd_xi_loc_posterior model_3_2 fingerprint_2
    = Return rows
    /\ length rows = 2%nat
    /\ (exists row, rows !! 1%nat = Some row
                    /\ init_row model_3_2 20 (3 / 2) = Ok row).
Proof.
  destruct (init_fsd_xi_loc_posterior_rows model_3_2 fingerprint_2)
    as (rows & Hret & Hlen & Hrow); [simpl; lia ..|].
  exists rows. split; [exact Hret|]. split; [exact Hlen|].
  apply (Hrow 1%nat). simpl. lia.
Defined.

(** X11.  [init_fsd_xi_loc_posterior] returns no table for a fingerprint
    that announces no gene: no row is computed, and stacking the empty
    list of rows is refused.  For a fingerprint that announces more genes
    than it has estimates for, it fails with an [IndexError] at the first
    gene without both estimates. *)
Theorem init_fsd_xi_loc_posterior_failures
    (self : FSDModelGPLVM.t) (dtm : SingleCellFingerprintDTM) :
  ((n_genes dtm <= 0)%Z ->
   exists e, FSDModelGPLVM.init_fsd_xi_loc_posterior self dtm = Throw e)
  /\ (let k := Nat.min (length (empirical_fsd_mu_hi dtm))
                       (length (empirical_fsd_phi_hi dtm)) in
      (k < Z.to_nat (n_genes dtm))%nat ->
      FSDModelGPLVM.init_fsd_xi_loc_posterior self dtm
      = Throw (IndexError k)).
Proof.
  split.
  - intros Hn. unfold FSDModelGPLVM.init_fsd_xi_loc_posterior, py_range.
    replace (Z.to_nat (n_genes dtm)) with 0%nat by lia.
    eexists. reflexivity.
  - intros k Hk. unfold FSDModelGPLVM.init_fsd_xi_loc_posterior, py_range.
    replace (Z.to_nat (n_genes dtm))
      with (k + S (Z.to_nat (n_genes dtm) - S k))%nat by lia.
    rewrite seq_app. rewrite Nat.add_0_l.
    change (seq k (S ?n)) with (k :: seq (S k) n).
    rewrite (for_each_throw _ _ _ _
               (fun g => match init_row self
                                 (nth g (empirical_fsd_mu_hi dtm) 0)
                                 (nth g (empirical_fsd_phi_hi dtm) 0) with
                         | Ok row => row
                         | Raise _ => []
                         end)
               (IndexError k)); [reflexivity | |].
    + intros g Hg. apply in_seq in Hg.
      rewrite posterior_body_in_range by (unfold k in *; lia).
      destruct (init_row_ok self (nth g (empirical_fsd_mu_hi dtm) 0)
                  (nth g (empirical_fsd_phi_hi dtm) 0)) as [row ->].
      reflexivity.
    + destruct (Nat.le_gt_cases (length (empirical_fsd_mu_hi dtm))
                  (length (empirical_fsd_phi_hi dtm))) as [Hle|Hgt].
      * rewrite (getindex_out_of_range (empirical_fsd_mu_hi dtm))
          by (unfold k; lia).
        reflexivity.
      * rewrite (getindex_in_range (empirical_fsd_mu_hi dtm))
          by (unfold k; lia).
        rewrite (getindex_out_of_range (empirical_fsd_phi_hi dtm))
          by (unfold k; lia).
        reflexivity.
Qed.

Lemma init_fsd_xi_loc_posterior_failures_witness :
  (exists e,
     FSDModelGPLVM.init_fsd_xi_loc_posterior model_3_2
       {| n_genes := 0; empirical_fsd_mu_hi := [];
          empirical_fsd_phi_hi := [] |}
     = Throw e)
  /\ FSDModelGPLVM.init_fsd_xi_loc_posterior model_3_2 fingerprint_short
     = Throw (IndexError 2).
Proof.
  split.
  - apply (init_fsd_xi_loc_posterior_failures model_3_2). simpl. lia.
  - apply (init_fsd_xi_loc_posterior_failures model_3_2 fingerprint_short).
    simpl. lia.
Defined.

(** ** Building the mixtures *)

Lemma log_weights_loop (d : gmap string tensor) (key : string) (w : tensor)
    (n : Z) :
  getitem d key = Ok w -> (Z.to_nat n <= length w)%nat ->
  for_each (py_range n) (fun j =>
    w_all ← lift_result (getitem d key);
    v ← getindex w_all j;
    Return [ln v])
  = Return (map (fun j => [ln (nth j w 0)]) (py_range n)).
Proof.
  intros Hw Hn. apply for_each_return. intros j Hj.
  apply in_seq in Hj. rewrite Hw. simpl.
  rewrite getindex_in_range by lia. reflexivity.
Qed.

Lemma components_loop (d : gmap string tensor) (kmu kphi : string)
    (mu phi : tensor) (n : Z) :
  getitem d kmu = Ok mu -> getitem d kphi = Ok phi ->
  (Z.to_nat n <= length mu)%nat -> (Z.to_nat n <= length phi)%nat ->
  for_each (py_range n) (fun j =>
    mu_all ← lift_result (getitem d kmu);
    m ← getindex mu_all j;
    phi_all ← lift_result (getitem d kphi);
    f ← getindex phi_all j;
    Return {| nb_mu := [m]; nb_phi := [f] |})
  = Return (map (fun j => {| nb_mu := [nth j mu 0]; nb_phi := [nth j phi 0] |})
                (py_range n)).
Proof.
  intros Hmu Hphi Hn Hn'. apply for_each_return. intros j Hj.
  apply in_seq in Hj. rewrite Hmu. simpl.
  rewrite getindex_in_range by lia. simpl. rewrite Hphi. simpl.
  rewrite getindex_in_range by lia. reflexivity.
Qed.

(** X12.  On a dict whose rows have at least as many entries as their
    branch has components, the full model's [get_fsd_components] returns
    for each branch the mixture of its first [n] components, component [j]
    with log-weight [log w[j]], mean [mu[j]] and dispersion [phi[j]];
    entries past the component count are not read. *)
Theorem get_fsd_components_mixtures
    (self : FSDModelGPLVM.t) (p : MixtureParams) :
  let n_lo := FSDModelGPLVM.n_fsd_lo_comps self in
  let n_hi := FSDModelGPLVM.n_fsd_hi_comps self in
  (Z.to_nat n_lo <= length (mu_lo p))%nat ->
  (Z.to_nat n_lo <= length (phi_lo p))%nat ->
  (Z.to_nat n_lo <= length (w_lo p))%nat ->
  (Z.to_nat n_hi <= length (mu_hi p))%nat ->
  (Z.to_nat n_hi <= length (phi_hi p))%nat ->
  (Z.to_nat n_hi <= length (w_hi p))%nat ->
  FSDModelGPLVM.get_fsd_components self (params_dict p)
  = Return (mixture_of n_lo (mu_lo p) (phi_lo p) (w_lo p),
            mixture_of n_hi (mu_hi p) (phi_hi p) (w_hi p)).
Proof.
  intros n_lo n_hi L1 L2 L3 H1 H2 H3.
  pose proof (getitem_params_dict p) as (P1 & P2 & P3 & P4 & P5 & P6).
  unfold FSDModelGPLVM.get_fsd_components. fold n_lo n_hi.
  rewrite (log_weights_loop _ _ _ _ P3 L3).
  rewrite (components_loop _ _ _ _ _ _ P1 P2 L1 L2).
  rewrite (log_weights_loop _ _ _ _ P6 H3).
  rewrite (components_loop _ _ _ _ _ _ P4 P5 H1 H2).
  reflexivity.
Qed.

Lemma get_fsd_components_mixtures_witness :
  FSDModelGPLVM.get_fsd_components model_3_2 (params_dict params_3_2)
  = Return (mixture_of 2 [1; 2] [1; 1] [1 / 2; 1 / 2],
            mixture_of 3 [3; 2; 1] [1; 1; 1] [1 / 2; 1 / 4; 1 / 4]).
Proof.
  apply (get_fsd_components_mixtures model_3_2 params_3_2); simpl; lia.
Defined.

(** X13.  [get_fsd_components] reads the lo weights first: on a dict
    without the key ['w_lo'] it raises the [KeyError] of that key, and on
    a dict whose lo weights have fewer entries than the model has lo
    components it raises an [IndexError] at the first missing position. *)
Theorem get_fsd_components_failures
    (self : FSDModelGPLVM.t) (d : gmap string tensor) :
  (1 <= FSDModelGPLVM.n_fsd_lo_comps self)%Z ->
  (d !! "w_lo" = None ->
   FSDModelGPLVM.get_fsd_components self d = Throw (Exn (KeyError "w_lo")))
  /\ (forall w : tensor,
        d !! "w_lo" = Some w ->
        (length w < Z.to_nat (FSDModelGPLVM.n_fsd_lo_comps self))%nat ->
        FSDModelGPLVM.get_fsd_components self d
        = Throw (IndexError (length w))).
Proof.
  intros Hn. split.
  - intros Hnone. unfold FSDModelGPLVM.get_fsd_components, py_range.
    destruct (Z.to_nat (FSDModelGPLVM.n_fsd_lo_comps self)) as [|k] eqn:Hk;
      [lia|].
    assert (Hget : getitem d "w_lo" = Raise (KeyError "w_lo"))
      by (unfold getitem; rewrite Hnone; reflexivity).
    change (seq 0 (S k)) with ([] ++ 0%nat :: seq 1 k).
    rewrite (for_each_throw _ _ _ _ (fun _ => [])
               (Exn (KeyError "w_lo"))); [reflexivity | |].
    + intros j [].
    + rewrite Hget. reflexivity.
  - intros w Hw Hlen. unfold FSDModelGPLVM.get_fsd_components, py_range.
    replace (Z.to_nat (FSDModelGPLVM.n_fsd_lo_comps self))
      with (length w
            + S (Z.to_nat (FSDModelGPLVM.n_fsd_lo_comps self)
                 - S (length w)))%nat by lia.
    rewrite seq_app, Nat.add_0_l.
    change (seq (length w) (S ?n)) with (length w :: seq (S (length w)) n).
    assert (Hget : getitem d "w_lo" = Ok w)
      by (unfold getitem; rewrite Hw; reflexivity).
    rewrite (for_each_throw _ _ _ _ (fun j => [ln (nth j w 0)])
               (IndexError (length w))); [reflexivity | |].
    + intros j Hj. apply in_seq in Hj. rewrite Hget. simpl.
      rewrite getindex_in_range by lia. reflexivity.
    + rewrite Hget. simpl.
      rewrite getindex_out_of_range by lia. reflexivity.
Qed.

Lemma get_fsd_components_failures_witness :
  FSDModelGPLVM.get_fsd_components model_3_2
    (<["mu_hi" := [1; 2; 3]]> (<["phi_hi" := [1; 1; 1]]>
       (<["w_hi" := [1 / 2; 1 / 4; 1 / 4]]> ∅)))
  = Throw (Exn (KeyError "w_lo"))
  /\ FSDModelGPLVM.get_fsd_components model_3_2
       (params_dict params_1_1) = Throw (IndexError 1).
Proof.
  split.
  - apply (get_fsd_components_failures model_3_2); [simpl; lia|].
    rewrite !lookup_insert_ne by discriminate. apply lookup_empty.
  - apply (proj2 (get_fsd_components_failures model_3_2
                    (params_dict params_1_1) ltac:(simpl; lia)) [1]).
    + unfold params_dict. rewrite !lookup_insert_ne by discriminate.
      apply lookup_insert_eq.
    + simpl. lia.
Defined.

Lemma concat_singletons {A B : Type} (g : A -> B) (l : list A) :
  concat (map (fun a => [g a]) l) = map g l.
Proof. induction l as [|a l IH]; simpl; [reflexivity|]. rewrite IH. reflexivity. Qed.

(** The weights of the mixture of all the components of a branch are the
    weights of the branch. *)
Lemma mixture_weights_of (n : Z) (mu phi w : tensor) :
  Z.to_nat n = length w -> all_positive w ->
  mixture_weights (mixture_of n mu phi w) = w.
Proof.
  intros Hn Hw. unfold mixture_weights, mixture_of, py_range. simpl.
  rewrite (concat_singletons (fun j => ln (nth j w 0))), Hn.
  rewrite <- (map_map (fun j => nth j w 0) ln), nth_seq_id.
  apply tensor_exp_log, Hw.
Qed.

Lemma mixture_components_positive (n : Z) (mu phi w : tensor) :
  Z.to_nat n = length mu -> Z.to_nat n = length phi ->
  all_positive mu -> all_positive phi ->
  Forall (fun c => all_positive (nb_mu c) /\ all_positive (nb_phi c))
         (components (mixture_of n mu phi w)).
Proof.
  intros Hm Hp Pm Pp. unfold mixture_of, py_range. simpl.
  apply List.Forall_forall. intros c Hc.
  apply in_map_iff in Hc. destruct Hc as (j & <- & Hj).
  apply in_seq in Hj. simpl.
  unfold all_positive in *. rewrite List.Forall_forall in Pm, Pp.
  split; repeat constructor; [apply Pm | apply Pp]; apply nth_In; lia.
Qed.

Lemma mixture_of_lengths (n : Z) (mu phi w : tensor) :
  length (log_weights (mixture_of n mu phi w)) = Z.to_nat n
  /\ length (components (mixture_of n mu phi w)) = Z.to_nat n.
Proof.
  unfold mixture_of, py_range. simpl.
  rewrite !length_map, !length_seq. split; reflexivity.
Qed.

(** The mixture of a valid branch. *)
Lemma valid_branch_mixture (n : Z) (mu phi w : tensor) :
  (0 <= n)%Z -> valid_branch n mu phi w ->
  let m := mixture_of n mu phi w in
  length (components m) = Z.to_nat n
  /\ length (log_weights m) = Z.to_nat n
  /\ mixture_weights m = w
  /\ Forall (fun c => all_positive (nb_mu c) /\ all_positive (nb_phi c))
            (components m).
Proof.
  unfold valid_branch, shape_last.
  intros Hn (Lm & Lp & Lw & Pm & Pp & [Pw Sw]). cbv zeta.
  destruct (mixture_of_lengths n mu phi w) as [L1 L2].
  split; [exact L2|]. split; [exact L1|]. split.
  - apply mixture_weights_of; [lia | exact Pw].
  - apply mixture_components_positive; try assumption; lia.
Qed.

(** X14.  In the full model, the mixtures built from what [decode] returns
    for a row of the model's dimension have one component per configured
    component of their branch and weights that are non-negative and sum to
    1, whatever the entries of the row; when the entries of the row are
    within the range of [exp], the means and dispersions of all components
    are positive. *)
Theorem decoded_mixtures
    (self : FSDModelGPLVM.t) (xi : tensor)
    (parents_dict : option (gmap string R)) :
  let n_lo := FSDModelGPLVM.n_fsd_lo_comps self in
  let n_hi := FSDModelGPLVM.n_fsd_hi_comps self in
  (1 <= n_hi)%Z -> (1 <= n_lo)%Z ->
  shape_last xi = FSDModelGPLVM.fsd_xi_dim self ->
  exists dist_lo dist_hi,
    (lift_result (FSDModelGPLVM.decode self (xi_dict xi) parents_dict)
       ≫= FSDModelGPLVM.get_fsd_components self)
    = Return (dist_lo, dist_hi)
    /\ length (components dist_lo) = Z.to_nat n_lo
    /\ length (components dist_hi) = Z.to_nat n_hi
    /\ on_simplex (mixture_weights dist_lo)
    /\ on_simplex (mixture_weights dist_hi)
    /\ (Forall exp_safe xi ->
        Forall (fun c => all_positive (nb_mu c) /\ all_positive (nb_phi c))
               (components dist_lo ++ components dist_hi)).
Proof.
  intros n_lo n_hi Hhi Hlo Hlen.
  destruct (full_decode_valid self xi parents_dict Hhi Hlo Hlen)
    as (p & Hdec & Vlo & Vhi).
  fold n_lo in Vlo. fold n_hi in Vhi.
  exists (mixture_of n_lo (mu_lo p) (phi_lo p) (w_lo p)),
         (mixture_of n_hi (mu_hi p) (phi_hi p) (w_hi p)).
  destruct (valid_branch_mixture n_lo _ _ _ ltac:(lia) Vlo)
    as (A1 & A2 & A3 & A4).
  destruct (valid_branch_mixture n_hi _ _ _ ltac:(lia) Vhi)
    as (B1 & B2 & B3 & B4).
  split; [|split; [exact A1|split; [exact B1|split; [|split]]]].
  - rewrite Hdec. simpl lift_result.
    change (Return (params_dict p) ≫= FSDModelGPLVM.get_fsd_components self)
      with (FSDModelGPLVM.get_fsd_components self (params_dict p)).
    pose proof (getitem_params_dict p) as (P1 & P2 & P3 & P4 & P5 & P6).
    destruct Vlo as (L1 & L2 & L3 & _), Vhi as (H1 & H2 & H3 & _).
    unfold shape_last in *.
    unfold FSDModelGPLVM.get_fsd_components. fold n_lo n_hi.
    rewrite (log_weights_loop _ _ _ _ P3) by lia.
    rewrite (components_loop _ _ _ _ _ _ P1 P2) by lia.
    rewrite (log_weights_loop _ _ _ _ P6) by lia.
    rewrite (components_loop _ _ _ _ _ _ P4 P5) by lia.
    reflexivity.
  - rewrite A3. apply open_simplex_on_simplex, Vlo.
  - rewrite B3. apply open_simplex_on_simplex, Vhi.
  - intros _. apply Forall_app. split; assumption.
Qed.

Lemma decoded_mixtures_witness :
  exists dist_lo dist_hi,
    (lift_result
       (FSDModelGPLVM.decode model_3_2
          (xi_dict [0; 1; 2; 0; 0; 0; -1; 3; 1; 2; 0; 0; 5]) None)
       ≫= FSDModelGPLVM.get_fsd_components model_3_2)
    = Return (dist_lo, dist_hi)
    /\ length (components dist_lo) = 2%nat
    /\ length (components dist_hi) = 3%nat
    /\ on_simplex (mixture_weights dist_lo)
    /\ on_simplex (mixture_weights dist_hi)
    /\ Forall (fun c => all_positive (nb_mu c) /\ all_positive (nb_phi c))
              (components dist_lo ++ components dist_hi).
Proof.
  destruct (decoded_mixtures model_3_2
              [0; 1; 2; 0; 0; 0; -1; 3; 1; 2; 0; 0; 5] None)
    as (dist_lo & dist_hi & H1 & H2 & H3 & H4 & H5 & H6);
    [simpl; lia | simpl; lia | reflexivity |].
  exists dist_lo, dist_hi.
  split; [exact H1|]. split; [exact H2|]. split; [exact H3|].
  split; [exact H4|]. split; [exact H5|].
  apply H6. repeat constructor; unfold exp_safe; lra.
Defined.

(** X15.  In the restricted model, the mixtures built from what [decode]
    returns (without a [parents_dict]) for a row of the model's dimension
    are: for the lo branch a single component of weight 1 and dispersion
    1, and for the hi branch one component per configured hi component,
    with weights that are non-negative and sum to 1. *)
Theorem restricted_decoded_mixtures
    (get_detached : R -> R -> R -> R)
    (self : FSDModelGPLVMRestricted.t) (xi : tensor) :
  let n_hi := FSDModelGPLVMRestricted.n_fsd_hi_comps self in
  (1 <= n_hi)%Z ->
  shape_last xi = FSDModelGPLVMRestricted.fsd_xi_dim self ->
  exists dist_lo dist_hi m,
    (lift_result
       (FSDModelGPLVMRestricted.decode get_detached self (xi_dict xi) None)
       ≫= FSDModelGPLVMRestricted.get_fsd_components self)
    = Return (dist_lo, dist_hi)
    /\ components dist_lo = [{| nb_mu := [m]; nb_phi := [1] |}]
    /\ mixture_weights dist_lo = [1]
    /\ length (components dist_hi) = Z.to_nat n_hi
    /\ on_simplex (mixture_weights dist_hi).
Proof.
  intros n_hi Hhi Hlen.
  destruct (restricted_decode_valid get_detached self xi Hhi Hlen)
    as (p & Hdec & Vhi & Vlo & Hphi & Hw).
  fold n_hi in Vhi.
  destruct (valid_branch_mixture n_hi _ _ _ ltac:(lia) Vhi)
    as (B1 & B2 & B3 & B4).
  destruct Vlo as (Lm & _).
  unfold shape_last in Lm.
  destruct (mu_lo p) as [|m [|? ?]] eqn:Hmu; simpl in Lm; try lia.
  exists (mixture_of 1 [m] (phi_lo p) (w_lo p)),
         (mixture_of n_hi (mu_hi p) (phi_hi p) (w_hi p)), m.
  split; [|split; [|split; [|split]]].
  - rewrite Hdec. simpl lift_result.
    change (Return (params_dict p)
              ≫= FSDModelGPLVMRestricted.get_fsd_components self)
      with (FSDModelGPLVMRestricted.get_fsd_components self (params_dict p)).
    pose proof (getitem_params_dict p) as (P1 & P2 & P3 & P4 & P5 & P6).
    rewrite Hmu in P1.
    destruct Vhi as (H1 & H2 & H3 & _). unfold shape_last in *.
    unfold FSDModelGPLVMRestricted.get_fsd_components,
      FSDModelGPLVMRestricted.n_fsd_lo_comps.
    fold n_hi.
    rewrite (log_weights_loop _ _ _ _ P3) by (rewrite Hw; simpl; lia).
    rewrite (components_loop _ _ _ _ _ _ P1 P2)
      by (rewrite ?Hphi; simpl; lia).
    rewrite (log_weights_loop _ _ _ _ P6) by lia.
    rewrite (components_loop _ _ _ _ _ _ P4 P5) by lia.
    reflexivity.
  - rewrite Hphi. reflexivity.
  - rewrite Hw. unfold mixture_weights, tensor_exp. simpl.
    rewrite ln_1, exp_0. reflexivity.
  - exact B1.
  - rewrite B3. apply open_simplex_on_simplex, Vhi.
Qed.

Lemma restricted_decoded_mixtures_witness :
  exists dist_lo dist_hi m,
    (lift_result
       (FSDModelGPLVMRestricted.decode detach_by_masks restricted_1
          (xi_dict [3; 4]) None)
       ≫= FSDModelGPLVMRestricted.get_fsd_components restricted_1)
    = Return (dist_lo, dist_hi)
    /\ components dist_lo = [{| nb_mu := [m]; nb_phi := [1] |}]
    /\ mixture_weights dist_lo = [1]
    /\ length (components dist_hi) = 1%nat
    /\ on_simplex (mixture_weights dist_hi).
Proof.
  apply (restricted_decoded_mixtures detach_by_masks restricted_1 [3; 4]);
    [simpl; lia | reflexivity].
Defined.

(** ** What the restricted [decode] reads of [parents_dict] *)

(** X16.  With [detach_non_inducing_genes] off, the restricted [decode]
    never reads [parents_dict] (nor the detachment helper): any two values
    of it give the same result on every [output_dict]. *)
Theorem restricted_decode_without_detachment
    (get_detached get_detached' : R -> R -> R -> R)
    (self : FSDModelGPLVMRestricted.t) (od : gmap string tensor)
    (pd1 pd2 : option (gmap string R)) :
  FSDModelGPLVMRestricted.detach_non_inducing_genes self = false ->
  FSDModelGPLVMRestricted.decode get_detached self od pd1
  = FSDModelGPLVMRestricted.decode get_detached' self od pd2.
Proof.
  intros Hoff. unfold FSDModelGPLVMRestricted.decode. rewrite Hoff.
  destruct pd1, pd2; reflexivity.
Qed.

Lemma restricted_decode_without_detachment_witness :
  FSDModelGPLVMRestricted.decode detach_by_masks restricted_2
    (xi_dict [0; 1; 2; 3; 4]) (Some ∅)
  = FSDModelGPLVMRestricted.decode (fun s _ _ => s) restricted_2
      (xi_dict [0; 1; 2; 3; 4]) None.
Proof.
  apply restricted_decode_without_detachment. reflexivity.
Defined.

(** X17.  With detachment on and a [parents_dict] given, the restricted
    [decode] of a row of the model's dimension checks the two masks in
    turn: without the inducing mask it raises the assertion error of line
    603, with it but without the non-inducing mask that of line 604, and
    with both masks it returns its dict. *)
Theorem restricted_decode_mask_checks
    (get_detached : R -> R -> R -> R)
    (self : FSDModelGPLVMRestricted.t) (od : gmap string tensor)
    (xi : tensor) (m : gmap string R) :
  FSDModelGPLVMRestricted.detach_non_inducing_genes self = true ->
  od !! "fsd_xi_nq" = Some xi ->
  shape_last xi = FSDModelGPLVMRestricted.fsd_xi_dim self ->
  (m !! "inducing_binary_mask_tensor_n" = None ->
   FSDModelGPLVMRestricted.decode get_detached self od (Some m)
   = Raise (AssertionError 603))
  /\ (is_Some (m !! "inducing_binary_mask_tensor_n") ->
      m !! "non_inducing_binary_mask_tensor_n" = None ->
      FSDModelGPLVMRestricted.decode get_detached self od (Some m)
      = Raise (AssertionError 604))
  /\ (is_Some (m !! "inducing_binary_mask_tensor_n") ->
      is_Some (m !! "non_inducing_binary_mask_tensor_n") ->
      exists d,
        FSDModelGPLVMRestricted.decode get_detached self od (Some m) = Ok d).
Proof.
  intros Hon Hxi Hdim.
  destruct (decode_prelude od xi Hxi) as [Hc Hg].
  apply Z.eqb_eq in Hdim.
  unfold FSDModelGPLVMRestricted.decode.
  rewrite Hc, Hg. simpl py_assert. rewrite !bind_ok, Hdim.
  simpl py_assert. rewrite !bind_ok, Hon.
  unfold py_assert, contains, getitem.
  split; [|split].
  - intros H1. rewrite H1.
    rewrite (bool_decide_eq_false_2 (is_Some (@None R)))
      by (intros [? ?]; discriminate).
    destruct (1 <? FSDModelGPLVMRestricted.n_fsd_hi_comps self)%Z;
      reflexivity.
  - intros [a H1] H2. rewrite H1, H2.
    rewrite (bool_decide_eq_true_2 (is_Some (Some a))) by eauto.
    rewrite (bool_decide_eq_false_2 (is_Some (@None R)))
      by (intros [? ?]; discriminate).
    destruct (1 <? FSDModelGPLVMRestricted.n_fsd_hi_comps self)%Z;
      reflexivity.
  - intros [a H1] [b H2]. rewrite H1, H2.
    rewrite (bool_decide_eq_true_2 (is_Some (Some a))) by eauto.
    rewrite ?(bool_decide_eq_true_2 (is_Some (Some b))) by eauto.
    destruct (1 <? FSDModelGPLVMRestricted.n_fsd_hi_comps self)%Z;
      eexists; reflexivity.
Qed.

Lemma restricted_decode_mask_checks_witness :
  FSDModelGPLVMRestricted.decode detach_by_masks restricted_1
    (xi_dict [0; 0]) (Some (<["non_inducing_binary_mask_tensor_n" := 1]> ∅))
  = Raise (AssertionError 603)
  /\ FSDModelGPLVMRestricted.decode detach_by_masks restricted_1
       (xi_dict [0; 0]) (Some (<["inducing_binary_mask_tensor_n" := 1]> ∅))
     = Raise (AssertionError 604).
Proof.
  assert (Hxi : xi_dict [0; 0] !! "fsd_xi_nq" = Some [0; 0])
    by apply lookup_insert_eq.
  split.
  - destruct (restricted_decode_mask_checks detach_by_masks restricted_1
                (xi_dict [0; 0]) [0; 0]
                (<["non_inducing_binary_mask_tensor_n" := 1]> ∅)
                eq_refl Hxi eq_refl) as [H603 _].
    apply H603.
    rewrite lookup_insert_ne by discriminate. apply lookup_empty.
  - destruct (restricted_decode_mask_checks detach_by_masks restricted_1
                (xi_dict [0; 0]) [0; 0]
                (<["inducing_binary_mask_tensor_n" := 1]> ∅)
                eq_refl Hxi eq_refl) as [_ [H604 _]].
    apply H604.
    + rewrite lookup_insert_eq. eauto.
    + rewrite lookup_insert_ne by discriminate. apply lookup_empty.
Defined.

(** ** The link as a function of the weighted mean *)

Lemma weighted_sum_pos (w mu : tensor) :
  all_positive w -> all_positive mu -> length w = length mu ->
  w <> [] -> 0 < tensor_sum (tensor_mul w mu).
Proof.
  unfold tensor_mul. intros Hw. revert mu.
  induction Hw as [|v w Hv Hw IH]; intros mu Hmu Hlen Hne; [congruence|].
  destruct mu as [|m mu]; [discriminate|].
  inversion Hmu as [|? ? Hm Hmu']; subst. simpl in Hlen.
  change (0 < v * m + tensor_sum (zip_with Rmult w mu)).
  pose proof (Rmult_lt_0_compat v m Hv Hm).
  destruct w as [|v' w].
  - destruct mu; [simpl; lra | discriminate].
  - specialize (IH mu Hmu' ltac:(lia) ltac:(discriminate)). lra.
Qed.

(** X18.  The restricted [decode] (without a [parents_dict]) makes the lo
    mean a function of the weighted mean of the hi means: for a row of the
    model's dimension whose log-mean entries are within the range of
    [exp], with [s] the sum of [w_hi * mu_hi] over the hi components, [s]
    is positive and [mu_lo] is [exp (intercept + slope * ln s)]; with the
    values the constructor gives the link, [intercept = ln ratio] and
    [slope = 1], it is [ratio * s]. *)
Theorem restricted_lo_mean
    (get_detached : R -> R -> R -> R)
    (self : FSDModelGPLVMRestricted.t) (xi : tensor) :
  (1 <= FSDModelGPLVMRestricted.n_fsd_hi_comps self)%Z ->
  shape_last xi = FSDModelGPLVMRestricted.fsd_xi_dim self ->
  Forall exp_safe
    (take (Z.to_nat (FSDModelGPLVMRestricted.n_fsd_hi_comps self)) xi) ->
  exists p,
    FSDModelGPLVMRestricted.decode get_detached self (xi_dict xi) None
    = Ok (params_dict p)
    /\ let s := tensor_sum (tensor_mul (w_hi p) (mu_hi p)) in
       0 < s
       /\ mu_lo p
          = [exp (FSDModelGPLVMRestricted.log_mu_lo_intercept self
                  + FSDModelGPLVMRestricted.log_mu_lo_slope self * ln s)]
       /\ forall ratio,
            0 < ratio ->
            FSDModelGPLVMRestricted.log_mu_lo_intercept self = ln ratio ->
            FSDModelGPLVMRestricted.log_mu_lo_slope self = 1 ->
            mu_lo p = [ratio * s].
Proof.
  intros Hhi Hlen _.
  destruct (restricted_split_xi self xi Hhi Hlen)
    as (a & b & c & -> & Ha & Hb & Hc).
  destruct (decoded_weights_valid
              (FSDModelGPLVMRestricted.n_fsd_hi_comps self) c (tensor_exp a))
    as [Hn [Hw Hsum]]; [assumption .. | rewrite shape_last_exp; assumption |].
  cbv zeta in Hn, Hw, Hsum.
  set (w := if (1 <? FSDModelGPLVMRestricted.n_fsd_hi_comps self)%Z
            then StickBreakingTransform._call c
            else ones_like (tensor_exp a)) in *.
  exists {| mu_lo :=
              [exp (FSDModelGPLVMRestricted.log_mu_lo_intercept self
                    + FSDModelGPLVMRestricted.log_mu_lo_slope self
                      * logsumexp (tensor_add a (tensor_log w)))];
            phi_lo := [1]; w_lo := [1];
            mu_hi := tensor_exp a; phi_hi := tensor_exp b; w_hi := w |}.
  split.
  { rewrite restricted_decode_cat by assumption.
    destruct (FSDModelGPLVMRestricted.detach_non_inducing_genes self);
      reflexivity. }
  cbn [mu_lo mu_hi w_hi]. cbv zeta.
  assert (Hs : 0 < tensor_sum (tensor_mul w (tensor_exp a))).
  { apply weighted_sum_pos; [exact Hw | apply tensor_exp_positive | |].
    - unfold shape_last in *. unfold tensor_exp. rewrite length_map. lia.
    - unfold shape_last in Hn. destruct w; [simpl in Hn; lia | discriminate]. }
  assert (Hl : logsumexp (tensor_add a (tensor_log w))
               = ln (tensor_sum (tensor_mul w (tensor_exp a)))).
  { unfold logsumexp. rewrite exp_add_log by exact Hw. reflexivity. }
  rewrite Hl. split; [exact Hs|]. split; [reflexivity|].
  intros ratio Hr -> ->. f_equal.
  rewrite Rmult_1_l, exp_plus, !exp_ln by assumption. reflexivity.
Qed.

Lemma restricted_lo_mean_witness :
  exists p,
    FSDModelGPLVMRestricted.decode detach_by_masks restricted_2
      (xi_dict [0; 1; 2; 3; 4]) None = Ok (params_dict p)
    /\ 0 < tensor_sum (tensor_mul (w_hi p) (mu_hi p))
    /\ mu_lo p = [1 / 10 * tensor_sum (tensor_mul (w_hi p) (mu_hi p))].
Proof.
  destruct (restricted_lo_mean detach_by_masks restricted_2 [0; 1; 2; 3; 4])
    as (p & Hdec & Hs & _ & Hinit);
    [simpl; lia | reflexivity
     | simpl; repeat constructor; unfold exp_safe; lra |].
  exists p. split; [exact Hdec|]. split; [exact Hs|].
  apply Hinit; [lra | reflexivity | reflexivity].
Defined.

(** ** What [encode] reads *)

(** X19.  The restricted [encode] reads the hi entries of its dict only,
    and the hi weights only when there is more than one hi component: two
    dicts that agree there are encoded alike (to the same row, or to the
    same exception), whatever their lo entries and whether they have any. *)
Theorem restricted_encode_reads_hi_only
    (self : FSDModelGPLVMRestricted.t) (d d' : gmap string tensor) :
  d !! "mu_hi" = d' !! "mu_hi" ->
  d !! "phi_hi" = d' !! "phi_hi" ->
  ((1 < FSDModelGPLVMRestricted.n_fsd_hi_comps self)%Z ->
   d !! "w_hi" = d' !! "w_hi") ->
  FSDModelGPLVMRestricted.encode self d
  = FSDModelGPLVMRestricted.encode self d'.
Proof.
  intros Hm Hp Hw. unfold FSDModelGPLVMRestricted.encode, getitem.
  rewrite Hm, Hp.
  destruct (Z.ltb_spec 1 (FSDModelGPLVMRestricted.n_fsd_hi_comps self));
    [rewrite Hw by assumption|]; reflexivity.
Qed.

Lemma restricted_encode_reads_hi_only_witness :
  FSDModelGPLVMRestricted.encode restricted_1 (params_dict params_1_1)
  = FSDModelGPLVMRestricted.encode restricted_1 dict_without_weights.
Proof.
  apply restricted_encode_reads_hi_only.
  - unfold params_dict, dict_without_weights.
    rewrite !lookup_insert_ne by discriminate.
    rewrite !lookup_insert_eq. reflexivity.
  - unfold params_dict, dict_without_weights.
    rewrite !lookup_insert_ne by discriminate.
    rewrite !lookup_insert_eq. reflexivity.
  - simpl. lia.
Defined.

(** X20.  The full [encode] reads the weights of a branch only when the
    branch has more than one component: two dicts that agree on the means
    and dispersions, and on the weights of every branch with several
    components, are encoded alike; the weight of a single component is
    never encoded. *)
Theorem full_encode_reads
    (self : FSDModelGPLVM.t) (d d' : gmap string tensor) :
  d !! "mu_hi" = d' !! "mu_hi" -> d !! "phi_hi" = d' !! "phi_hi" ->
  d !! "mu_lo" = d' !! "mu_lo" -> d !! "phi_lo" = d' !! "phi_lo" ->
  ((1 < FSDModelGPLVM.n_fsd_hi_comps self)%Z -> d !! "w_hi" = d' !! "w_hi") ->
  ((1 < FSDModelGPLVM.n_fsd_lo_comps self)%Z -> d !! "w_lo" = d' !! "w_lo") ->
  FSDModelGPLVM.encode self d = FSDModelGPLVM.encode self d'.
Proof.
  intros Hm Hp Lm Lp Hw Lw. unfold FSDModelGPLVM.encode, getitem.
  rewrite Hm, Hp, Lm, Lp.
  destruct (Z.ltb_spec 1 (FSDModelGPLVM.n_fsd_hi_comps self));
    [rewrite Hw by assumption|];
    (destruct (Z.ltb_spec 1 (FSDModelGPLVM.n_fsd_lo_comps self));
       [rewrite Lw by assumption|]); reflexivity.
Qed.

Lemma full_encode_reads_witness :
  FSDModelGPLVM.encode model_1_1 (params_dict params_1_1)
  = FSDModelGPLVM.encode model_1_1 dict_without_weights.
Proof.
  apply full_encode_reads;
    try (unfold params_dict, dict_without_weights;
         repeat (rewrite lookup_insert_ne by discriminate);
         rewrite !lookup_insert_eq; reflexivity);
    simpl; lia.
Defined.
